(** * insight-bot: the telemetry-backend query adapters

    A shallow embedding of the three tool modules of the chatbot
    ([mcp_servers/jaeger.py], [mcp_servers/loki.py],
    [mcp_servers/prometheus.py]) and the properties of their tool entry
    points, query builders and response normalizers.

    Python values that cross the tool boundary are JSON-shaped, so one
    inductive type [value] stands for them.  A Python [str] is a Rocq
    [string] whose characters are the code points 0-255; JSON numbers are
    the integers (no tool computes with a fractional number).  Exceptions
    are explicit: a computation returns [Ok v] or [Raise e].  The clock and
    the HTTP backends are oracles of an environment [Env]; the number of
    clock reads and the requests sent so far are the state [World]. *)

From Stdlib Require Import List String Ascii ZArith Bool Lia Arith.
From Stdlib Require Import DecimalString.
Import ListNotations.

Open Scope list_scope.
Open Scope string_scope.

(* ================================================================= *)
(** ** Python values *)

Unset Elimination Schemes.
Inductive value : Type :=
| VNone
| VBool (b : bool)
| VInt (n : Z)
| VStr (s : string)
| VList (l : list value)
| VDict (d : list (string * value)).
Set Elimination Schemes.

(** A dict is an association list in insertion order, keys distinct. *)
Definition dict := list (string * value).

Fixpoint dict_get (k : string) (d : dict) : option value :=
  match d with
  | [] => None
  | (k', v) :: d' => if String.eqb k k' then Some v else dict_get k d'
  end.

(** [d[k] = v]: replace in place when the key exists, append otherwise. *)
Fixpoint dict_set (k : string) (v : value) (d : dict) : dict :=
  match d with
  | [] => [(k, v)]
  | (k', v') :: d' =>
      if String.eqb k k' then (k, v) :: d' else (k', v') :: dict_set k v d'
  end.

Definition dict_keys (d : dict) : list string := map fst d.

(* ================================================================= *)
(** ** Exceptions and results *)

Inductive exn_class :=
| JaegerAPIError | LokiAPIError | PrometheusAPIError
| KeyError | IndexError | AttributeError | TypeError | ValueError
| OverflowError.

Definition exn_class_eqb (a b : exn_class) : bool :=
  match a, b with
  | JaegerAPIError, JaegerAPIError | LokiAPIError, LokiAPIError
  | PrometheusAPIError, PrometheusAPIError | KeyError, KeyError
  | IndexError, IndexError | AttributeError, AttributeError
  | TypeError, TypeError | ValueError, ValueError
  | OverflowError, OverflowError => true
  | _, _ => false
  end.

(** An exception: its class and [str(exc)]. *)
Record exn := Exn { exn_cls : exn_class; exn_str : string }.

Inductive result (A : Type) :=
| Ok (a : A)
| Raise (e : exn).
Arguments Ok {A} a.
Arguments Raise {A} e.

Definition rbind {A B} (r : result A) (k : A -> result B) : result B :=
  match r with
  | Ok a => k a
  | Raise e => Raise e
  end.

Notation "x <~ c ;; k" := (rbind c (fun x => k))
  (at level 61, c at next level, right associativity).

Fixpoint rmap {A B} (f : A -> result B) (l : list A) : result (list B) :=
  match l with
  | [] => Ok []
  | x :: l' => y <~ f x ;; ys <~ rmap f l' ;; Ok (y :: ys)
  end.

Fixpoint rfold {A S} (f : S -> A -> result S) (l : list A) (s : S)
  : result S :=
  match l with
  | [] => Ok s
  | x :: l' => s' <~ f s x ;; rfold f l' s'
  end.

(* ================================================================= *)
(** ** Strings *)

Definition ascii_code (c : ascii) : N := N_of_ascii c.

Definition in_range (lo hi : N) (c : ascii) : bool :=
  (N.leb lo (ascii_code c) && N.leb (ascii_code c) hi)%bool.

Definition is_digit (c : ascii) : bool := in_range 48 57 c.

Definition hex_digit (n : N) : ascii :=
  if N.ltb n 10 then ascii_of_N (48 + n) else ascii_of_N (87 + n).

Definition hex2 (c : ascii) : string :=
  let n := ascii_code c in
  String (hex_digit (N.div n 16)) (String (hex_digit (N.modulo n 16)) "").

Fixpoint str_contains_char (c : ascii) (s : string) : bool :=
  match s with
  | EmptyString => false
  | String c' s' => (Ascii.eqb c c' || str_contains_char c s')%bool
  end.

Fixpoint str_forall (p : ascii -> bool) (s : string) : bool :=
  match s with
  | EmptyString => true
  | String c s' => (p c && str_forall p s')%bool
  end.

(** [needle in hay] for two strings. *)
Fixpoint str_contains (needle hay : string) : bool :=
  (String.prefix needle hay ||
   match hay with
   | EmptyString => false
   | String _ hay' => str_contains needle hay'
   end)%bool.

(** [s[-1]] and [s[:-1]] of a non-empty string. *)
Fixpoint str_last (s : string) : option ascii :=
  match s with
  | EmptyString => None
  | String c EmptyString => Some c
  | String _ s' => str_last s'
  end.

Fixpoint str_init (s : string) : string :=
  match s with
  | EmptyString => EmptyString
  | String _ EmptyString => EmptyString
  | String c s' => String c (str_init s')
  end.

Fixpoint str_join (sep : string) (l : list string) : string :=
  match l with
  | [] => ""
  | [s] => s
  | s :: l' => s ++ sep ++ str_join sep l'
  end.

Fixpoint str_chars (s : string) : list string :=
  match s with
  | EmptyString => []
  | String c s' => String c "" :: str_chars s'
  end.

Definition string_of_Z (n : Z) : string :=
  NilZero.string_of_int (Z.to_int n).

(** [repr] of a [str]: quotes chosen as CPython does, the backslash, the
    quote, tab, newline and carriage return escaped, every other
    non-printable code point written [\xNN]. *)
Definition dquote : ascii := ascii_of_N 34.
Definition squote : ascii := ascii_of_N 39.
Definition backslash : ascii := ascii_of_N 92.

(** The one-character string holding a double quote. *)
Definition dq : string := String dquote "".

Definition repr_quote (s : string) : ascii :=
  if (str_contains_char squote s && negb (str_contains_char dquote s))%bool
  then dquote else squote.

Definition printable (c : ascii) : bool :=
  (in_range 32 126 c || (in_range 161 255 c && negb (Ascii.eqb c (ascii_of_N 173))))%bool.

Definition repr_char (q c : ascii) : string :=
  if (Ascii.eqb c q || Ascii.eqb c backslash)%bool
  then String backslash (String c "")
  else if Ascii.eqb c (ascii_of_N 9) then "\t"
  else if Ascii.eqb c (ascii_of_N 10) then "\n"
  else if Ascii.eqb c (ascii_of_N 13) then "\r"
  else if printable c then String c ""
  else "\x" ++ hex2 c.

Fixpoint repr_body (q : ascii) (s : string) : string :=
  match s with
  | EmptyString => ""
  | String c s' => repr_char q c ++ repr_body q s'
  end.

Definition repr_str (s : string) : string :=
  let q := repr_quote s in
  String q (repr_body q s) ++ String q "".

Fixpoint py_repr (v : value) : string :=
  match v with
  | VNone => "None"
  | VBool true => "True"
  | VBool false => "False"
  | VInt n => string_of_Z n
  | VStr s => repr_str s
  | VList l => "[" ++ str_join ", " (map py_repr l) ++ "]"
  | VDict d =>
      "{" ++ str_join ", "
               (map (fun kv => repr_str (fst kv) ++ ": " ++ py_repr (snd kv)) d)
          ++ "}"
  end.

(** [str(v)], also what an f-string interpolates. *)
Definition py_str (v : value) : string :=
  match v with
  | VStr s => s
  | _ => py_repr v
  end.

(* ================================================================= *)
(** ** Built-in operations on values *)

Definition type_name (v : value) : string :=
  match v with
  | VNone => "NoneType"
  | VBool _ => "bool"
  | VInt _ => "int"
  | VStr _ => "str"
  | VList _ => "list"
  | VDict _ => "dict"
  end.

Definition str_truthy (s : string) : bool :=
  match s with EmptyString => false | _ => true end.

(** [bool(v)] *)
Definition py_truthy (v : value) : bool :=
  match v with
  | VNone => false
  | VBool b => b
  | VInt n => negb (Z.eqb n 0)
  | VStr s => str_truthy s
  | VList l => match l with [] => false | _ => true end
  | VDict d => match d with [] => false | _ => true end
  end.

(** Truth of an optional string argument ([if service_name:]). *)
Definition opt_truthy (o : option string) : bool :=
  match o with
  | Some s => str_truthy s
  | None => false
  end.

Definition opt_value (o : option string) : value :=
  match o with
  | Some s => VStr s
  | None => VNone
  end.

(** [v == "literal"] *)
Definition py_eq_str (v : value) (s : string) : bool :=
  match v with
  | VStr t => String.eqb t s
  | _ => false
  end.

(** [==] between hashable values: [True == 1] and [False == 0]. *)
Definition py_eq_scalar (a b : value) : bool :=
  match a, b with
  | VNone, VNone => true
  | VBool x, VBool y => Bool.eqb x y
  | VBool x, VInt n | VInt n, VBool x => Z.eqb n (if x then 1 else 0)
  | VInt n, VInt m => Z.eqb n m
  | VStr s, VStr t => String.eqb s t
  | _, _ => false
  end.

Definition attribute_error (v : value) (attr : string) : exn :=
  Exn AttributeError
      ("'" ++ type_name v ++ "' object has no attribute '" ++ attr ++ "'").

Definition key_error (k : string) : exn := Exn KeyError (repr_str k).

(** [v.get(k, default)] *)
Definition py_get (v : value) (k : string) (default : value) : result value :=
  match v with
  | VDict d => Ok (match dict_get k d with Some x => x | None => default end)
  | _ => Raise (attribute_error v "get")
  end.

(** [v[k]] for a string key *)
Definition py_getitem (v : value) (k : string) : result value :=
  match v with
  | VDict d =>
      match dict_get k d with
      | Some x => Ok x
      | None => Raise (key_error k)
      end
  | VList _ =>
      Raise (Exn TypeError "list indices must be integers or slices, not str")
  | VStr _ => Raise (Exn TypeError "string indices must be integers, not 'str'")
  | _ => Raise (Exn TypeError ("'" ++ type_name v ++ "' object is not subscriptable"))
  end.

(** [v[0]] *)
Definition py_first (v : value) : result value :=
  match v with
  | VList (x :: _) => Ok x
  | VList [] => Raise (Exn IndexError "list index out of range")
  | VStr (String c _) => Ok (VStr (String c ""))
  | VStr EmptyString => Raise (Exn IndexError "string index out of range")
  | VDict _ => Raise (Exn KeyError "0")
  | _ => Raise (Exn TypeError ("'" ++ type_name v ++ "' object is not subscriptable"))
  end.

(** [k in v] for a string [k] *)
Definition py_contains (k : string) (v : value) : result bool :=
  match v with
  | VDict d => Ok (match dict_get k d with Some _ => true | None => false end)
  | VList l => Ok (existsb (fun x => py_eq_str x k) l)
  | VStr s => Ok (str_contains k s)
  | _ => Raise (Exn TypeError
                    ("argument of type '" ++ type_name v ++ "' is not iterable"))
  end.

(** [len(v)] *)
Definition py_len (v : value) : result Z :=
  match v with
  | VList l => Ok (Z.of_nat (List.length l))
  | VDict d => Ok (Z.of_nat (List.length d))
  | VStr s => Ok (Z.of_nat (String.length s))
  | _ => Raise (Exn TypeError
                    ("object of type '" ++ type_name v ++ "' has no len()"))
  end.

(** The items [for x in v] visits. *)
Definition py_iter (v : value) : result (list value) :=
  match v with
  | VList l => Ok l
  | VDict d => Ok (map (fun kv => VStr (fst kv)) d)
  | VStr s => Ok (map VStr (str_chars s))
  | _ => Raise (Exn TypeError ("'" ++ type_name v ++ "' object is not iterable"))
  end.

(** [v.items()] *)
Definition py_items (v : value) : result (list (string * value)) :=
  match v with
  | VDict d => Ok d
  | _ => Raise (attribute_error v "items")
  end.

(** A [set]: its members in first-insertion order, no two [==].  Python
    fixes no order for [list(a_set)]; statements about such a list speak of
    its members only. *)
Definition pyset := list value.

Definition set_add (x : value) (s : pyset) : result pyset :=
  match x with
  | VList _ | VDict _ =>
      Raise (Exn TypeError ("unhashable type: '" ++ type_name x ++ "'"))
  | _ => Ok (if existsb (py_eq_scalar x) s then s else (s ++ [x])%list)
  end.

(* ================================================================= *)
(** ** The environment and the state of a tool call *)

(** A [datetime]: the microseconds of its wall-clock fields since
    0001-01-01T00:00:00, and its UTC offset when it is aware. *)
Record datetime := Datetime { dt_wall : Z; dt_utcoffset : option Z }.

Definition datetime_max : Z := 315537897599999999.

Definition utc (us : Z) : datetime := Datetime us (Some 0%Z).

Record request := Request {
  req_url : string;
  req_params : option dict
}.

(** What [http_client.get(...)], [raise_for_status()] and [json()] yield:
    the decoded body, an [httpx.HTTPError] or any other exception, the last
    two with their [str(exc)]. *)
Inductive reply :=
| HttpJson (body : value)
| HttpError (msg : string)
| HttpUnexpected (msg : string).

Record Env := {
  (** [datetime.now(UTC)] at the n-th read of the clock *)
  env_now : nat -> Z;
  (** the reply to the n-th request *)
  env_http : nat -> request -> reply;
  (** [dt.isoformat()] *)
  env_isoformat : datetime -> string;
  (** [dt.strftime("%Y-%m-%dT%H:%M:%S.%fZ")]: the wall-clock fields only *)
  env_strftime : Z -> string;
  (** [datetime.fromisoformat(s)], [None] for a [ValueError] *)
  env_fromisoformat : string -> option datetime;
  (** [int(dt.timestamp() * k)]; a naive [dt] out of the platform's range
      raises *)
  env_timestamp : datetime -> Z -> result Z;
  (** [int(datetime.now(UTC).timestamp() * k)] for the instant read *)
  env_timestamp_utc : Z -> Z -> Z;
  (** [datetime.fromtimestamp(ns / 1_000_000_000, tz=UTC).isoformat()] *)
  env_fromtimestamp_ns : Z -> result string;
  (** [urllib.parse.quote] *)
  env_quote : string -> string;
  env_jaeger_url : string;
  env_loki_url : string;
  env_prometheus_url : string
}.

Record World := {
  clock_reads : nat;
  requests : list request   (* most recent first *)
}.

Definition world0 : World := {| clock_reads := 0; requests := [] |}.

(** The world after one more read of the clock, and after one more
    request. *)
Definition tick (w : World) : World :=
  {| clock_reads := S (clock_reads w); requests := requests w |}.

Definition sent (req : request) (w : World) : World :=
  {| clock_reads := clock_reads w; requests := req :: requests w |}.

Definition M (A : Type) : Type := Env -> World -> result A * World.

Definition ret {A} (a : A) : M A := fun _ w => (Ok a, w).

Definition bind {A B} (m : M A) (k : A -> M B) : M B :=
  fun env w =>
    match m env w with
    | (Ok a, w') => k a env w'
    | (Raise e, w') => (Raise e, w')
    end.

Notation "x <- c ;; k" := (bind c (fun x => k))
  (at level 61, c at next level, right associativity).

Definition lift {A} (r : result A) : M A := fun _ w => (r, w).

Definition raise {A} (e : exn) : M A := lift (Raise e).

Definition ask : M Env := fun env w => (Ok env, w).

(** [if c: body], where the body only raises or passes. *)
Definition when_ (c : bool) (body : M unit) : M unit :=
  if c then body else ret tt.

(** [datetime.now(UTC)] *)
Definition now_utc : M datetime :=
  fun env w =>
    (Ok (utc (env_now env (clock_reads w))), tick w).

(** [datetime.now(UTC).isoformat()] *)
Definition now_iso : M value :=
  t <- now_utc ;; env <- ask ;; ret (VStr (env_isoformat env t)).

(** A [for] loop that updates the local state [s]. *)
Fixpoint for_each {A S} (l : list A) (body : S -> A -> M S) (s : S) : M S :=
  match l with
  | [] => ret s
  | x :: l' => s' <- body s x ;; for_each l' body s'
  end.

(** The frame every tool entry point has:
    [try: body  except <Backend>Error: raise
     except Exception as exc: raise <Backend>Error(prefix + str(exc))
     else: orelse].
    An exception of the [else] block is not handled by the clauses. *)
Definition tool_try {A B} (cls : exn_class) (prefix : string)
    (body : M A) (orelse : A -> M B) : M B :=
  fun env w =>
    match body env w with
    | (Ok a, w') => orelse a env w'
    | (Raise e, w') =>
        if exn_class_eqb (exn_cls e) cls then (Raise e, w')
        else (Raise (Exn cls (prefix ++ exn_str e)), w')
    end.

(** [try: body  except (cls, ...) as exc: handler(str(exc))] *)
Definition try_except {A} (clss : list exn_class) (body : M A)
    (handler : string -> M A) : M A :=
  fun env w =>
    match body env w with
    | (Ok a, w') => (Ok a, w')
    | (Raise e, w') =>
        if existsb (exn_class_eqb (exn_cls e)) clss
        then handler (exn_str e) env w'
        else (Raise e, w')
    end.

(** The three [make_*_request] gateways differ in the error class, the
    name in the message and the URL prefix only. *)
Definition make_request (cls : exn_class) (api : string) (url : string)
    (params : option dict) : M value :=
  fun env w =>
    let req := Request url params in
    let w' := sent req w in
    match env_http env (List.length (requests w)) req with
    | HttpJson body => (Ok body, w')
    | HttpError msg =>
        (Raise (Exn cls ("Failed to call " ++ api ++ " API: " ++ msg)), w')
    | HttpUnexpected msg => (Raise (Exn cls ("Unexpected error: " ++ msg)), w')
    end.

(* ================================================================= *)
(** ** jaeger.py *)

Module Jaeger.

Definition _raise_jaeger_error {A} (msg : string) : M A :=
  raise (Exn JaegerAPIError msg).

Definition make_jaeger_request (endpoint : string) (params : option dict)
  : M value :=
  env <- ask ;;
  make_request JaegerAPIError "Jaeger"
               (env_jaeger_url env ++ "/api" ++ endpoint) params.

(** [if "data" not in response: _raise_jaeger_error(...)] followed by
    [response["data"]]. *)
Definition response_data (response : value) : M value :=
  has <- lift (py_contains "data" response) ;;
  _ <- when_ (negb has)
         (_raise_jaeger_error "Invalid response format from Jaeger API") ;;
  lift (py_getitem response "data").

Definition get_services : M value :=
  tool_try JaegerAPIError "Failed to get services: "
    (response <- make_jaeger_request "/services" None ;;
     services <- response_data response ;;
     items <- lift (py_iter services) ;;
     service_list <-
       for_each items
         (fun acc service =>
            t <- now_iso ;;
            ret (acc ++ [VDict [("name", service); ("retrieved_at", t)]])%list)
         [] ;;
     ret (VList service_list))
    ret.

(** [span.get("process", {}).get("serviceName", "")] *)
Definition span_service_name (span : value) : result value :=
  process <~ py_get span "process" (VDict []) ;;
  py_get process "serviceName" (VStr "").

Definition span_info (span : value) : result value :=
  span_id <~ py_get span "spanID" VNone ;;
  trace_id <~ py_get span "traceID" VNone ;;
  operation_name <~ py_get span "operationName" VNone ;;
  service_name <~ span_service_name span ;;
  start_time <~ py_get span "startTime" VNone ;;
  duration <~ py_get span "duration" VNone ;;
  tags <~ py_get span "tags" (VList []) ;;
  logs <~ py_get span "logs" (VList []) ;;
  references <~ py_get span "references" (VList []) ;;
  Ok (VDict [("span_id", span_id); ("trace_id", trace_id);
             ("operation_name", operation_name);
             ("service_name", service_name);
             ("start_time", start_time); ("duration", duration);
             ("tags", tags); ("logs", logs); ("references", references)]).

Definition get_trace (trace_id : string) : M value :=
  tool_try JaegerAPIError "Failed to get trace: "
    (_ <- when_ (negb (str_truthy trace_id))
            (_raise_jaeger_error "Trace ID is required") ;;
     response <- make_jaeger_request ("/traces/" ++ trace_id) None ;;
     trace_data <- response_data response ;;
     _ <- when_ (negb (py_truthy trace_data))
            (_raise_jaeger_error ("No trace found with ID: " ++ trace_id)) ;;
     traces <- lift (match trace_data with
                     | VList _ => py_first trace_data
                     | _ => Ok trace_data
                     end) ;;
     processes <- lift (py_get traces "processes" (VDict [])) ;;
     retrieved_at <- now_iso ;;
     spans <- lift (py_get traces "spans" (VList [])) ;;
     items <- lift (py_iter spans) ;;
     span_list <-
       for_each items
         (fun acc span => info <- lift (span_info span) ;; ret (acc ++ [info])%list)
         [] ;;
     ret (VDict [("trace_id", VStr trace_id); ("spans", VList span_list);
                 ("processes", processes); ("retrieved_at", retrieved_at)]))
    ret.

(** One backend edge as [analyze_service_dependencies] reports it. *)
Definition dependency_entry (parent child call_count : value) : value :=
  VDict [("parent_service", parent); ("child_service", child);
         ("call_count", call_count);
         ("relationship", VStr (py_str parent ++ " -> " ++ py_str child))].

(** [dep.get("parent") == service_name or dep.get("child") == service_name] *)
Definition touches (service_name : string) (dep : value) : result bool :=
  parent <~ py_get dep "parent" VNone ;;
  if py_eq_str parent service_name then Ok true
  else child <~ py_get dep "child" VNone ;; Ok (py_eq_str child service_name).

(** The filtering loop: [filtered_deps.append(dep)] for the edges kept. *)
Fixpoint filter_deps (service_name : string) (deps : list value)
  : result (list value) :=
  match deps with
  | [] => Ok []
  | dep :: rest =>
      keep <~ touches service_name dep ;;
      kept <~ filter_deps service_name rest ;;
      Ok (if keep then dep :: kept else kept)
  end.

(** The formatting loop: the state is the [dependencies] list of the result
    and its [unique_services] set. *)
Definition add_dependency (st : list value * pyset) (dep : value)
  : result (list value * pyset) :=
  parent <~ py_get dep "parent" VNone ;;
  child <~ py_get dep "child" VNone ;;
  call_count <~ py_get dep "callCount" (VInt 0) ;;
  let entry := dependency_entry parent child call_count in
  s1 <~ set_add parent (snd st) ;;
  s2 <~ set_add child s1 ;;
  Ok ((fst st ++ [entry])%list, s2).

Definition analyze_service_dependencies (service_name : option string)
    (lookback_hours : Z) : M value :=
  tool_try JaegerAPIError "Failed to analyze service dependencies: "
    (end_time <- now_utc ;;
     env <- ask ;;
     let end_ms := env_timestamp_utc env (dt_wall end_time) 1000 in
     let lookback_ms := (lookback_hours * 3600 * 1000)%Z in
     let params := [("endTs", VInt end_ms); ("lookback", VInt lookback_ms)] in
     response <- make_jaeger_request "/dependencies" (Some params) ;;
     dependencies <- response_data response ;;
     dependencies <-
       (if opt_truthy service_name then
          items <- lift (py_iter dependencies) ;;
          kept <- lift (filter_deps
                          (match service_name with Some s => s | None => "" end)
                          items) ;;
          ret (VList kept)
        else ret dependencies) ;;
     analysis_time <- now_iso ;;
     total <- lift (py_len dependencies) ;;
     items <- lift (py_iter dependencies) ;;
     st <- lift (rfold add_dependency items ([], [])) ;;
     ret (VDict [("service_name", opt_value service_name);
                 ("lookback_hours", VInt lookback_hours);
                 ("analysis_time", analysis_time);
                 ("dependencies", VList (fst st));
                 ("summary",
                  VDict [("total_dependencies", VInt total);
                         ("unique_services", VList (snd st))])]))
    ret.

Definition get_service_operations (service_name : string) : M value :=
  tool_try JaegerAPIError "Failed to get operations: "
    (_ <- when_ (negb (str_truthy service_name))
            (_raise_jaeger_error "Service name is required") ;;
     response <- make_jaeger_request "/operations"
                   (Some [("service", VStr service_name)]) ;;
     operations <- response_data response ;;
     items <- lift (py_iter operations) ;;
     operation_list <-
       for_each items
         (fun acc operation =>
            t <- now_iso ;;
            ret (acc ++ [VDict [("name", operation);
                                ("service", VStr service_name);
                                ("retrieved_at", t)]])%list)
         [] ;;
     ret (VList operation_list))
    ret.

Record TraceSearchParams := {
  service : option string;
  operation : option string;
  tags : option dict;
  start_time : option string;
  end_time : option string;
  limit : Z;
  min_duration : option string;
  max_duration : option string;
  lookback : option string
}.

(** [s.lower()] *)
Definition lower_char (c : ascii) : ascii :=
  if (in_range 65 90 c
      || (in_range 192 222 c && negb (Ascii.eqb c (ascii_of_N 215))))%bool
  then ascii_of_N (ascii_code c + 32) else c.

Fixpoint str_lower (s : string) : string :=
  match s with
  | EmptyString => EmptyString
  | String c s' => String (lower_char c) (str_lower s')
  end.

(** The string a tag value is sent as:
    [str(v).lower() if isinstance(v, bool) else str(v)]. *)
Definition stringify_tag (v : value) : string :=
  match v with
  | VBool _ => str_lower (py_str v)
  | _ => py_str v
  end.

(** [json.dumps] of a [str]: the quote, the backslash and the control
    characters escaped, every code point outside 0x20-0x7e as [\u00XX]. *)
Definition json_escape_char (c : ascii) : string :=
  if Ascii.eqb c dquote then String backslash dq
  else if Ascii.eqb c backslash then String backslash (String backslash "")
  else if Ascii.eqb c (ascii_of_N 10) then String backslash "n"
  else if Ascii.eqb c (ascii_of_N 13) then String backslash "r"
  else if Ascii.eqb c (ascii_of_N 9) then String backslash "t"
  else if Ascii.eqb c (ascii_of_N 8) then String backslash "b"
  else if Ascii.eqb c (ascii_of_N 12) then String backslash "f"
  else if in_range 32 126 c then String c ""
  else String backslash "u00" ++ hex2 c.

Fixpoint json_escape (s : string) : string :=
  match s with
  | EmptyString => ""
  | String c s' => json_escape_char c ++ json_escape s'
  end.

Definition json_dumps_str (s : string) : string :=
  dq ++ json_escape s ++ dq.

(** [json.dumps] of a dict whose keys and values are strings. *)
Definition json_dumps_strdict (d : list (string * string)) : string :=
  "{" ++ str_join ", "
           (map (fun kv => json_dumps_str (fst kv) ++ ": "
                           ++ json_dumps_str (snd kv)) d)
      ++ "}".

(** [stringified_tags[k] = ...] for every item of the tag mapping. *)
Fixpoint strdict_set (k v : string) (d : list (string * string))
  : list (string * string) :=
  match d with
  | [] => [(k, v)]
  | (k', v') :: d' =>
      if String.eqb k k' then (k, v) :: d' else (k', v') :: strdict_set k v d'
  end.

Definition stringify_tags (tags : dict) : list (string * string) :=
  fold_left (fun acc kv => strdict_set (fst kv) (stringify_tag (snd kv)) acc)
            tags [].

(** [params[key] = int(datetime.fromisoformat(s).timestamp() * 1_000_000)] *)
Definition set_epoch_param (env : Env) (key s : string) (params : dict)
  : result dict :=
  match env_fromisoformat env s with
  | Some dt =>
      t <~ env_timestamp env dt 1000000 ;;
      Ok (dict_set key (VInt t) params)
  | None =>
      Raise (Exn ValueError ("Invalid isoformat string: " ++ repr_str s))
  end.

Definition set_if_truthy (key : string) (o : option string) (params : dict)
  : dict :=
  if opt_truthy o then dict_set key (opt_value o) params else params.

Definition set_if_not_none (key : string) (o : option string) (params : dict)
  : dict :=
  match o with
  | Some s => dict_set key (VStr s) params
  | None => params
  end.

Definition _build_trace_search_params (env : Env) (params_obj : TraceSearchParams)
  : result dict :=
  let params := [("limit", VInt (limit params_obj))] in
  let params := set_if_truthy "service" (service params_obj) params in
  let params := set_if_truthy "operation" (operation params_obj) params in
  let params := set_if_not_none "minDuration" (min_duration params_obj) params in
  let params := set_if_not_none "maxDuration" (max_duration params_obj) params in
  let params := set_if_truthy "lookback" (lookback params_obj) params in
  params <~ (match start_time params_obj with
             | Some s =>
                 if str_truthy s then set_epoch_param env "start" s params
                 else Ok params
             | None => Ok params
             end) ;;
  params <~ (match end_time params_obj with
             | Some s =>
                 if (str_truthy s && negb (String.eqb s "now"))%bool
                 then set_epoch_param env "end" s params
                 else Ok params
             | None => Ok params
             end) ;;
  Ok (match tags params_obj with
      | Some ((_ :: _) as t) =>
          dict_set "tags" (VStr (json_dumps_strdict (stringify_tags t))) params
      | _ => params
      end).

(** [any(ref.get("refType") == "CHILD_OF" for ref in references)] *)
Fixpoint any_child_of (refs : list value) : result bool :=
  match refs with
  | [] => Ok false
  | ref :: rest =>
      t <~ py_get ref "refType" VNone ;;
      if py_eq_str t "CHILD_OF" then Ok true else any_child_of rest
  end.

Definition has_parent (span : value) : result bool :=
  references <~ py_get span "references" (VList []) ;;
  refs <~ py_iter references ;;
  any_child_of refs.

Definition root_span_info (span : value) : result value :=
  operation_name <~ py_get span "operationName" VNone ;;
  service_name <~ span_service_name span ;;
  start_time <~ py_get span "startTime" VNone ;;
  duration <~ py_get span "duration" VNone ;;
  tags <~ py_get span "tags" (VList []) ;;
  Ok (VDict [("operation_name", operation_name);
             ("service_name", service_name);
             ("start_time", start_time); ("duration", duration);
             ("tags", tags)]).

Fixpoint find_root_loop (spans : list value) : result value :=
  match spans with
  | [] => Ok VNone
  | span :: rest =>
      p <~ has_parent span ;;
      if negb p then root_span_info span else find_root_loop rest
  end.

Definition _find_root_span (spans : value) : result value :=
  items <~ py_iter spans ;;
  find_root_loop items.

(** One step of the set comprehension that collects the service names. *)
Definition add_service (s : pyset) (span : value) : result pyset :=
  process <~ py_get span "process" (VDict []) ;;
  name <~ py_get process "serviceName" VNone ;;
  if py_truthy name
  then elem <~ span_service_name span ;; set_add elem s
  else Ok s.

Definition _process_trace_data (trace : value) : result value :=
  spans <~ py_get trace "spans" (VList []) ;;
  trace_id <~ py_get trace "traceID" VNone ;;
  spans_count <~ py_len spans ;;
  duration <~ (if py_truthy spans
               then first <~ py_first spans ;; py_get first "duration" (VInt 0)
               else Ok (VInt 0)) ;;
  items <~ py_iter spans ;;
  services <~ rfold add_service items [] ;;
  root_span <~ _find_root_span spans ;;
  Ok (VDict [("trace_id", trace_id); ("spans_count", VInt spans_count);
             ("duration", duration); ("services", VList services);
             ("root_span", root_span)]).

Definition search_parameters (params : TraceSearchParams) : value :=
  VDict [("service", opt_value (service params));
         ("operation", opt_value (operation params));
         ("tags", match tags params with Some t => VDict t | None => VNone end);
         ("start_time", opt_value (start_time params));
         ("end_time", opt_value (end_time params));
         ("limit", VInt (limit params));
         ("min_duration", opt_value (min_duration params));
         ("max_duration", opt_value (max_duration params));
         ("lookback", opt_value (lookback params))].

Definition search_traces (params : TraceSearchParams) : M value :=
  tool_try JaegerAPIError "Failed to search traces: "
    (env <- ask ;;
     query_params <- lift (_build_trace_search_params env params) ;;
     response <- make_jaeger_request "/traces" (Some query_params) ;;
     traces_data <- response_data response ;;
     items <- lift (py_iter traces_data) ;;
     traces <- lift (rmap _process_trace_data items) ;;
     total_found <- lift (py_len traces_data) ;;
     search_time <- now_iso ;;
     ret (VDict [("search_parameters", search_parameters params);
                 ("traces", VList traces);
                 ("summary", VDict [("total_found", VInt total_found);
                                    ("search_time", search_time)])]))
    ret.

End Jaeger.

(* ================================================================= *)
(** ** loki.py *)

(** [int(s)] for a string: surrounding whitespace, a sign, decimal digits
    with single underscores between them, and CPython's limit on the
    number of digits. *)
Definition int_max_str_digits : nat := 4300.

Definition is_space (c : ascii) : bool :=
  (in_range 9 13 c || in_range 28 32 c
   || Ascii.eqb c (ascii_of_N 133) || Ascii.eqb c (ascii_of_N 160))%bool.

Fixpoint str_lstrip (s : string) : string :=
  match s with
  | EmptyString => EmptyString
  | String c s' => if is_space c then str_lstrip s' else s
  end.

Fixpoint str_rev_append (s acc : string) : string :=
  match s with
  | EmptyString => acc
  | String c s' => str_rev_append s' (String c acc)
  end.

Definition str_rev (s : string) : string := str_rev_append s "".

Definition str_strip (s : string) : string :=
  str_rev (str_lstrip (str_rev (str_lstrip s))).

Definition digit_value (c : ascii) : Z := Z.of_N (ascii_code c) - 48.

(** The value and the number of the digits of [s]; [after_us] is true at
    the start and after an underscore, where a digit must follow. *)
Fixpoint digits_value (s : string) (acc : Z) (after_us : bool) (count : nat)
  : option (Z * nat) :=
  match s with
  | EmptyString => if after_us then None else Some (acc, count)
  | String c s' =>
      if is_digit c
      then digits_value s' (acc * 10 + digit_value c)%Z false (S count)
      else if (Ascii.eqb c "_" && negb after_us)%bool
      then digits_value s' acc true count
      else None
  end.

Definition int_of_str (s : string) : result Z :=
  let t := str_strip s in
  let '(sign, body) :=
    match t with
    | String "+" r => (1%Z, r)
    | String "-" r => ((-1)%Z, r)
    | _ => (1%Z, t)
    end in
  match digits_value body 0 true 0 with
  | Some (v, n) =>
      if Nat.leb n int_max_str_digits then Ok (sign * v)%Z
      else Raise (Exn ValueError
             "Exceeds the limit (4300 digits) for integer string conversion")
  | None =>
      Raise (Exn ValueError
                 ("invalid literal for int() with base 10: " ++ repr_str s))
  end.

(** [int(v)] *)
Definition py_int (v : value) : result Z :=
  match v with
  | VStr s => int_of_str s
  | VInt n => Ok n
  | VBool b => Ok (if b then 1%Z else 0%Z)
  | _ => Raise (Exn TypeError
           ("int() argument must be a string, a bytes-like object or a real number, not '"
              ++ type_name v ++ "'"))
  end.

(** [timedelta(seconds=n)] in microseconds; more than 999999999 days
    either way is an [OverflowError]. *)
Definition timedelta_seconds (n : Z) : result Z :=
  let days := (n / 86400)%Z in
  if (Z.leb (-999999999) days && Z.leb days 999999999)%bool
  then Ok (n * 1000000)%Z
  else Raise (Exn OverflowError
                  ("days=" ++ string_of_Z days
                           ++ "; must have magnitude <= 999999999")).

(** [dt - delta]; a result outside year 1 to 9999 is an [OverflowError]. *)
Definition datetime_sub (dt : datetime) (delta : Z) : result datetime :=
  let r := (dt_wall dt - delta)%Z in
  if (Z.leb 0 r && Z.leb r datetime_max)%bool
  then Ok (Datetime r (dt_utcoffset dt))
  else Raise (Exn OverflowError "date value out of range").

Module Loki.

Definition _raise_loki_error {A} (msg : string) : M A :=
  raise (Exn LokiAPIError msg).

Definition make_loki_request (endpoint : string) (params : option dict)
  : M value :=
  env <- ask ;;
  make_request LokiAPIError "Loki" (env_loki_url env ++ endpoint) params.

Definition response_data (response : value) : M value :=
  has <- lift (py_contains "data" response) ;;
  _ <- when_ (negb has)
         (_raise_loki_error "Invalid response format from Loki API") ;;
  lift (py_getitem response "data").

(** [time_str.endswith(("m", "h", "s"))] *)
Definition ends_with_unit (s : string) : bool :=
  match str_last s with
  | Some c => (Ascii.eqb c "m" || Ascii.eqb c "h" || Ascii.eqb c "s")%bool
  | None => false
  end.

(** The seconds of [value] units; [None] where the source returns [None]
    (no unit but s, m and h gets here). *)
Definition unit_seconds (unit : ascii) (value : Z) : option Z :=
  if Ascii.eqb unit "s" then Some value
  else if Ascii.eqb unit "m" then Some (value * 60)%Z
  else if Ascii.eqb unit "h" then Some (value * 3600)%Z
  else None.

(** The body of the [try] block: [Some v] when it returns [v], [None] when
    control falls through to the [else] clause. *)
Definition format_time_body (time_str : string) : M (option value) :=
  if ends_with_unit time_str then
    let unit := match str_last time_str with Some c => c | None => "s"%char end in
    value <- lift (int_of_str (str_init time_str)) ;;
    match unit_seconds unit value with
    | Some secs =>
        delta <- lift (timedelta_seconds secs) ;;
        now <- now_utc ;;
        target_time <- lift (datetime_sub now delta) ;;
        env <- ask ;;
        ret (Some (VStr (env_strftime env (dt_wall target_time))))
    | None => ret (Some VNone)
    end
  else if str_contains "T" time_str then
    env <- ask ;;
    match env_fromisoformat env time_str with
    | Some dt => ret (Some (VStr (env_strftime env (dt_wall dt))))
    | None =>
        raise (Exn ValueError
                   ("Invalid isoformat string: " ++ repr_str time_str))
    end
  else ret None.

Definition _format_time_for_loki (time_str : option string) : M value :=
  match time_str with
  | None => ret VNone
  | Some s =>
      if negb (str_truthy s) then ret VNone
      else
        try_except [ValueError; TypeError]
          (r <- format_time_body s ;;
           match r with
           | Some v => ret v
           | None => ret (VStr s)
           end)
          (fun _ => ret (VStr s))
  end.

(** [if t: f = _format_time_for_loki(t); if f: params[key] = f] *)
Definition set_time_param (key : string) (t : option string) (params : dict)
  : M dict :=
  if opt_truthy t then
    formatted <- _format_time_for_loki t ;;
    ret (if py_truthy formatted then dict_set key formatted params else params)
  else ret params.

Definition _build_query_params (query : string) (start_time end_time : option string)
    (limit : Z) (direction : string) : M dict :=
  let params := [("query", VStr query); ("limit", VInt limit);
                 ("direction", VStr direction)] in
  params <- set_time_param "start" start_time params ;;
  set_time_param "end" end_time params.

(** [timestamp_ns, log_line = value] *)
Definition unpack2 (v : value) : result (value * value) :=
  match v with
  | VList _ | VDict _ | VStr _ =>
      items <~ py_iter v ;;
      match items with
      | [a; b] => Ok (a, b)
      | _ :: _ :: _ :: _ =>
          Raise (Exn ValueError "too many values to unpack (expected 2)")
      | _ =>
          Raise (Exn ValueError
                     ("not enough values to unpack (expected 2, got "
                        ++ string_of_Z (Z.of_nat (List.length items)) ++ ")"))
      end
  | _ => Raise (Exn TypeError
                    ("cannot unpack non-iterable " ++ type_name v ++ " object"))
  end.

Definition log_entry (env : Env) (stream_labels : value) (v : value)
  : result value :=
  pair <~ unpack2 v ;;
  let '(timestamp_ns, log_line) := pair in
  ns <~ py_int timestamp_ns ;;
  timestamp <~ env_fromtimestamp_ns env ns ;;
  service_name <~ py_get stream_labels "service_name" (VStr "") ;;
  severity_text <~ py_get stream_labels "severity_text" (VStr "") ;;
  Ok (VDict [("timestamp", VStr timestamp); ("timestamp_ns", timestamp_ns);
             ("log_line", log_line); ("stream_labels", stream_labels);
             ("service_name", service_name);
             ("severity_text", severity_text)]).

(** The body of the outer loop; the state is [formatted_logs] and
    [total_entries]. *)
Definition format_stream (env : Env) (st : list value * Z) (stream : value)
  : result (list value * Z) :=
  stream_labels <~ py_get stream "stream" (VDict []) ;;
  values <~ py_get stream "values" (VList []) ;;
  n <~ py_len values ;;
  items <~ py_iter values ;;
  entries <~ rmap (log_entry env stream_labels) items ;;
  Ok ((fst st ++ entries)%list, (snd st + n)%Z).

Definition _format_log_entries (env : Env) (results : value)
  : result (list value * Z) :=
  streams <~ py_iter results ;;
  rfold (format_stream env) streams ([], 0%Z).

Definition query_logs (query : string) (start_time end_time : option string)
    (limit : Z) (direction : string) : M value :=
  tool_try LokiAPIError "Failed to query logs: "
    (_ <- when_ (negb (str_truthy query))
            (_raise_loki_error "Query is required") ;;
     params <- _build_query_params query start_time end_time limit direction ;;
     response <- make_loki_request "/loki/api/v1/query_range" (Some params) ;;
     data <- response_data response ;;
     result_type <- lift (py_get data "resultType" (VStr "")) ;;
     results <- lift (py_get data "result" (VList [])) ;;
     env <- ask ;;
     logs <- lift (_format_log_entries env results) ;;
     streams_count <- lift (py_len results) ;;
     query_time <- now_iso ;;
     ret (VDict
            [("query", VStr query); ("result_type", result_type);
             ("logs", VList (fst logs));
             ("summary",
              VDict [("total_entries", VInt (snd logs));
                     ("streams_count", VInt streams_count);
                     ("query_time", query_time);
                     ("time_range",
                      VDict [("start", opt_value start_time);
                             ("end", opt_value end_time)])]);
             ("query_parameters",
              VDict [("limit", VInt limit); ("direction", VStr direction)])]))
    ret.

Definition get_log_labels : M value :=
  tool_try LokiAPIError "Failed to get labels: "
    (response <- make_loki_request "/loki/api/v1/labels" None ;;
     labels <- response_data response ;;
     labels_count <- lift (py_len labels) ;;
     retrieved_at <- now_iso ;;
     ret (VDict [("labels", labels); ("labels_count", VInt labels_count);
                 ("retrieved_at", retrieved_at)]))
    ret.

Definition get_label_values (label : string) : M value :=
  tool_try LokiAPIError "Failed to get label values: "
    (_ <- when_ (negb (str_truthy label))
            (_raise_loki_error "Label name is required") ;;
     env <- ask ;;
     response <- make_loki_request
                   ("/loki/api/v1/label/" ++ env_quote env label ++ "/values")
                   None ;;
     values <- response_data response ;;
     values_count <- lift (py_len values) ;;
     retrieved_at <- now_iso ;;
     ret (VDict [("label", VStr label); ("values", values);
                 ("values_count", VInt values_count);
                 ("retrieved_at", retrieved_at)]))
    ret.

(** [result[k] = v] on the value a callee returned. *)
Definition py_setitem (d : value) (k : string) (v : value) : result value :=
  match d with
  | VDict l => Ok (VDict (dict_set k v l))
  | _ => Raise (Exn TypeError
                    ("'" ++ type_name d
                         ++ "' object does not support item assignment"))
  end.

Definition search_logs_by_trace_id (trace_id label : string)
    (start_time end_time : option string) (limit : Z) : M value :=
  tool_try LokiAPIError "Failed to search logs by trace ID: "
    (_ <- when_ (negb (str_truthy trace_id))
            (_raise_loki_error "Trace ID is required") ;;
     _ <- when_ (negb (str_truthy label))
            (_raise_loki_error "Label is required") ;;
     let query := "{" ++ label ++ "} | json | trace_id=" ++ dq ++ trace_id ++ dq in
     let search_start_time :=
       if opt_truthy start_time then start_time else Some "1h" in
     result <- query_logs query search_start_time end_time limit "backward" ;;
     result <- lift (py_setitem result "trace_id" (VStr trace_id)) ;;
     lift (py_setitem result "search_type" (VStr "trace_correlation")))
    ret.

End Loki.

(* ================================================================= *)
(** ** prometheus.py *)

Module Prometheus.

Definition _raise_prometheus_error {A} (msg : string) : M A :=
  raise (Exn PrometheusAPIError msg).

Definition make_prometheus_request (endpoint : string) (params : option dict)
  : M value :=
  env <- ask ;;
  make_request PrometheusAPIError "Prometheus"
               (env_prometheus_url env ++ "/api/v1" ++ endpoint) params.

(** [if response.get("status") != "success":
       error_msg = response.get("error", "Unknown error")
       _raise_prometheus_error(f"<prefix>{error_msg}")] *)
Definition check_status (response : value) (prefix : string) : M unit :=
  status <- lift (py_get response "status" VNone) ;;
  if negb (py_eq_str status "success") then
    error_msg <- lift (py_get response "error" (VStr "Unknown error")) ;;
    _raise_prometheus_error (prefix ++ py_str error_msg)
  else ret tt.

(** [if "warnings" in response: result["warnings"] = response["warnings"]] *)
Definition add_warnings (response : value) (result : dict) : M dict :=
  has <- lift (py_contains "warnings" response) ;;
  if has then
    w <- lift (py_getitem response "warnings") ;;
    ret (dict_set "warnings" w result)
  else ret result.

(** The [else] block of the two query tools, which computes what the log
    line shows from the response once more. *)
Definition log_result_shape (response : value) : M unit :=
  data <- lift (py_getitem response "data") ;;
  result_type <- lift (py_get data "resultType" (VStr "unknown")) ;;
  res <- lift (py_get data "result" (VList [])) ;;
  result_count <- lift (py_len res) ;;
  ret tt.

Definition set_opt_param (key : string) (o : option string) (params : dict)
  : dict :=
  if opt_truthy o then dict_set key (opt_value o) params else params.

Definition query_prometheus (query : string) (time : option string) : M value :=
  tool_try PrometheusAPIError "Failed to execute query: "
    (_ <- when_ (negb (str_truthy query))
            (_raise_prometheus_error "Query is required") ;;
     let params := set_opt_param "time" time [("query", VStr query)] in
     response <- make_prometheus_request "/query" (Some params) ;;
     _ <- check_status response "Prometheus query failed: " ;;
     status <- lift (py_getitem response "status") ;;
     data <- lift (py_getitem response "data") ;;
     executed_at <- now_iso ;;
     result <- add_warnings response
                 [("query", VStr query); ("status", status); ("data", data);
                  ("executed_at", executed_at)] ;;
     ret (response, VDict result))
    (fun rr => _ <- log_result_shape (fst rr) ;; ret (snd rr)).

Definition query_range_prometheus (query start end_ step : string) : M value :=
  tool_try PrometheusAPIError "Failed to execute range query: "
    (_ <- when_ (negb (str_truthy query))
            (_raise_prometheus_error "Query is required") ;;
     _ <- when_ (negb (str_truthy start))
            (_raise_prometheus_error "Start time is required") ;;
     _ <- when_ (negb (str_truthy end_))
            (_raise_prometheus_error "End time is required") ;;
     let params := [("query", VStr query); ("start", VStr start);
                    ("end", VStr end_); ("step", VStr step)] in
     response <- make_prometheus_request "/query_range" (Some params) ;;
     _ <- check_status response "Prometheus range query failed: " ;;
     status <- lift (py_getitem response "status") ;;
     data <- lift (py_getitem response "data") ;;
     executed_at <- now_iso ;;
     result <- add_warnings response
                 [("query", VStr query); ("start", VStr start);
                  ("end", VStr end_); ("step", VStr step);
                  ("status", status); ("data", data);
                  ("executed_at", executed_at)] ;;
     ret (response, VDict result))
    (fun rr => _ <- log_result_shape (fst rr) ;; ret (snd rr)).

(** The body of the loop over [metadata.items()]. *)
Definition add_metric_info (metrics : dict) (item : string * value)
  : result dict :=
  let '(metric_name, metric_info) := item in
  match metric_info with
  | VList (info :: _) =>
      ty <~ py_get info "type" (VStr "unknown") ;;
      help <~ py_get info "help" (VStr "") ;;
      unit <~ py_get info "unit" (VStr "") ;;
      Ok (dict_set metric_name
                   (VDict [("type", ty); ("help", help); ("unit", unit)])
                   metrics)
  | _ => Ok metrics
  end.

Definition get_metrics_metadata : M value :=
  tool_try PrometheusAPIError "Failed to get metrics metadata: "
    (response <- make_prometheus_request "/metadata" None ;;
     _ <- check_status response "Failed to get metadata: " ;;
     metadata <- lift (py_getitem response "data") ;;
     total_metrics <- lift (py_len metadata) ;;
     retrieved_at <- now_iso ;;
     items <- lift (py_items metadata) ;;
     metrics <- lift (rfold add_metric_info items []) ;;
     ret (VDict [("total_metrics", VInt total_metrics);
                 ("metrics", VDict metrics);
                 ("retrieved_at", retrieved_at)]))
    ret.

Definition get_label_names : M value :=
  tool_try PrometheusAPIError "Failed to get label names: "
    (response <- make_prometheus_request "/labels" None ;;
     _ <- check_status response "Failed to get label names: " ;;
     labels <- lift (py_getitem response "data") ;;
     data <- lift (py_getitem response "data") ;;
     total_labels <- lift (py_len data) ;;
     retrieved_at <- now_iso ;;
     ret (VDict [("labels", labels); ("total_labels", VInt total_labels);
                 ("retrieved_at", retrieved_at)]))
    ret.

Definition get_label_values (label_name : string) : M value :=
  tool_try PrometheusAPIError "Failed to get label values: "
    (_ <- when_ (negb (str_truthy label_name))
            (_raise_prometheus_error "Label name is required") ;;
     response <- make_prometheus_request
                   ("/label/" ++ label_name ++ "/values") None ;;
     _ <- check_status response "Failed to get label values: " ;;
     values <- lift (py_getitem response "data") ;;
     data <- lift (py_getitem response "data") ;;
     total_values <- lift (py_len data) ;;
     retrieved_at <- now_iso ;;
     ret (VDict [("label_name", VStr label_name); ("values", values);
                 ("total_values", VInt total_values);
                 ("retrieved_at", retrieved_at)]))
    ret.

(** [a + b] *)
Definition py_add (a b : value) : result value :=
  match a, b with
  | VStr s, VStr t => Ok (VStr (s ++ t))
  | VList l, VList m => Ok (VList (l ++ m)%list)
  | VStr _, _ =>
      Raise (Exn TypeError
                 ("can only concatenate str (not " ++ dq ++ type_name b ++ dq
                    ++ ") to str"))
  | VList _, _ =>
      Raise (Exn TypeError
                 ("can only concatenate list (not " ++ dq ++ type_name b ++ dq
                    ++ ") to list"))
  | _, _ =>
      Raise (Exn TypeError
                 ("unsupported operand type(s) for +: '" ++ type_name a
                    ++ "' and '" ++ type_name b ++ "'"))
  end.

(** [for i, selector in enumerate(match):
       params["match[]"] = selector if i == 0 else params["match[]"] + [selector]] *)
Fixpoint match_loop (i : nat) (selectors : list string) (params : dict)
  : result dict :=
  match selectors with
  | [] => Ok params
  | selector :: rest =>
      v <~ (if Nat.eqb i 0 then Ok (VStr selector)
            else cur <~ py_getitem (VDict params) "match[]" ;;
                 py_add cur (VList [VStr selector])) ;;
      match_loop (S i) rest (dict_set "match[]" v params)
  end.

Definition get_series (match_ : list string) (start end_ : option string)
  : M value :=
  tool_try PrometheusAPIError "Failed to find series: "
    (_ <- when_ (match match_ with [] => true | _ => false end)
            (_raise_prometheus_error "At least one match selector is required") ;;
     params <- lift (match_loop 0 match_ []) ;;
     let params :=
       match match_ with
       | [selector] => dict_set "match[]" (VStr selector) params
       | _ => [("match[]", VList (map VStr match_))]
       end in
     let params := set_opt_param "start" start params in
     let params := set_opt_param "end" end_ params in
     response <- make_prometheus_request "/series" (Some params) ;;
     _ <- check_status response "Failed to find series: " ;;
     series <- lift (py_getitem response "data") ;;
     data <- lift (py_getitem response "data") ;;
     total_series <- lift (py_len data) ;;
     retrieved_at <- now_iso ;;
     ret (VDict [("match_selectors", VList (map VStr match_));
                 ("start", opt_value start); ("end", opt_value end_);
                 ("series", series); ("total_series", VInt total_series);
                 ("retrieved_at", retrieved_at)]))
    ret.

Definition _execute_single_query (query metric_name : string) : M value :=
  try_except [PrometheusAPIError]
    (query_result <- query_prometheus query None ;;
     data <- lift (py_getitem query_result "data") ;;
     status <- lift (py_getitem query_result "status") ;;
     ret (VDict [("query", VStr query); ("data", data); ("status", status)]))
    (fun exc =>
       ret (VDict [("query", VStr query); ("error", VStr exc);
                   ("status", VStr "error")])).

Record alert_config := {
  alert_query : string;
  alert_description : string;
  alert_severity : string
}.

Definition _execute_alert_query (alert_name : string) (cfg : alert_config)
  : M value :=
  try_except [PrometheusAPIError]
    (query_result <- query_prometheus (alert_query cfg) None ;;
     data <- lift (py_getitem query_result "data") ;;
     res <- lift (py_get data "result" (VList [])) ;;
     n <- lift (py_len res) ;;
     let is_firing := Z.ltb 0 n in
     data' <- (if is_firing then lift (py_getitem query_result "data")
               else ret VNone) ;;
     ret (VDict [("query", VStr (alert_query cfg));
                 ("description", VStr (alert_description cfg));
                 ("severity", VStr (alert_severity cfg));
                 ("firing", VBool is_firing); ("data", data')]))
    (fun exc =>
       ret (VDict [("query", VStr (alert_query cfg));
                   ("description", VStr (alert_description cfg));
                   ("severity", VStr (alert_severity cfg));
                   ("error", VStr exc); ("firing", VBool false)])).

(** [f'{{service_name="{service_name}"}}' if service_name else ""] *)
Definition service_filter (service_name : option string) : string :=
  match service_name with
  | Some s =>
      if str_truthy s then "{service_name=" ++ dq ++ s ++ dq ++ "}" else ""
  | None => ""
  end.

(** The eight PromQL queries of the rollup, in the order of the dict. *)
Definition http_queries (service_name : option string) (time_range : string)
  : list (string * string) :=
  let f := service_filter service_name in
  let r := "[" ++ time_range ++ "]" in
  [("request_rate",
    "rate(http_server_duration_milliseconds_count" ++ f ++ r ++ ")");
   ("avg_response_time",
    "rate(http_server_duration_milliseconds_sum" ++ f ++ r
      ++ ") / rate(http_server_duration_milliseconds_count" ++ f ++ r ++ ")");
   ("p95_response_time",
    "histogram_quantile(0.95, rate(http_server_duration_milliseconds_bucket"
      ++ f ++ r ++ "))");
   ("p99_response_time",
    "histogram_quantile(0.99, rate(http_server_duration_milliseconds_bucket"
      ++ f ++ r ++ "))");
   ("error_rate",
    "rate(http_server_duration_milliseconds_count" ++ f
      ++ "{http_response_status_code=~" ++ dq ++ "5.." ++ dq ++ "}" ++ r ++ ")");
   ("client_error_rate",
    "rate(http_server_duration_milliseconds_count" ++ f
      ++ "{http_response_status_code=~" ++ dq ++ "4.." ++ dq ++ "}" ++ r ++ ")");
   ("active_requests", "http_server_active_requests" ++ f);
   ("avg_response_size",
    "rate(http_server_response_size_bytes_sum" ++ f ++ r
      ++ ") / rate(http_server_response_size_bytes_count" ++ f ++ r ++ ")")].

(** The body of the loop: [result["metrics"][metric_name] = query_result]. *)
Definition run_metric (metrics : dict) (q : string * string) : M dict :=
  query_result <- _execute_single_query (snd q) (fst q) ;;
  ret (dict_set (fst q) query_result metrics).

Definition analyze_http_metrics (service_name : option string)
    (time_range : string) : M value :=
  tool_try PrometheusAPIError "Failed to analyze HTTP metrics: "
    (let queries := http_queries service_name time_range in
     analysis_time <- now_iso ;;
     metrics <- for_each queries run_metric [] ;;
     ret (VDict [("service_name", opt_value service_name);
                 ("time_range", VStr time_range);
                 ("analysis_time", analysis_time);
                 ("metrics", VDict metrics)]))
    ret.

(** The five threshold checks, in the order of the dict. *)
Definition alert_queries (service_name : option string)
  : list (string * alert_config) :=
  let f := service_filter service_name in
  [("high_error_rate",
    {| alert_query :=
         "rate(http_server_duration_milliseconds_count" ++ f
           ++ "{http_response_status_code=~" ++ dq ++ "5.." ++ dq
           ++ "}[5m]) > 0.05";
       alert_description := "Error rate > 5%";
       alert_severity := "critical" |});
   ("high_response_time",
    {| alert_query :=
         "histogram_quantile(0.95, rate(http_server_duration_milliseconds_bucket"
           ++ f ++ "[5m])) > 1000";
       alert_description := "95th percentile response time > 1000ms";
       alert_severity := "warning" |});
   ("high_active_requests",
    {| alert_query := "http_server_active_requests" ++ f ++ " > 100";
       alert_description := "Active requests > 100";
       alert_severity := "warning" |});
   ("low_request_rate",
    {| alert_query :=
         "rate(http_server_duration_milliseconds_count" ++ f ++ "[5m]) < 0.1";
       alert_description := "Request rate < 0.1 req/sec (possible service down)";
       alert_severity := "critical" |});
   ("high_client_error_rate",
    {| alert_query :=
         "rate(http_client_duration_milliseconds_count" ++ f
           ++ "{http_response_status_code=~" ++ dq ++ "4.." ++ dq
           ++ "}[5m]) > 0.1";
       alert_description := "Client error rate > 10%";
       alert_severity := "warning" |})].

(** The part of the result the loop of [check_alerting_thresholds] updates:
    the [alerts] dict and the three counters of the summary. *)
Record alert_state := {
  st_alerts : dict;
  st_firing : Z;
  st_critical : Z;
  st_warning : Z
}.

Definition alert_state0 : alert_state :=
  {| st_alerts := []; st_firing := 0; st_critical := 0; st_warning := 0 |}.

Definition count_alert (st : alert_state) (cfg : alert_config)
    (alerts : dict) : alert_state :=
  {| st_alerts := alerts;
     st_firing := st_firing st + 1;
     st_critical :=
       if String.eqb (alert_severity cfg) "critical"
       then st_critical st + 1 else st_critical st;
     st_warning :=
       if String.eqb (alert_severity cfg) "critical" then st_warning st
       else if String.eqb (alert_severity cfg) "warning"
       then st_warning st + 1 else st_warning st |}.

Definition run_alert (st : alert_state) (a : string * alert_config)
  : M alert_state :=
  alert_result <- _execute_alert_query (fst a) (snd a) ;;
  let alerts := dict_set (fst a) alert_result (st_alerts st) in
  firing <- lift (py_getitem alert_result "firing") ;;
  ret (if py_truthy firing then count_alert st (snd a) alerts
       else {| st_alerts := alerts; st_firing := st_firing st;
               st_critical := st_critical st;
               st_warning := st_warning st |}).

Definition check_alerting_thresholds (service_name : option string) : M value :=
  tool_try PrometheusAPIError "Failed to check alerting thresholds: "
    (let queries := alert_queries service_name in
     check_time <- now_iso ;;
     st <- for_each queries run_alert alert_state0 ;;
     ret (VDict [("service_name", opt_value service_name);
                 ("check_time", check_time);
                 ("alerts", VDict (st_alerts st));
                 ("summary",
                  VDict [("total_checks", VInt (Z.of_nat (List.length queries)));
                         ("firing_alerts", VInt (st_firing st));
                         ("critical_alerts", VInt (st_critical st));
                         ("warning_alerts", VInt (st_warning st))])]))
    ret.

End Prometheus.

(* ================================================================= *)
(** ** A concrete environment

    The calendar of [datetime] (proleptic Gregorian, for the years 1000 to
    9999 that print with four digits), a platform whose local time is UTC,
    and a backend that answers from a script.  The theorems below hold for
    every environment; this one lets them run on data. *)

Module Sample.

Open Scope Z_scope.

(** Year, month and day of the day number [n], day 0 being 0001-01-01. *)
Definition civil_of_days (n : Z) : Z * Z * Z :=
  let z := n + 306 in
  let era := z / 146097 in
  let doe := z - era * 146097 in
  let yoe := (doe - doe / 1460 + doe / 36524 - doe / 146096) / 365 in
  let doy := doe - (365 * yoe + yoe / 4 - yoe / 100) in
  let mp := (5 * doy + 2) / 153 in
  let d := doy - (153 * mp + 2) / 5 + 1 in
  let m := if mp <? 10 then mp + 3 else mp - 9 in
  let y := yoe + era * 400 + (if m <=? 2 then 1 else 0) in
  (y, m, d).

Definition days_of_civil (y m d : Z) : Z :=
  let y' := if m <=? 2 then y - 1 else y in
  let era := y' / 400 in
  let yoe := y' - era * 400 in
  let mp := if m <=? 2 then m + 9 else m - 3 in
  let doy := (153 * mp + 2) / 5 + d - 1 in
  let doe := yoe * 365 + yoe / 4 - yoe / 100 + doy in
  era * 146097 + doe - 306.

(** [n] in decimal, padded with zeros to [width] digits. *)
Fixpoint pad (width : nat) (n : Z) : string :=
  match width with
  | O => ""
  | S w => (pad w (n / 10) ++ string_of_Z (n mod 10))%string
  end.

Definition date_time_text (us : Z) : string :=
  let '(y, m, d) := civil_of_days (us / 86400000000) in
  let s := (us mod 86400000000) / 1000000 in
  (pad 4 y ++ "-" ++ pad 2 m ++ "-" ++ pad 2 d ++ "T"
     ++ pad 2 (s / 3600) ++ ":" ++ pad 2 (s mod 3600 / 60) ++ ":"
     ++ pad 2 (s mod 60))%string.

Definition strftime (us : Z) : string :=
  (date_time_text us ++ "." ++ pad 6 (us mod 1000000) ++ "Z")%string.

Definition offset_text (off : Z) : string :=
  let a := Z.abs off / 60000000 in
  ((if (off <? 0)%Z then "-" else "+") ++ pad 2 (a / 60) ++ ":" ++ pad 2 (a mod 60))%string.

Definition isoformat (dt : datetime) : string :=
  let us := dt_wall dt in
  (date_time_text us
     ++ (if (us mod 1000000 =? 0)%Z then "" else "." ++ pad 6 (us mod 1000000))
     ++ match dt_utcoffset dt with
        | Some off => offset_text off
        | None => ""
        end)%string.

(** The number a run of digits spells, [None] when a character is not a
    digit. *)
Fixpoint number (s : string) (acc : Z) : option Z :=
  match s with
  | EmptyString => Some acc
  | String c s' =>
      if is_digit c then number s' (acc * 10 + digit_value c) else None
  end.

(** [fromisoformat] for the form [YYYY-MM-DDTHH:MM:SS]. *)
Definition fromisoformat (s : string) : option datetime :=
  if (Nat.eqb (String.length s) 19
      && String.eqb (String.substring 4 1 s) "-"
      && String.eqb (String.substring 7 1 s) "-"
      && String.eqb (String.substring 10 1 s) "T"
      && String.eqb (String.substring 13 1 s) ":"
      && String.eqb (String.substring 16 1 s) ":")%bool
  then
    match number (String.substring 0 4 s) 0, number (String.substring 5 2 s) 0,
          number (String.substring 8 2 s) 0, number (String.substring 11 2 s) 0,
          number (String.substring 14 2 s) 0, number (String.substring 17 2 s) 0
    with
    | Some y, Some m, Some d, Some hh, Some mm, Some ss =>
        if ((1 <=? y) && (1 <=? m) && (m <=? 12) && (1 <=? d)
            && (d <=? 31) && (hh <=? 23) && (mm <=? 59) && (ss <=? 59))%bool
        then Some (Datetime
                     ((days_of_civil y m d * 86400 + hh * 3600 + mm * 60 + ss)
                        * 1000000) None)
        else None
    | _, _, _, _, _, _ => None
    end
  else None.

(** 1970-01-01T00:00:00 in microseconds since 0001-01-01. *)
Definition unix_epoch : Z := 719162 * 86400000000.

Definition timestamp (dt : datetime) (k : Z) : result Z :=
  let off := match dt_utcoffset dt with Some o => o | None => 0 end in
  Ok ((dt_wall dt - off - unix_epoch) * k / 1000000).

Definition fromtimestamp_ns (ns : Z) : result string :=
  let us := unix_epoch + ns / 1000 in
  if ((0 <=? us) && (us <=? datetime_max))%bool then Ok (isoformat (utc us))
  else Raise (Exn ValueError "year out of range").

Definition unreserved (c : ascii) : bool :=
  (in_range 48 57 c || in_range 65 90 c || in_range 97 122 c
   || str_contains_char c "_.-~/")%bool.

Definition upper_hex (c : ascii) : ascii :=
  if in_range 97 102 c then ascii_of_N (ascii_code c - 32) else c.

Fixpoint quote (s : string) : string :=
  match s with
  | EmptyString => EmptyString
  | String c s' =>
      if unreserved c then String c (quote s')
      else match hex2 c with
           | String a (String b _) =>
               String "%" (String (upper_hex a) (String (upper_hex b) (quote s')))
           | _ => quote s'
           end
  end.

(** 2024-01-01T00:00:00 UTC; every read of the clock is a second later. *)
Definition clock (n : nat) : Z :=
  (days_of_civil 2024 1 1 * 86400 + Z.of_nat n) * 1000000.

Definition env (http : nat -> request -> reply) : Env :=
  {| env_now := clock;
     env_http := http;
     env_isoformat := isoformat;
     env_strftime := strftime;
     env_fromisoformat := fromisoformat;
     env_timestamp := timestamp;
     env_timestamp_utc := fun us k => (us - unix_epoch) * k / 1000000;
     env_fromtimestamp_ns := fromtimestamp_ns;
     env_quote := quote;
     env_jaeger_url := "http://localhost:16686";
     env_loki_url := "http://localhost:3100";
     env_prometheus_url := "http://localhost:9090" |}.

(** A backend that gives the same reply to every request. *)
Definition always (r : reply) : nat -> request -> reply := fun _ _ => r.

(** A backend that answers the n-th request with the n-th reply of a
    script, and with an HTTP error once the script is over. *)
Definition script (l : list reply) : nat -> request -> reply :=
  fun n _ => nth n l (HttpError "connection refused").

End Sample.

(* ================================================================= *)
(** ** Sample data *)

Module Data.

Definition child_of (parent : string) : value :=
  VDict [("refType", VStr "CHILD_OF"); ("traceID", VStr "abc123");
         ("spanID", VStr parent)].

Definition span (id op svc : string) (start dur : Z) (refs : list value)
  : value :=
  VDict [("traceID", VStr "abc123"); ("spanID", VStr id);
         ("operationName", VStr op); ("references", VList refs);
         ("startTime", VInt start); ("duration", VInt dur);
         ("tags", VList []); ("logs", VList []);
         ("process", VDict [("serviceName", VStr svc)])].

(** A trace of three spans whose root is the second in source order. *)
Definition query_span : value :=
  span "s2" "SELECT users" "user-db" 1704067200000200 5 [child_of "s1"].
Definition root_span : value :=
  span "s1" "GET /users" "user-service" 1704067200000000 100 [].
Definition render_span : value :=
  span "s3" "render" "user-service" 1704067200000300 40 [child_of "s1"].

Definition trace : dict :=
  [("traceID", VStr "abc123");
   ("spans", VList [query_span; root_span; render_span]);
   ("processes", VDict [])].

Definition trace_body : dict := [("data", VList [VDict trace])].

Definition trace_env : Env :=
  Sample.env (Sample.always (HttpJson (VDict trace_body))).

Definition idle_env : Env := Sample.env (Sample.script []).

Definition vector (series : list value) : reply :=
  HttpJson (VDict [("status", VStr "success");
                   ("data", VDict [("resultType", VStr "vector");
                                   ("result", VList series)])]).

Definition sample_series : value :=
  VDict [("metric", VDict [("service_name", VStr "checkout")]);
         ("value", VList [VInt 1704067200; VStr "0.25"])].

Definition server_error : reply :=
  HttpError "Server error '500 Internal Server Error' for url 'http://localhost:9090/api/v1/query'".

(** The fifth of the eight sub-queries of the rollup fails. *)
Definition rollup_env : Env :=
  Sample.env (Sample.script
                [vector [sample_series]; vector [sample_series]; vector [];
                 vector []; server_error; vector [sample_series];
                 vector [sample_series]; vector []]).

(** Two alerts fire, one critical and one a warning; one check fails. *)
Definition alerts_env : Env :=
  Sample.env (Sample.script
                [vector [sample_series]; vector []; server_error;
                 vector []; vector [sample_series]]).

(** A backend whose every reply is a success status without data. *)
Definition no_data_env : Env :=
  Sample.env (Sample.always (HttpJson (VDict [("status", VStr "success")]))).

(** A backend whose every reply is an error status with a message. *)
Definition bad_query_env : Env :=
  Sample.env (Sample.always
                (HttpJson (VDict [("status", VStr "error");
                                  ("errorType", VStr "bad_data");
                                  ("error", VStr "parse error: unexpected end of input")]))).

(** A backend that cannot be reached. *)
Definition down_env : Env := Sample.env (Sample.always (HttpError "All connection attempts failed")).

(** A backend whose every reply has status [success] and a list where the
    data object should be. *)
Definition list_data_env : Env :=
  Sample.env (Sample.always
                (HttpJson (VDict [("status", VStr "success");
                                  ("data", VList [])]))).


Definition log_stream (svc severity : string) (values : list (string * string))
  : value :=
  VDict [("stream", VDict [("service_name", VStr svc);
                           ("severity_text", VStr severity)]);
         ("values", VList (map (fun v => VList [VStr (fst v); VStr (snd v)])
                               values))].

(** Two streams, of two entries and of one. *)
Definition logs_body : dict :=
  [("status", VStr "success");
   ("data",
    VDict [("resultType", VStr "streams");
           ("result",
            VList [log_stream "user-service" "ERROR"
                     [("1704067200250000000", "profile lookup failed");
                      ("1704067199000000000", "retrying profile lookup")];
                   log_stream "profile-service" "INFO"
                     [("1704067198500000000", "GET /profiles/7")]])])].

Definition logs_env : Env := Sample.env (Sample.always (HttpJson (VDict logs_body))).

(** The names of two services, as Jaeger lists them. *)
Definition names_env : Env :=
  Sample.env (Sample.always
                (HttpJson (VDict [("data", VList [VStr "user-service";
                                                  VStr "user-db"])]))).

(** Three metrics: one described twice, one with no record, one described
    without a unit. *)
Definition metadata : dict :=
  [("http_server_active_requests",
    VList [VDict [("type", VStr "gauge");
                  ("help", VStr "Number of active HTTP server requests.");
                  ("unit", VStr "{request}")];
           VDict [("type", VStr "gauge"); ("help", VStr ""); ("unit", VStr "")]]);
   ("target_info", VList []);
   ("up", VList [VDict [("type", VStr "gauge")]])].

Definition metadata_env : Env :=
  Sample.env (Sample.always
                (HttpJson (VDict [("status", VStr "success");
                                  ("data", VDict metadata)]))).

Definition edge (parent child : string) (calls : Z) : value :=
  VDict [("parent", VStr parent); ("child", VStr child);
         ("callCount", VInt calls)].

Definition edges : list value :=
  [edge "gateway" "user-service" 120; edge "user-service" "user-db" 80;
   edge "gateway" "profile-service" 40; edge "profile-service" "user-service" 7].

Definition edges_env : Env :=
  Sample.env (Sample.always (HttpJson (VDict [("data", VList edges)]))).

Definition search_params : Jaeger.TraceSearchParams :=
  {| Jaeger.service := Some "user-service";
     Jaeger.operation := None;
     Jaeger.tags := Some [("error", VBool true); ("http.status_code", VInt 500)];
     Jaeger.start_time := None;
     Jaeger.end_time := Some "now";
     Jaeger.limit := 20;
     Jaeger.min_duration := None;
     Jaeger.max_duration := None;
     Jaeger.lookback := Some "1h" |}.

End Data.

(* ================================================================= *)
(** ** What the claims speak of, in the words of the specification *)

(** The spans of a backend trace, in source order. *)
Definition trace_spans (trace : value) : list value :=
  match trace with
  | VDict t =>
      match dict_get "spans" t with
      | Some (VList l) => l
      | _ => []
      end
  | _ => []
  end.

(** A field of a JSON object, [None] when the object has no such field. *)
Definition field (k : string) (obj : value) : value :=
  match obj with
  | VDict d => match dict_get k d with Some v => v | None => VNone end
  | _ => VNone
  end.

(** The duration of the first span in source order, 0 when the trace has
    no span or the first span has no duration field. *)
Definition first_span_duration (trace : value) : value :=
  match trace_spans trace with
  | VDict s :: _ =>
      match dict_get "duration" s with
      | Some d => d
      | None => VInt 0
      end
  | _ => VInt 0
  end.

(** The largest integer duration among the spans of a trace. *)
Definition max_span_duration (trace : value) : Z :=
  fold_right (fun s acc =>
                match field "duration" s with
                | VInt d => Z.max d acc
                | _ => acc
                end) 0%Z (trace_spans trace).

(** The traces a Jaeger reply carries. *)
Definition reply_traces (r : reply) : option (list value) :=
  match r with
  | HttpJson (VDict body) =>
      match dict_get "data" body with
      | Some (VList traces) => Some traces
      | Some (VDict []) | Some (VStr EmptyString) => Some []
      | _ => None
      end
  | _ => None
  end.

(** The references of a span, none when the field is absent. *)
Definition span_references (span : value) : list value :=
  match field "references" span with
  | VList l => l
  | _ => []
  end.

Definition is_child_of (ref : value) : bool :=
  py_eq_str (field "refType" ref) "CHILD_OF".

(** A span with no CHILD_OF reference. *)
Definition parentless (span : value) : bool :=
  negb (existsb is_child_of (span_references span)).

(** The service name of a span, the empty string when it has none. *)
Definition span_service (span : value) : value :=
  match field "process" span with
  | VDict p =>
      match dict_get "serviceName" p with
      | Some v => v
      | None => VStr ""
      end
  | _ => VStr ""
  end.

Definition is_dict (v : value) : bool :=
  match v with
  | VDict _ => true
  | _ => false
  end.

(** A span as Jaeger sends it: an object whose process, when present, is
    an object and whose references, when present, are a list of objects. *)
Definition wf_span (span : value) : bool :=
  match span with
  | VDict s =>
      (match dict_get "process" s with
       | None | Some (VDict _) => true
       | _ => false
       end
       && match dict_get "references" s with
          | None => true
          | Some (VList l) => forallb is_dict l
          | _ => false
          end)%bool
  | _ => false
  end.

(** A service name as an edge carries it: a string, or [None] when the
    edge has no such end. *)
Definition is_name (v : value) : bool :=
  match v with
  | VStr _ | VNone => true
  | _ => false
  end.

(** A dependency edge as Jaeger sends it. *)
Definition wf_edge (edge : value) : bool :=
  (is_dict edge && is_name (field "parent" edge)
   && is_name (field "child" edge))%bool.

(** The edge has the service [s] as its parent or as its child. *)
Definition edge_touches (s : string) (edge : value) : bool :=
  (py_eq_str (field "parent" edge) s || py_eq_str (field "child" edge) s)%bool.

(** The entry reported for an edge. *)
Definition edge_entry (edge : value) : value :=
  Jaeger.dependency_entry
    (field "parent" edge) (field "child" edge)
    (match edge with
     | VDict d => match dict_get "callCount" d with Some c => c | None => VInt 0 end
     | _ => VInt 0
     end).

(** Adding a name to a set of names. *)
Definition names_add (x : value) (s : pyset) : pyset :=
  if existsb (py_eq_scalar x) s then s else (s ++ [x])%list.

(** The state of the formatting loop after the edges [edges]. *)
Definition names_of (edges : list value) (s : pyset) : pyset :=
  fold_left (fun s e => names_add (field "child" e) (names_add (field "parent" e) s))
            edges s.

(** The time bound [o] of a trace search converts to an epoch number:
    it is absent, empty, the word [now] where that is skipped, or an ISO
    text the platform can turn into a timestamp. *)
Definition time_converts (env : Env) (skip_now : bool) (o : option string)
  : bool :=
  match o with
  | Some s =>
      if (str_truthy s && negb (skip_now && String.eqb s "now"))%bool then
        match env_fromisoformat env s with
        | Some dt =>
            match env_timestamp env dt 1000000 with
            | Ok _ => true
            | Raise _ => false
            end
        | None => false
        end
      else true
  | None => true
  end.

(** A tag mapping with every value in its string form. *)
Definition stringified (tags : dict) : list (string * string) :=
  map (fun kv => (fst kv, Jaeger.stringify_tag (snd kv))) tags.

Definition is_bool (v : value) : bool :=
  match v with
  | VBool _ => true
  | _ => false
  end.

(** The number a string of decimal digits spells. *)
Fixpoint decimal_from (acc : Z) (s : string) : Z :=
  match s with
  | EmptyString => acc
  | String c s' => decimal_from (acc * 10 + digit_value c) s'
  end.

Definition decimal (s : string) : Z := decimal_from 0 s.

(** The microseconds of one unit of a relative time. *)
Definition unit_microseconds (unit : ascii) : Z :=
  if Ascii.eqb unit "s" then 1000000
  else if Ascii.eqb unit "m" then 60000000
  else if Ascii.eqb unit "h" then 3600000000
  else 0.

Definition is_unit (c : ascii) : bool :=
  (Ascii.eqb c "s" || Ascii.eqb c "m" || Ascii.eqb c "h")%bool.

(** A time string that fails to parse: no number before its unit, or,
    without a unit, a text with a [T] that is no ISO timestamp, or a text
    of neither form. *)
Definition fails_to_parse (env : Env) (s : string) : bool :=
  if Loki.ends_with_unit s then
    match int_of_str (str_init s) with
    | Raise _ => true
    | Ok _ => false
    end
  else if str_contains "T" s then
    match env_fromisoformat env s with
    | None => true
    | Some _ => false
    end
  else true.

(** The outcomes of [query_prometheus] on the queries [queries], sent one
    after the other from the world [w], and the world after them. *)
Fixpoint sub_runs (env : Env) (queries : list string) (w : World)
  : list (result value) :=
  match queries with
  | [] => []
  | q :: rest =>
      let rw := Prometheus.query_prometheus q None env w in
      fst rw :: sub_runs env rest (snd rw)
  end.

Fixpoint sub_world (env : Env) (queries : list string) (w : World) : World :=
  match queries with
  | [] => w
  | q :: rest =>
      sub_world env rest (snd (Prometheus.query_prometheus q None env w))
  end.

(** A sub-query that returned, or failed with the Prometheus error. *)
Definition settled (out : result value) : bool :=
  match out with
  | Ok _ => true
  | Raise e => exn_class_eqb (exn_cls e) PrometheusAPIError
  end.

Definition succeeded (out : result value) : bool :=
  match out with
  | Ok _ => true
  | Raise _ => false
  end.

(** The entry of the rollup for a query and the outcome of its sub-query:
    the data and the status of the sub-query's result, or the message of
    its failure. *)
Definition metric_entry (q : string) (out : result value) : value :=
  match out with
  | Ok r => VDict [("query", VStr q); ("data", field "data" r);
                   ("status", field "status" r)]
  | Raise e => VDict [("query", VStr q); ("error", VStr (exn_str e));
                      ("status", VStr "error")]
  end.

Definition has_key (k : string) (entry : value) : bool :=
  match entry with
  | VDict e => match dict_get k e with Some _ => true | None => false end
  | _ => false
  end.

(** The sub-queries of one [analyze_http_metrics] call from the world [w]:
    the clock is read once for [analysis_time] before the first. *)
Definition metric_outcomes (env : Env) (service_name : option string)
    (time_range : string) (w : World) : list (result value) :=
  sub_runs env (map snd (Prometheus.http_queries service_name time_range))
           (tick w).

(** The metrics the rollup builds from its queries and their outcomes. *)
Definition metrics_of (qs : list (string * string)) (outs : list (result value))
  : dict :=
  map (fun x => (fst (fst x), metric_entry (snd (fst x)) (snd x)))
      (combine qs outs).

(** The number of series in the result of a query. *)
Definition result_count (r : value) : Z :=
  match py_get (field "data" r) "result" (VList []) with
  | Ok res => match py_len res with Ok n => n | Raise _ => 0 end
  | Raise _ => 0
  end.

(** The alert fires: its sub-query returned at least one series. *)
Definition fires (out : result value) : bool :=
  match out with
  | Ok r => Z.ltb 0 (result_count r)
  | Raise _ => false
  end.

(** The entry of a threshold check and the outcome of its sub-query. *)
Definition alert_entry (cfg : Prometheus.alert_config) (out : result value)
  : value :=
  match out with
  | Ok r =>
      VDict [("query", VStr (Prometheus.alert_query cfg));
             ("description", VStr (Prometheus.alert_description cfg));
             ("severity", VStr (Prometheus.alert_severity cfg));
             ("firing", VBool (fires out));
             ("data", if fires out then field "data" r else VNone)]
  | Raise e =>
      VDict [("query", VStr (Prometheus.alert_query cfg));
             ("description", VStr (Prometheus.alert_description cfg));
             ("severity", VStr (Prometheus.alert_severity cfg));
             ("error", VStr (exn_str e)); ("firing", VBool false)]
  end.

Definition alerts_of (qs : list (string * Prometheus.alert_config))
    (outs : list (result value)) : dict :=
  map (fun x => (fst (fst x), alert_entry (snd (fst x)) (snd x)))
      (combine qs outs).

(** An entry whose [firing] field is true. *)
Definition is_firing (entry : value) : bool := py_truthy (field "firing" entry).

(** The sub-queries of one [check_alerting_thresholds] call from the world
    [w]: the clock is read once for [check_time] before the first. *)
Definition alert_outcomes (env : Env) (service_name : option string)
    (w : World) : list (result value) :=
  sub_runs env
           (map (fun a => Prometheus.alert_query (snd a))
                (Prometheus.alert_queries service_name))
           (tick w).

(** The state of the alert loop after a check. *)
Definition alert_step (st : Prometheus.alert_state)
    (x : (string * Prometheus.alert_config) * result value)
  : Prometheus.alert_state :=
  let alerts := dict_set (fst (fst x)) (alert_entry (snd (fst x)) (snd x))
                         (Prometheus.st_alerts st) in
  if fires (snd x) then Prometheus.count_alert st (snd (fst x)) alerts
  else {| Prometheus.st_alerts := alerts;
          Prometheus.st_firing := Prometheus.st_firing st;
          Prometheus.st_critical := Prometheus.st_critical st;
          Prometheus.st_warning := Prometheus.st_warning st |}.

(** The query texts of the threshold checks. *)
Definition alert_texts (qs : list (string * Prometheus.alert_config))
  : list string :=
  map (fun a => Prometheus.alert_query (snd a)) qs.

(** A severity the summary counts. *)
Definition counted_severity (cfg : Prometheus.alert_config) : bool :=
  (String.eqb (Prometheus.alert_severity cfg) "critical"
   || String.eqb (Prometheus.alert_severity cfg) "warning")%bool.

(** The number of entries whose [firing] field is true. *)
Definition count_firing (d : dict) : Z :=
  Z.of_nat (List.length (filter (fun e => is_firing (snd e)) d)).

(** The tool operations of the three servers, with their arguments. *)
Inductive tool_call :=
| JaegerGetServices
| JaegerGetTrace (trace_id : string)
| JaegerAnalyzeServiceDependencies (service_name : option string)
                                   (lookback_hours : Z)
| JaegerGetServiceOperations (service_name : string)
| JaegerSearchTraces (params : Jaeger.TraceSearchParams)
| LokiQueryLogs (query : string) (start_time end_time : option string)
                (limit : Z) (direction : string)
| LokiGetLogLabels
| LokiGetLabelValues (label : string)
| LokiSearchLogsByTraceId (trace_id label : string)
                          (start_time end_time : option string) (limit : Z)
| PrometheusQuery (query : string) (time : option string)
| PrometheusQueryRange (query start end_ step : string)
| PrometheusGetMetricsMetadata
| PrometheusGetLabelNames
| PrometheusGetLabelValues (label_name : string)
| PrometheusGetSeries (match_ : list string) (start end_ : option string)
| PrometheusAnalyzeHttpMetrics (service_name : option string)
                               (time_range : string)
| PrometheusCheckAlertingThresholds (service_name : option string).

Definition run_tool (call : tool_call) : M value :=
  match call with
  | JaegerGetServices => Jaeger.get_services
  | JaegerGetTrace trace_id => Jaeger.get_trace trace_id
  | JaegerAnalyzeServiceDependencies service_name lookback_hours =>
      Jaeger.analyze_service_dependencies service_name lookback_hours
  | JaegerGetServiceOperations service_name =>
      Jaeger.get_service_operations service_name
  | JaegerSearchTraces params => Jaeger.search_traces params
  | LokiQueryLogs query start_time end_time limit direction =>
      Loki.query_logs query start_time end_time limit direction
  | LokiGetLogLabels => Loki.get_log_labels
  | LokiGetLabelValues label => Loki.get_label_values label
  | LokiSearchLogsByTraceId trace_id label start_time end_time limit =>
      Loki.search_logs_by_trace_id trace_id label start_time end_time limit
  | PrometheusQuery query time => Prometheus.query_prometheus query time
  | PrometheusQueryRange query start end_ step =>
      Prometheus.query_range_prometheus query start end_ step
  | PrometheusGetMetricsMetadata => Prometheus.get_metrics_metadata
  | PrometheusGetLabelNames => Prometheus.get_label_names
  | PrometheusGetLabelValues label_name => Prometheus.get_label_values label_name
  | PrometheusGetSeries match_ start end_ =>
      Prometheus.get_series match_ start end_
  | PrometheusAnalyzeHttpMetrics service_name time_range =>
      Prometheus.analyze_http_metrics service_name time_range
  | PrometheusCheckAlertingThresholds service_name =>
      Prometheus.check_alerting_thresholds service_name
  end.

(** The error kind of the backend a tool belongs to. *)
Definition error_kind (call : tool_call) : exn_class :=
  match call with
  | JaegerGetServices | JaegerGetTrace _
  | JaegerAnalyzeServiceDependencies _ _ | JaegerGetServiceOperations _
  | JaegerSearchTraces _ => JaegerAPIError
  | LokiQueryLogs _ _ _ _ _ | LokiGetLogLabels | LokiGetLabelValues _
  | LokiSearchLogsByTraceId _ _ _ _ _ => LokiAPIError
  | _ => PrometheusAPIError
  end.

(** The two tools that run several Prometheus queries and keep an entry
    for each. *)
Definition rollup_items (call : tool_call) : option string :=
  match call with
  | PrometheusAnalyzeHttpMetrics _ _ => Some "metrics"
  | PrometheusCheckAlertingThresholds _ => Some "alerts"
  | _ => None
  end.

(** The tools that read the status field of a single Prometheus reply,
    with the text each puts before the backend's error. *)
Definition status_prefix (call : tool_call) : option string :=
  match call with
  | PrometheusQuery _ _ => Some "Prometheus query failed: "
  | PrometheusQueryRange _ _ _ _ => Some "Prometheus range query failed: "
  | PrometheusGetMetricsMetadata => Some "Failed to get metadata: "
  | PrometheusGetLabelNames => Some "Failed to get label names: "
  | PrometheusGetLabelValues _ => Some "Failed to get label values: "
  | PrometheusGetSeries _ _ _ => Some "Failed to find series: "
  | _ => None
  end.

(** A decoded body that is an object with no [data] field. *)
Definition lacks_data (r : reply) : bool :=
  match r with
  | HttpJson (VDict body) =>
      match dict_get "data" body with
      | Some _ => false
      | None => true
      end
  | _ => false
  end.

(** A decoded body whose status is something else than [success]. *)
Definition failed_status (body : dict) : bool :=
  negb (py_eq_str (field "status" (VDict body)) "success").

(** The error text the backend supplied, [Unknown error] without one. *)
Definition error_text (body : dict) : string :=
  py_str (match dict_get "error" body with
          | Some e => e
          | None => VStr "Unknown error"
          end).

(** The request [analyze_service_dependencies] sends from the world [w]. *)
Definition dependencies_params (env : Env) (w : World) (lookback_hours : Z)
  : dict :=
  [("endTs", VInt (env_timestamp_utc env (env_now env (clock_reads w)) 1000));
   ("lookback", VInt (lookback_hours * 3600 * 1000))].

(** The reply the backend gives to the next request of a tool. *)
Definition next_reply (env : Env) (w : World) (url : string)
    (params : option dict) : reply :=
  env_http env (List.length (requests w)) (Request url params).


(* ================================================================= *)
(** ** Further notions for the properties of the tools *)

(** The message with which a tool refuses its arguments before it sends
    anything, [None] when it accepts them. *)
Definition refused (call : tool_call) : option string :=
  match call with
  | JaegerGetTrace trace_id =>
      if str_truthy trace_id then None else Some "Trace ID is required"
  | JaegerGetServiceOperations service_name =>
      if str_truthy service_name then None else Some "Service name is required"
  | LokiQueryLogs query _ _ _ _ =>
      if str_truthy query then None else Some "Query is required"
  | LokiGetLabelValues label =>
      if str_truthy label then None else Some "Label name is required"
  | LokiSearchLogsByTraceId trace_id label _ _ _ =>
      if negb (str_truthy trace_id) then Some "Trace ID is required"
      else if negb (str_truthy label) then Some "Label is required"
      else None
  | PrometheusQuery query _ =>
      if str_truthy query then None else Some "Query is required"
  | PrometheusQueryRange query start end_ _ =>
      if negb (str_truthy query) then Some "Query is required"
      else if negb (str_truthy start) then Some "Start time is required"
      else if negb (str_truthy end_) then Some "End time is required"
      else None
  | PrometheusGetLabelValues label_name =>
      if str_truthy label_name then None else Some "Label name is required"
  | PrometheusGetSeries [] _ _ => Some "At least one match selector is required"
  | _ => None
  end.

(** The two tools whose [else] block computes on the response again. *)
Definition has_else_block (call : tool_call) : bool :=
  match call with
  | PrometheusQuery _ _ | PrometheusQueryRange _ _ _ _ => true
  | _ => false
  end.

(** A computation that sends no request. *)
Definition quiet {A} (m : M A) : Prop :=
  forall env w, requests (snd (m env w)) = requests w.

(** The request of an instant query. *)
Definition query_request (env : Env) (q : string) : request :=
  Request (env_prometheus_url env ++ "/api/v1/query") (Some [("query", VStr q)]).

(** The name of a backend in the messages of its gateway. *)
Definition api_name (call : tool_call) : string :=
  match error_kind call with
  | JaegerAPIError => "Jaeger"
  | LokiAPIError => "Loki"
  | _ => "Prometheus"
  end.



(** The body is an object with status [success] and the data [data]. *)
Definition success_body (body : dict) (data : value) : Prop :=
  dict_get "status" body = Some (VStr "success") /\
  dict_get "data" body = Some data.

(** The root entry [_find_root_span] builds from a span. *)
Definition root_entry (span : value) : value :=
  VDict [("operation_name", field "operationName" span);
         ("service_name", span_service span);
         ("start_time", field "startTime" span);
         ("duration", field "duration" span);
         ("tags", match span with
                  | VDict s => match dict_get "tags" s with
                               | Some t => t
                               | None => VList []
                               end
                  | _ => VList []
                  end)].


(** The world after [n] more reads of the clock. *)
Definition ticks (n : nat) (w : World) : World :=
  {| clock_reads := n + clock_reads w; requests := requests w |}.

(** The entries a listing loop builds from the items of a reply: one per
    item, in order, each stamped with the time of a read of the clock of
    its own, the first of them the read number [n]. *)
Fixpoint stamped (env : Env) (entry : value -> value -> value) (n : nat)
    (items : list value) : list value :=
  match items with
  | [] => []
  | x :: rest =>
      entry x (VStr (env_isoformat env (utc (env_now env n))))
        :: stamped env entry (S n) rest
  end.

Definition service_entry (name t : value) : value :=
  VDict [("name", name); ("retrieved_at", t)].

Definition operation_entry (service_name : string) (name t : value) : value :=
  VDict [("name", name); ("service", VStr service_name); ("retrieved_at", t)].

(** A metric whose metadata is a non-empty list. *)
Definition described (info : value) : bool :=
  match info with
  | VList (_ :: _) => true
  | _ => false
  end.

(** The type, help and unit of the first metadata record of a metric. *)
Definition description (info : value) : value :=
  match info with
  | VList (VDict i :: _) =>
      VDict [("type", match dict_get "type" i with
                      | Some v => v
                      | None => VStr "unknown"
                      end);
             ("help", match dict_get "help" i with
                      | Some v => v
                      | None => VStr ""
                      end);
             ("unit", match dict_get "unit" i with
                      | Some v => v
                      | None => VStr ""
                      end)]
  | _ => VNone
  end.

(** Metadata as Prometheus sends it: the first record of every non-empty
    list is an object. *)
Definition wf_metadata (md : dict) : bool :=
  forallb (fun kv => match snd kv with
                     | VList (x :: _) => is_dict x
                     | _ => true
                     end) md.

Definition descriptions (md : dict) : dict :=
  map (fun kv => (fst kv, description (snd kv)))
      (filter (fun kv => described (snd kv)) md).

(** The service names the spans [spans] add to the set [s]. *)
Definition services_of (spans : list value) (s : pyset) : pyset :=
  fold_left (fun s span =>
               if py_truthy (span_service span)
               then names_add (span_service span) s else s)
            spans s.

(** The computation [m] fails from every world: before it sends anything,
    or after one request with the error [e]. *)
Definition fails_at_gateway {A} (env : Env) (e : exn) (m : M A) : Prop :=
  forall w,
    exists e' w',
      m env w = (Raise e', w') /\
      (requests w' = requests w \/
       (e' = e /\ exists req, requests w' = req :: requests w)).

(** The error of a tool's gateway when the HTTP call fails with [msg]. *)
Definition gateway_error (call : tool_call) (msg : string) : exn :=
  Exn (error_kind call) ("Failed to call " ++ api_name call ++ " API: " ++ msg).
(* ================================================================= *)
(** ** Running the monads *)

Lemma rbind_ok_inv {A B} (r : result A) (k : A -> result B) (b : B) :
  rbind r k = Ok b -> exists a, r = Ok a /\ k a = Ok b.
Proof. destruct r; simpl; [eauto | discriminate]. Qed.

Lemma bind_ok_inv {A B} (m : M A) (k : A -> M B) env w b w' :
  bind m k env w = (Ok b, w') ->
  exists a w1, m env w = (Ok a, w1) /\ k a env w1 = (Ok b, w').
Proof.
  unfold bind. destruct (m env w) as [[a | e] w1]; [eauto | discriminate].
Qed.

Lemma lift_inv {A} (r : result A) env w x w' :
  lift r env w = (x, w') -> r = x /\ w' = w.
Proof. unfold lift. intros H. inversion H. auto. Qed.

Lemma ret_inv {A} (a : A) env w x w' :
  ret a env w = (x, w') -> x = Ok a /\ w' = w.
Proof. unfold ret. intros H. inversion H. auto. Qed.

Lemma when_ok_inv (c : bool) msg cls env w u w' :
  when_ c (raise (Exn cls msg)) env w = (Ok u, w') -> c = false /\ w' = w.
Proof.
  destruct c; simpl; unfold raise, lift, ret; intros H; inversion H; auto.
Qed.

Lemma tool_try_ok_inv {A B} cls prefix (body : M A) (orelse : A -> M B)
    env w b w' :
  tool_try cls prefix body orelse env w = (Ok b, w') ->
  exists a w1, body env w = (Ok a, w1) /\ orelse a env w1 = (Ok b, w').
Proof.
  unfold tool_try. destruct (body env w) as [[a | e] w1].
  - eauto.
  - destruct (exn_class_eqb (exn_cls e) cls); discriminate.
Qed.

Lemma exn_class_eqb_eq (a b : exn_class) :
  exn_class_eqb a b = true <-> a = b.
Proof. split; [destruct a, b; simpl; congruence | intros ->; destruct b; reflexivity]. Qed.

(** A tool whose [else] block only returns raises nothing but its
    backend's error. *)
Lemma tool_try_raises {A} cls prefix (body : M A) env w e w' :
  tool_try cls prefix body ret env w = (Raise e, w') -> exn_cls e = cls.
Proof.
  unfold tool_try, ret. destruct (body env w) as [[a | e0] w1].
  - discriminate.
  - destruct (exn_class_eqb (exn_cls e0) cls) eqn:E; intros H; inversion H; subst.
    + now apply exn_class_eqb_eq.
    + reflexivity.
Qed.

Lemma rmap_ok_Forall2 {A B} (f : A -> result B) (l : list A) (l' : list B) :
  rmap f l = Ok l' -> Forall2 (fun x y => f x = Ok y) l l'.
Proof.
  revert l'. induction l as [| x l IH]; simpl; intros l' H.
  - inversion H. constructor.
  - apply rbind_ok_inv in H. destruct H as (y & Hy & H).
    apply rbind_ok_inv in H. destruct H as (ys & Hys & H).
    inversion H; subst. constructor; auto.
Qed.

Ltac inv_ok :=
  repeat match goal with
  | H : rbind _ _ = Ok _ |- _ =>
      let a := fresh "a" in let Ha := fresh "Ha" in
      apply rbind_ok_inv in H; destruct H as (a & Ha & H)
  | H : bind _ _ _ _ = (Ok _, _) |- _ =>
      let a := fresh "a" in let w := fresh "w" in let Ha := fresh "Ha" in
      apply bind_ok_inv in H; destruct H as (a & w & Ha & H)
  | H : lift _ _ _ = (_, _) |- _ =>
      apply lift_inv in H; destruct H as [H ?]; subst
  | H : ret _ _ _ = (_, _) |- _ =>
      apply ret_inv in H; destruct H as [H ?]; subst
  | H : ask _ _ = (_, _) |- _ =>
      unfold ask in H; inversion H; subst; clear H
  | H : when_ _ (raise (Exn _ _)) _ _ = (Ok _, _) |- _ =>
      apply when_ok_inv in H; destruct H as [H ?]; subst
  | H : Ok _ = Ok _ |- _ => inversion H; subst; clear H
  | H : (_, _) = (_, _) |- _ => inversion H; subst; clear H
  end.

Lemma bind_run {A B} (m : M A) (k : A -> M B) env w a w1 x :
  m env w = (Ok a, w1) -> k a env w1 = x -> bind m k env w = x.
Proof. unfold bind. now intros -> ->. Qed.

Lemma bind_run_raise {A B} (m : M A) (k : A -> M B) env w e w1 :
  m env w = (Raise e, w1) -> bind m k env w = (Raise e, w1).
Proof. unfold bind. now intros ->. Qed.

Lemma tool_try_run {A B} cls prefix (body : M A) (orelse : A -> M B)
    env w a w1 x :
  body env w = (Ok a, w1) -> orelse a env w1 = x ->
  tool_try cls prefix body orelse env w = x.
Proof. unfold tool_try. now intros -> ->. Qed.

Lemma lift_run {A} (r : result A) env w : lift r env w = (r, w).
Proof. reflexivity. Qed.

Lemma now_iso_run env w :
  now_iso env w
    = (Ok (VStr (env_isoformat env (utc (env_now env (clock_reads w))))),
       tick w).
Proof. reflexivity. Qed.

Lemma make_request_run cls api url params env w body :
  next_reply env w url params = HttpJson body ->
  make_request cls api url params env w = (Ok body, sent (Request url params) w).
Proof. unfold make_request, next_reply. now intros ->. Qed.

Lemma make_jaeger_request_run endpoint params env w body :
  next_reply env w (env_jaeger_url env ++ "/api" ++ endpoint) params
    = HttpJson body ->
  Jaeger.make_jaeger_request endpoint params env w
    = (Ok body,
       sent (Request (env_jaeger_url env ++ "/api" ++ endpoint) params) w).
Proof.
  intros H. unfold Jaeger.make_jaeger_request, bind, ask.
  now apply make_request_run.
Qed.

Lemma jaeger_response_data_run body data env w :
  dict_get "data" body = Some data ->
  Jaeger.response_data (VDict body) env w = (Ok data, w).
Proof.
  intros H. unfold Jaeger.response_data, bind, lift, when_, py_contains,
    py_getitem, ret.
  rewrite H. reflexivity.
Qed.

(** One step of a run: the first computation of a [bind] is run by [tac],
    the rest is left as the goal. *)
Ltac run tac := eapply bind_run; [ solve [tac] | cbv beta ].
Ltac run_lift := eapply bind_run; [ apply lift_run | cbv beta ].

(** A loop that appends one computed item per element. *)
Lemma for_each_append_run {A B} (f : A -> result B) (items : list A)
    (acc infos : list B) env w :
  rmap f items = Ok infos ->
  for_each items
           (fun acc x => info <- lift (f x) ;; ret (acc ++ [info])%list)
           acc env w
    = (Ok (acc ++ infos)%list, w).
Proof.
  revert acc infos. induction items as [| x items IH]; simpl; intros acc infos H.
  - inversion H. now rewrite app_nil_r.
  - apply rbind_ok_inv in H. destruct H as (y & Hy & H).
    apply rbind_ok_inv in H. destruct H as (ys & Hys & H).
    inversion H; subst infos.
    eapply bind_run.
    + eapply bind_run; [rewrite Hy; apply lift_run | reflexivity].
    + cbv beta. rewrite (IH _ _ Hys). now rewrite <- app_assoc.
Qed.


(* ================================================================= *)
(** ** jaeger.py: trace search *)

Lemma py_get_ok_dict v k dflt x :
  py_get v k dflt = Ok x ->
  exists d, v = VDict d /\
            x = match dict_get k d with Some y => y | None => dflt end.
Proof.
  destruct v; simpl; try discriminate. intros H. inversion H. eauto.
Qed.

Lemma process_trace_duration trace entry :
  Jaeger._process_trace_data trace = Ok entry ->
  exists e, entry = VDict e /\
            dict_get "duration" e = Some (first_span_duration trace).
Proof.
  unfold Jaeger._process_trace_data. intros H.
  apply rbind_ok_inv in H. destruct H as (spans & Hspans & H).
  apply rbind_ok_inv in H. destruct H as (trace_id & _ & H).
  apply rbind_ok_inv in H. destruct H as (n & Hn & H).
  apply rbind_ok_inv in H. destruct H as (duration & Hd & H).
  apply rbind_ok_inv in H. destruct H as (items & Hitems & H).
  apply rbind_ok_inv in H. destruct H as (services & _ & H).
  apply rbind_ok_inv in H. destruct H as (root & _ & H).
  inversion H; subst; clear H.
  eexists. split; [reflexivity |]. simpl. f_equal.
  apply py_get_ok_dict in Hspans. destruct Hspans as (t & -> & ->).
  unfold first_span_duration, trace_spans.
  destruct (dict_get "spans" t) as [spans |]; simpl in *.
  - destruct spans as [| b | k | s | l | d]; simpl in *; try discriminate.
    + destruct s as [| c s]; simpl in *; [congruence | discriminate].
    + destruct l as [| s0 l]; simpl in *; [congruence |].
      apply py_get_ok_dict in Hd. destruct Hd as (s & -> & ->). reflexivity.
    + destruct d as [| kv d]; simpl in *; [congruence | discriminate].
  - congruence.
Qed.

Lemma jaeger_response_data_ok response env w data w' :
  Jaeger.response_data response env w = (Ok data, w') ->
  py_getitem response "data" = Ok data /\ w' = w.
Proof.
  unfold Jaeger.response_data, Jaeger._raise_jaeger_error. intros H. inv_ok. auto.
Qed.

Lemma make_request_ok cls api url params env w body w' :
  make_request cls api url params env w = (Ok body, w') ->
  next_reply env w url params = HttpJson body /\
  w' = sent (Request url params) w.
Proof.
  unfold make_request, next_reply.
  destruct (env_http env _ _); intros H; inversion H; auto.
Qed.

Lemma make_jaeger_request_ok endpoint params env w body w' :
  Jaeger.make_jaeger_request endpoint params env w = (Ok body, w') ->
  next_reply env w (env_jaeger_url env ++ "/api" ++ endpoint) params
    = HttpJson body /\
  w' = sent (Request (env_jaeger_url env ++ "/api" ++ endpoint) params) w.
Proof.
  unfold Jaeger.make_jaeger_request, bind, ask. apply make_request_ok.
Qed.

(** The entries of a search result and the traces of the reply they were
    computed from. *)
Lemma search_traces_entries params env w r w' :
  Jaeger.search_traces params env w = (Ok r, w') ->
  exists query_params traces entries res,
    Jaeger._build_trace_search_params env params = Ok query_params /\
    reply_traces (next_reply env w (env_jaeger_url env ++ "/api/traces")
                             (Some query_params)) = Some traces /\
    r = VDict res /\
    dict_get "traces" res = Some (VList entries) /\
    Forall2 (fun trace entry => Jaeger._process_trace_data trace = Ok entry)
            traces entries.
Proof.
  unfold Jaeger.search_traces. intros H.
  apply tool_try_ok_inv in H. destruct H as (r0 & w0 & H & Hret).
  apply ret_inv in Hret. destruct Hret as [Hret _]. inversion Hret; subst r0.
  apply bind_ok_inv in H. destruct H as (env' & w1 & Hask & H).
  unfold ask in Hask. inversion Hask; subst env' w1. clear Hask.
  apply bind_ok_inv in H. destruct H as (query_params & w1 & Hq & H).
  apply lift_inv in Hq. destruct Hq as [Hq ->].
  apply bind_ok_inv in H. destruct H as (response & w1 & Hreq & H).
  apply make_jaeger_request_ok in Hreq. destruct Hreq as [Hreply ->].
  apply bind_ok_inv in H. destruct H as (data & w1 & Hdata & H).
  apply jaeger_response_data_ok in Hdata. destruct Hdata as [Hdata ->].
  apply bind_ok_inv in H. destruct H as (items & w1 & Hitems & H).
  apply lift_inv in Hitems. destruct Hitems as [Hitems ->].
  apply bind_ok_inv in H. destruct H as (entries & w1 & Hentries & H).
  apply lift_inv in Hentries. destruct Hentries as [Hentries ->].
  apply bind_ok_inv in H. destruct H as (total & w1 & Htotal & H).
  apply lift_inv in Htotal. destruct Htotal as [Htotal ->].
  apply bind_ok_inv in H. destruct H as (search_time & w1 & _ & H).
  apply ret_inv in H. destruct H as [H _]. inversion H; subst r. clear H.
  simpl in Hreply.
  exists query_params, items, entries. eexists.
  split; [assumption |].
  split; [| split; [reflexivity | split; [reflexivity |]]].
  - rewrite Hreply. unfold reply_traces.
    destruct response; simpl in Hdata; try discriminate.
    destruct (dict_get "data" d) as [data' |]; [| discriminate].
    inversion Hdata; subst data'.
    destruct data as [| b | n | s | l | d']; simpl in Hitems; try discriminate.
    + destruct s as [| c s].
      * simpl in Hitems. congruence.
      * simpl in Hitems. inversion Hitems; subst items.
        simpl in Hentries. discriminate.
    + congruence.
    + destruct d' as [| kv d'].
      * simpl in Hitems. congruence.
      * simpl in Hitems. inversion Hitems; subst items.
        simpl in Hentries. discriminate.
  - now apply rmap_ok_Forall2.
Qed.

(** ** C9 *)

(** C9.  In every trace entry that [search_traces] returns, the reported
    duration is the duration of the first span of the backend trace in
    source order, and 0 when the trace has no span or its first span has no
    duration field.  The entries correspond one to one, in order, to the
    traces of the backend's reply. *)
Theorem search_traces_duration_is_first_span :
  forall params env w r w',
    Jaeger.search_traces params env w = (Ok r, w') ->
    exists query_params traces entries res,
      Jaeger._build_trace_search_params env params = Ok query_params /\
      reply_traces (next_reply env w (env_jaeger_url env ++ "/api/traces")
                               (Some query_params)) = Some traces /\
      r = VDict res /\
      dict_get "traces" res = Some (VList entries) /\
      Forall2 (fun trace entry =>
                 exists e, entry = VDict e /\
                           dict_get "duration" e
                             = Some (first_span_duration trace))
              traces entries.
Proof.
  intros params env w r w' H.
  apply search_traces_entries in H.
  destruct H as (q & traces & entries & res & Hq & Hr & -> & Ht & Hall).
  exists q, traces, entries, res. repeat (split; [assumption || reflexivity |]).
  revert Hall. apply Forall2_impl. intros trace entry.
  apply process_trace_duration.
Qed.

(* ================================================================= *)
(** ** jaeger.py: one trace *)

Lemma any_child_of_dicts (refs : list value) :
  forallb is_dict refs = true ->
  Jaeger.any_child_of refs = Ok (existsb is_child_of refs).
Proof.
  induction refs as [| ref refs IH]; simpl; [reflexivity |].
  intros H. apply andb_true_iff in H. destruct H as [Hd Hrest].
  destruct ref; try discriminate. simpl.
  unfold is_child_of, field.
  destruct (dict_get "refType" d) as [t |]; simpl.
  - destruct (py_eq_str t "CHILD_OF"); [reflexivity | now apply IH].
  - now apply IH.
Qed.

Lemma has_parent_wf (span : value) :
  wf_span span = true ->
  Jaeger.has_parent span = Ok (negb (parentless span)).
Proof.
  destruct span; try discriminate. simpl.
  intros H. apply andb_true_iff in H. destruct H as [_ H].
  unfold Jaeger.has_parent, parentless, span_references, field. simpl.
  rewrite negb_involutive.
  destruct (dict_get "references" d) as [refs |]; simpl; [| reflexivity].
  destruct refs; try discriminate. simpl. now apply any_child_of_dicts.
Qed.

Lemma span_service_name_wf (span : value) :
  wf_span span = true ->
  Jaeger.span_service_name span = Ok (span_service span).
Proof.
  destruct span; try discriminate. simpl.
  intros H. apply andb_true_iff in H. destruct H as [H _].
  unfold Jaeger.span_service_name, span_service, field. simpl.
  destruct (dict_get "process" d) as [p |]; simpl; [| reflexivity].
  destruct p; try discriminate. reflexivity.
Qed.

Lemma root_span_info_wf (span : value) :
  wf_span span = true ->
  exists r, Jaeger.root_span_info span = Ok (VDict r) /\
            dict_get "operation_name" r = Some (field "operationName" span) /\
            dict_get "service_name" r = Some (span_service span).
Proof.
  intros H. unfold Jaeger.root_span_info.
  rewrite (span_service_name_wf _ H).
  destruct span; try discriminate. simpl.
  eexists. split; [reflexivity |]. split; reflexivity.
Qed.

Lemma span_info_wf (span : value) :
  wf_span span = true ->
  exists e, Jaeger.span_info span = Ok (VDict e) /\
            dict_get "operation_name" e = Some (field "operationName" span) /\
            dict_get "service_name" e = Some (span_service span).
Proof.
  intros H. unfold Jaeger.span_info.
  rewrite (span_service_name_wf _ H).
  destruct span; try discriminate. simpl.
  eexists. split; [reflexivity |]. split; reflexivity.
Qed.

(** The first span without a parent is the root the scan reports. *)
Lemma find_root_loop_first (before after : list value) (root : value) :
  forallb wf_span before = true ->
  forallb (fun s => negb (parentless s)) before = true ->
  wf_span root = true ->
  parentless root = true ->
  Jaeger.find_root_loop (before ++ root :: after)%list
    = Jaeger.root_span_info root.
Proof.
  induction before as [| s before IH]; simpl; intros Hwf Hnp Hr Hp.
  - rewrite (has_parent_wf _ Hr), Hp. reflexivity.
  - apply andb_true_iff in Hwf. destruct Hwf as [Hs Hwf].
    apply andb_true_iff in Hnp. destruct Hnp as [Hsp Hnp].
    rewrite (has_parent_wf _ Hs). simpl.
    rewrite Hsp. simpl. now apply IH.
Qed.

Lemma filter_singleton_split {A} (p : A -> bool) (l : list A) (x : A) :
  filter p l = [x] ->
  exists before after,
    l = (before ++ x :: after)%list /\
    forallb (fun y => negb (p y)) before = true /\ p x = true.
Proof.
  induction l as [| y l IH]; simpl; [discriminate |].
  destruct (p y) eqn:E.
  - intros H. inversion H; subst. exists [], l. simpl. auto.
  - intros H. destruct (IH H) as (b & a & -> & Hb & Hx).
    exists (y :: b), a. simpl. rewrite E. auto.
Qed.

Lemma find_root_unique (spans : list value) (root : value) :
  forallb wf_span spans = true ->
  filter parentless spans = [root] ->
  Jaeger.find_root_loop spans = Jaeger.root_span_info root /\
  wf_span root = true.
Proof.
  intros Hwf Hf.
  destruct (filter_singleton_split _ _ _ Hf) as (b & a & -> & Hb & Hp).
  rewrite forallb_app in Hwf. apply andb_true_iff in Hwf.
  destruct Hwf as [Hwb Hwr]. simpl in Hwr.
  apply andb_true_iff in Hwr. destruct Hwr as [Hr _].
  split; [| assumption]. now apply find_root_loop_first.
Qed.

(** ** C1 *)

(** C1, as the code has it.  When [get_trace] is called with a non-empty
    trace id and the backend's reply carries one trace with three
    well-formed spans, exactly one of which has no CHILD_OF reference, the
    record returned has exactly three span entries, in source order, each
    with its span's operation name and service name, and it has no
    [root_span] field: [get_trace] does not compute a root.  The root
    detection of the trace search, [_find_root_span], reports on these
    spans the operation name and the service name of the parentless
    one. *)
Theorem get_trace_three_spans :
  forall env w trace_id body trace s1 s2 s3 root,
    trace_id <> "" ->
    next_reply env w (env_jaeger_url env ++ "/api/traces/" ++ trace_id) None
      = HttpJson (VDict body) ->
    dict_get "data" body = Some (VList [VDict trace]) ->
    dict_get "spans" trace = Some (VList [s1; s2; s3]) ->
    forallb wf_span [s1; s2; s3] = true ->
    filter parentless [s1; s2; s3] = [root] ->
    exists res w' e1 e2 e3 r,
      Jaeger.get_trace trace_id env w = (Ok (VDict res), w') /\
      dict_get "spans" res = Some (VList [VDict e1; VDict e2; VDict e3]) /\
      Forall2 (fun s e =>
                 dict_get "operation_name" e
                   = Some (field "operationName" s) /\
                 dict_get "service_name" e = Some (span_service s))
              [s1; s2; s3] [e1; e2; e3] /\
      dict_get "root_span" res = None /\
      Jaeger._find_root_span (VList [s1; s2; s3]) = Ok (VDict r) /\
      dict_get "operation_name" r = Some (field "operationName" root) /\
      dict_get "service_name" r = Some (span_service root).
Proof.
  intros env w trace_id body trace s1 s2 s3 root Hid Hreply Hdata Hspans Hwf Hroot.
  destruct (find_root_unique _ _ Hwf Hroot) as [Hfind Hwr].
  destruct (root_span_info_wf _ Hwr) as (r & Hr & Hop & Hsvc).
  simpl in Hwf.
  apply andb_true_iff in Hwf. destruct Hwf as [Hw1 Hwf].
  apply andb_true_iff in Hwf. destruct Hwf as [Hw2 Hwf].
  apply andb_true_iff in Hwf. destruct Hwf as [Hw3 _].
  destruct (span_info_wf _ Hw1) as (e1 & He1 & Ho1 & Hs1).
  destruct (span_info_wf _ Hw2) as (e2 & He2 & Ho2 & Hs2).
  destruct (span_info_wf _ Hw3) as (e3 & He3 & Ho3 & Hs3).
  assert (Htruthy : str_truthy trace_id = true)
    by (destruct trace_id; [congruence | reflexivity]).
  eexists. eexists. exists e1, e2, e3, r.
  split.
  - unfold Jaeger.get_trace.
    eapply tool_try_run; [| reflexivity].
    rewrite Htruthy. cbn [negb when_].
    run reflexivity.
    run ltac:(apply make_jaeger_request_run; exact Hreply).
    run ltac:(apply jaeger_response_data_run; exact Hdata).
    cbn [py_truthy negb when_].
    run reflexivity.
    run_lift. run_lift. 
    run ltac:(apply now_iso_run).
    run_lift. cbn [py_get]. rewrite Hspans.
    run_lift.
    run ltac:(apply for_each_append_run; cbn [rmap]; rewrite He1, He2, He3;
              reflexivity).
    reflexivity.
  - split; [reflexivity |].
    split; [repeat constructor; assumption |].
    split; [reflexivity |].
    split; [| split; assumption].
    unfold Jaeger._find_root_span. cbn [py_iter rbind]. now rewrite Hfind.
Qed.

Lemma get_trace_three_spans_witness :
  exists res w' e1 e2 e3 r,
    Jaeger.get_trace "abc123" Data.trace_env world0 = (Ok (VDict res), w') /\
    dict_get "spans" res = Some (VList [VDict e1; VDict e2; VDict e3]) /\
    Forall2 (fun s e =>
               dict_get "operation_name" e
                 = Some (field "operationName" s) /\
               dict_get "service_name" e = Some (span_service s))
            [Data.query_span; Data.root_span; Data.render_span] [e1; e2; e3] /\
    dict_get "root_span" res = None /\
    Jaeger._find_root_span
      (VList [Data.query_span; Data.root_span; Data.render_span])
      = Ok (VDict r) /\
    dict_get "operation_name" r = Some (VStr "GET /users") /\
    dict_get "service_name" r = Some (VStr "user-service").
Proof.
  apply (get_trace_three_spans Data.trace_env world0 "abc123"
           Data.trace_body Data.trace
           Data.query_span Data.root_span Data.render_span Data.root_span).
  - discriminate.
  - reflexivity.
  - reflexivity.
  - reflexivity.
  - reflexivity.
  - reflexivity.
Defined.

(** At a reply with one trace of three spans, one of them parentless, the
    record [get_trace] returns has three span entries and no [root_span]
    at all, so none that matches the parentless span. *)
Lemma get_trace_has_no_root_span :
  "abc123" <> "" /\
  reply_traces (next_reply Data.trace_env world0
                           "http://localhost:16686/api/traces/abc123" None)
    = Some [VDict Data.trace] /\
  trace_spans (VDict Data.trace)
    = [Data.query_span; Data.root_span; Data.render_span] /\
  filter parentless (trace_spans (VDict Data.trace)) = [Data.root_span] /\
  ~ (exists res w' root,
        Jaeger.get_trace "abc123" Data.trace_env world0
          = (Ok (VDict res), w') /\
        dict_get "root_span" res = Some root).
Proof.
  split; [discriminate |].
  split; [reflexivity |].
  split; [reflexivity |].
  split; [reflexivity |].
  intros (res & w' & root & Hrun & Hroot).
  vm_compute in Hrun. inversion Hrun; subst res. discriminate Hroot.
Qed.

Lemma search_traces_duration_witness :
  exists r w',
    Jaeger.search_traces Data.search_params Data.trace_env world0 = (Ok r, w') /\
    exists query_params traces entries res,
      Jaeger._build_trace_search_params Data.trace_env Data.search_params
        = Ok query_params /\
      reply_traces (next_reply Data.trace_env world0
                               (env_jaeger_url Data.trace_env ++ "/api/traces")
                               (Some query_params)) = Some traces /\
      r = VDict res /\
      dict_get "traces" res = Some (VList entries) /\
      Forall2 (fun trace entry =>
                 exists e, entry = VDict e /\
                           dict_get "duration" e
                             = Some (first_span_duration trace))
              traces entries.
Proof.
  eexists. eexists. split.
  - vm_compute. reflexivity.
  - eapply search_traces_duration_is_first_span. vm_compute. reflexivity.
Defined.

(** The duration reported is the first span's even when another span is
    the root and another lasts longer: here the first span lasts 5, the
    root and longest 100. *)
Example search_traces_duration_not_root :
  exists res e root w',
    Jaeger.search_traces Data.search_params Data.trace_env world0
      = (Ok (VDict res), w') /\
    dict_get "traces" res = Some (VList [VDict e]) /\
    dict_get "duration" e = Some (VInt 5) /\
    dict_get "root_span" e = Some (VDict root) /\
    dict_get "duration" root = Some (VInt 100) /\
    max_span_duration (VDict Data.trace) = 100%Z.
Proof.
  do 4 eexists. split; [vm_compute; reflexivity |].
  repeat split; reflexivity.
Qed.

(* ================================================================= *)
(** ** jaeger.py: service dependencies *)

Lemma touches_wf (s : string) (edge : value) :
  wf_edge edge = true -> Jaeger.touches s edge = Ok (edge_touches s edge).
Proof.
  destruct edge; try discriminate. intros _.
  unfold Jaeger.touches, edge_touches, field. simpl.
  destruct (py_eq_str _ s); reflexivity.
Qed.

Lemma filter_deps_wf (s : string) (edges : list value) :
  forallb wf_edge edges = true ->
  Jaeger.filter_deps s edges = Ok (filter (edge_touches s) edges).
Proof.
  induction edges as [| e edges IH]; simpl; [reflexivity |].
  intros H. apply andb_true_iff in H. destruct H as [He Hrest].
  rewrite (touches_wf _ _ He), (IH Hrest). reflexivity.
Qed.

Lemma set_add_name (x : value) (s : pyset) :
  is_name x = true -> set_add x s = Ok (names_add x s).
Proof. destruct x; try discriminate; reflexivity. Qed.

Lemma py_eq_scalar_names (x y : value) :
  is_name x = true -> is_name y = true ->
  py_eq_scalar x y = true <-> x = y.
Proof.
  destruct x, y; simpl; try discriminate; intros _ _;
    try (split; [discriminate | congruence]); try tauto.
  rewrite String.eqb_eq. split; congruence.
Qed.

Lemma existsb_names (x : value) (s : pyset) :
  is_name x = true -> forallb is_name s = true ->
  existsb (py_eq_scalar x) s = true <-> In x s.
Proof.
  intros Hx Hs. rewrite existsb_exists. rewrite forallb_forall in Hs.
  split.
  - intros (y & Hy & E). apply py_eq_scalar_names in E; auto. now subst.
  - intros H. exists x. split; [assumption |].
    apply py_eq_scalar_names; auto.
Qed.

Lemma names_add_spec (x : value) (s : pyset) :
  is_name x = true -> forallb is_name s = true -> NoDup s ->
  forallb is_name (names_add x s) = true /\ NoDup (names_add x s) /\
  forall y, In y (names_add x s) <-> y = x \/ In y s.
Proof.
  intros Hx Hs Hnd. unfold names_add.
  destruct (existsb (py_eq_scalar x) s) eqn:E.
  - apply existsb_names in E; auto.
    split; [assumption |]. split; [assumption |].
    intros y. split; [auto |]. intros [-> | H]; assumption.
  - assert (Hnin : ~ In x s).
    { intros H. apply (existsb_names x s Hx Hs) in H. congruence. }
    split; [| split].
    + rewrite forallb_app. simpl. now rewrite Hs, Hx.
    + apply NoDup_app; auto.
      * repeat constructor. simpl. tauto.
      * intros a Ha [<- | []]. contradiction.
    + intros y. rewrite in_app_iff. simpl. intuition congruence.
Qed.

Lemma add_dependency_wf (st : list value * pyset) (edge : value) :
  wf_edge edge = true ->
  Jaeger.add_dependency st edge
    = Ok ((fst st ++ [edge_entry edge])%list,
          names_add (field "child" edge) (names_add (field "parent" edge) (snd st))).
Proof.
  unfold wf_edge. intros H.
  apply andb_true_iff in H. destruct H as [H Hc].
  apply andb_true_iff in H. destruct H as [Hd Hp].
  destruct edge; try discriminate.
  unfold Jaeger.add_dependency, edge_entry. cbn [py_get rbind].
  unfold field in *.
  rewrite (set_add_name _ _ Hp). cbn [rbind].
  rewrite (set_add_name _ _ Hc). reflexivity.
Qed.

Lemma rfold_add_dependency (edges : list value) (acc : list value) (s : pyset) :
  forallb wf_edge edges = true ->
  rfold Jaeger.add_dependency edges (acc, s)
    = Ok ((acc ++ map edge_entry edges)%list, names_of edges s).
Proof.
  revert acc s. induction edges as [| e edges IH]; simpl; intros acc s H.
  - now rewrite app_nil_r.
  - apply andb_true_iff in H. destruct H as [He Hrest].
    rewrite (add_dependency_wf _ _ He). cbn [rbind fst snd].
    rewrite (IH _ _ Hrest). now rewrite <- app_assoc.
Qed.

Lemma names_of_spec (edges : list value) (s : pyset) :
  forallb wf_edge edges = true ->
  forallb is_name s = true -> NoDup s ->
  forallb is_name (names_of edges s) = true /\ NoDup (names_of edges s) /\
  forall y, In y (names_of edges s) <->
            In y s \/
            exists e, In e edges /\ (y = field "parent" e \/ y = field "child" e).
Proof.
  revert s. induction edges as [| e edges IH]; simpl; intros s Hwf Hs Hnd.
  - split; [assumption |]. split; [assumption |].
    intros y. split; [auto |]. intros [H | (e & [] & _)]. assumption.
  - apply andb_true_iff in Hwf. destruct Hwf as [He Hrest].
    unfold wf_edge in He.
    apply andb_true_iff in He. destruct He as [He Hc].
    apply andb_true_iff in He. destruct He as [_ Hp].
    destruct (names_add_spec _ _ Hp Hs Hnd) as (Hs1 & Hnd1 & Hin1).
    destruct (names_add_spec _ _ Hc Hs1 Hnd1) as (Hs2 & Hnd2 & Hin2).
    destruct (IH _ Hrest Hs2 Hnd2) as (Hs3 & Hnd3 & Hin3).
    split; [assumption |]. split; [assumption |].
    intros y. rewrite Hin3, Hin2, Hin1. split.
    + intros [[-> | [-> | H]] | (e' & He' & Hy)]; eauto 6.
    + intros [H | (e' & [<- | He'] & Hy)]; eauto 6.
      destruct Hy as [-> | ->]; auto.
Qed.

Lemma filter_wf {A} (p q : A -> bool) (l : list A) :
  forallb p l = true -> forallb p (filter q l) = true.
Proof.
  induction l as [| x l IH]; simpl; [reflexivity |].
  intros H. apply andb_true_iff in H. destruct H as [Hx Hl].
  destruct (q x); simpl; [rewrite Hx |]; auto.
Qed.

(** ** C5 *)

(** C5, as the code has it.  For [analyze_service_dependencies] called
    with a non-empty service name [s] on a reply of well-formed edges, the
    returned dependencies list holds exactly the backend edges whose parent
    is [s] or whose child is [s], in source order; [total_dependencies] is
    their number; and [unique_services] lists, each once, exactly the
    parents and the children of those returned edges. *)
Theorem analyze_service_dependencies_filtered :
  forall env w s lookback_hours body edges,
    s <> "" ->
    next_reply env w (env_jaeger_url env ++ "/api/dependencies")
               (Some (dependencies_params env w lookback_hours))
      = HttpJson (VDict body) ->
    dict_get "data" body = Some (VList edges) ->
    forallb wf_edge edges = true ->
    exists res w' summary unique,
      Jaeger.analyze_service_dependencies (Some s) lookback_hours env w
        = (Ok (VDict res), w') /\
      dict_get "dependencies" res
        = Some (VList (map edge_entry (filter (edge_touches s) edges))) /\
      dict_get "summary" res = Some (VDict summary) /\
      dict_get "total_dependencies" summary
        = Some (VInt (Z.of_nat (List.length (filter (edge_touches s) edges))))
      /\
      dict_get "unique_services" summary = Some (VList unique) /\
      NoDup unique /\
      forall name,
        In name unique <->
        exists e, In e (filter (edge_touches s) edges) /\
                  (name = field "parent" e \/ name = field "child" e).
Proof.
  intros env w s lookback_hours body edges Hs Hreply Hdata Hwf.
  assert (Htruthy : str_truthy s = true)
    by (destruct s; [congruence | reflexivity]).
  set (kept := filter (edge_touches s) edges).
  assert (Hkept : forallb wf_edge kept = true) by now apply filter_wf.
  destruct (names_of_spec kept [] Hkept eq_refl (NoDup_nil _))
    as (_ & Hnd & Hin).
  eexists. eexists. eexists. exists (names_of kept []).
  split.
  - unfold Jaeger.analyze_service_dependencies.
    eapply tool_try_run; [| reflexivity].
    run reflexivity. run reflexivity.
    run ltac:(apply make_jaeger_request_run; exact Hreply).
    run ltac:(apply jaeger_response_data_run; exact Hdata).
    cbn [opt_truthy]. rewrite Htruthy.
    run ltac:(run_lift; eapply bind_run;
              [rewrite (filter_deps_wf _ _ Hwf); apply lift_run | reflexivity]).
    run ltac:(apply now_iso_run).
    run_lift. run_lift.
    eapply bind_run;
      [fold kept; rewrite (rfold_add_dependency _ _ _ Hkept); apply lift_run |].
    reflexivity.
  - split; [reflexivity |]. split; [reflexivity |].
    split; [reflexivity |]. split; [reflexivity |].
    split; [assumption |].
    intros name. rewrite Hin. simpl. tauto.
Qed.

Lemma analyze_service_dependencies_witness :
  exists res w' summary unique,
    Jaeger.analyze_service_dependencies (Some "user-service") 24
                                        Data.edges_env world0
      = (Ok (VDict res), w') /\
    dict_get "dependencies" res
      = Some (VList (map edge_entry
                         (filter (edge_touches "user-service") Data.edges))) /\
    dict_get "summary" res = Some (VDict summary) /\
    dict_get "total_dependencies" summary = Some (VInt 3) /\
    dict_get "unique_services" summary = Some (VList unique) /\
    NoDup unique /\
    forall name,
      In name unique <->
      exists e, In e (filter (edge_touches "user-service") Data.edges) /\
                (name = field "parent" e \/ name = field "child" e).
Proof.
  apply (analyze_service_dependencies_filtered
           Data.edges_env world0 "user-service" 24
           [("data", VList Data.edges)] Data.edges).
  - discriminate.
  - reflexivity.
  - reflexivity.
  - reflexivity.
Defined.

(** Called with the empty string as the service name, the tool does not
    filter: no edge has the empty name at either end, and all four edges
    of the reply are returned. *)
Lemma analyze_service_dependencies_empty_name :
  filter (edge_touches "") Data.edges = [] /\
  exists res w',
    Jaeger.analyze_service_dependencies (Some "") 24 Data.edges_env world0
      = (Ok (VDict res), w') /\
    dict_get "dependencies" res = Some (VList (map edge_entry Data.edges)) /\
    dict_get "dependencies" res
      <> Some (VList (map edge_entry (filter (edge_touches "") Data.edges))).
Proof.
  split; [reflexivity |].
  eexists. eexists. split; [vm_compute; reflexivity |].
  split; [reflexivity | discriminate].
Qed.

(* ================================================================= *)
(** ** jaeger.py: the query builder *)

Lemma dict_get_set_same (k : string) (v : value) (d : dict) :
  dict_get k (dict_set k v d) = Some v.
Proof.
  induction d as [| [k' v'] d IH]; simpl.
  - now rewrite String.eqb_refl.
  - destruct (String.eqb k k') eqn:E; simpl.
    + now rewrite String.eqb_refl.
    + now rewrite E.
Qed.

Lemma strdict_set_fresh (k v : string) (d : list (string * string)) :
  ~ In k (map fst d) -> Jaeger.strdict_set k v d = (d ++ [(k, v)])%list.
Proof.
  induction d as [| [k' v'] d IH]; simpl; intros H; [reflexivity |].
  destruct (String.eqb k k') eqn:E.
  - apply String.eqb_eq in E. subst. tauto.
  - rewrite IH; tauto.
Qed.

Lemma stringify_tags_from (tags : dict) (acc : list (string * string)) :
  NoDup (map fst acc ++ dict_keys tags)%list ->
  fold_left (fun acc kv =>
               Jaeger.strdict_set (fst kv) (Jaeger.stringify_tag (snd kv)) acc)
            tags acc
    = (acc ++ stringified tags)%list.
Proof.
  revert acc. induction tags as [| [k v] tags IH]; simpl; intros acc H.
  - now rewrite app_nil_r.
  - rewrite strdict_set_fresh.
    + rewrite IH.
      * now rewrite <- app_assoc.
      * rewrite map_app. simpl. now rewrite <- app_assoc.
    + apply NoDup_remove_2 in H. intros Hin. apply H.
      apply in_or_app. now left.
Qed.

Lemma stringify_tags_distinct (tags : dict) :
  NoDup (dict_keys tags) -> Jaeger.stringify_tags tags = stringified tags.
Proof.
  intros H. unfold Jaeger.stringify_tags.
  now rewrite stringify_tags_from.
Qed.

Lemma set_epoch_param_converts env skip key s params :
  time_converts env skip (Some s) = true ->
  (str_truthy s && negb (skip && String.eqb s "now"))%bool = true ->
  exists params', Jaeger.set_epoch_param env key s params = Ok params'.
Proof.
  unfold time_converts, Jaeger.set_epoch_param. intros H E.
  rewrite E in H.
  destruct (env_fromisoformat env s) as [dt |]; [| discriminate].
  destruct (env_timestamp env dt 1000000); [| discriminate].
  simpl. eauto.
Qed.

(** ** C8 *)

(** C8.  In the trace-search query builder, a tag whose value is the
    boolean [True] is sent as the string [true] and [False] as [false];
    every other tag value is sent as its string form; and the string-valued
    mapping, in the order of the tags, is serialized by [json.dumps] into
    the single [tags] parameter.  The builder returns whenever the time
    bounds of the search convert. *)
Theorem build_trace_search_params_tags :
  forall env p t,
    Jaeger.tags p = Some t ->
    t <> [] ->
    NoDup (dict_keys t) ->
    time_converts env false (Jaeger.start_time p) = true ->
    time_converts env true (Jaeger.end_time p) = true ->
    exists params,
      Jaeger._build_trace_search_params env p = Ok params /\
      dict_get "tags" params
        = Some (VStr (Jaeger.json_dumps_strdict (stringified t))) /\
      (forall k b,
          In (k, VBool b) t ->
          In (k, if b then "true" else "false") (stringified t)) /\
      (forall k v,
          In (k, v) t -> is_bool v = false -> In (k, py_str v) (stringified t)).
Proof.
  intros env p t Ht Hne Hnd Hstart Hend.
  unfold Jaeger._build_trace_search_params.
  rewrite Ht.
  set (p0 := Jaeger.set_if_truthy "lookback" _ _).
  assert (H1 : exists p1,
             match Jaeger.start_time p with
             | Some s => if str_truthy s
                         then Jaeger.set_epoch_param env "start" s p0
                         else Ok p0
             | None => Ok p0
             end = Ok p1).
  { destruct (Jaeger.start_time p) as [s |]; [| eauto].
    destruct (str_truthy s) eqn:E; [| eauto].
    apply (set_epoch_param_converts env false); [assumption |].
    now rewrite E. }
  destruct H1 as (p1 & ->). cbn [rbind].
  assert (H2 : exists p2,
             match Jaeger.end_time p with
             | Some s => if (str_truthy s && negb (String.eqb s "now"))%bool
                         then Jaeger.set_epoch_param env "end" s p1
                         else Ok p1
             | None => Ok p1
             end = Ok p2).
  { destruct (Jaeger.end_time p) as [s |]; [| eauto].
    destruct (str_truthy s && negb (String.eqb s "now"))%bool eqn:E; [| eauto].
    apply (set_epoch_param_converts env true); [assumption |].
    exact E. }
  destruct H2 as (p2 & ->). cbn [rbind].
  destruct t as [| kv t]; [congruence |].
  eexists. split; [reflexivity |].
  split; [| split].
  - rewrite dict_get_set_same. now rewrite stringify_tags_distinct.
  - intros k b Hin. unfold stringified.
    apply (in_map (fun kv => (fst kv, Jaeger.stringify_tag (snd kv)))) in Hin.
    destruct b; exact Hin.
  - intros k v Hin Hb. unfold stringified.
    apply (in_map (fun kv => (fst kv, Jaeger.stringify_tag (snd kv)))) in Hin.
    destruct v; try discriminate; exact Hin.
Qed.

Lemma build_trace_search_params_tags_witness :
  exists params,
    Jaeger._build_trace_search_params Data.trace_env Data.search_params
      = Ok params /\
    dict_get "tags" params
      = Some (VStr ("{" ++ dq ++ "error" ++ dq ++ ": " ++ dq ++ "true" ++ dq
                        ++ ", " ++ dq ++ "http.status_code" ++ dq ++ ": "
                        ++ dq ++ "500" ++ dq ++ "}")) /\
    (forall k b,
        In (k, VBool b) [("error", VBool true); ("http.status_code", VInt 500)] ->
        In (k, if b then "true" else "false")
           [("error", "true"); ("http.status_code", "500")]) /\
    (forall k v,
        In (k, v) [("error", VBool true); ("http.status_code", VInt 500)] ->
        is_bool v = false ->
        In (k, py_str v) [("error", "true"); ("http.status_code", "500")]).
Proof.
  apply (build_trace_search_params_tags
           Data.trace_env Data.search_params
           [("error", VBool true); ("http.status_code", VInt 500)]).
  - reflexivity.
  - discriminate.
  - repeat constructor; simpl; intuition discriminate.
  - reflexivity.
  - reflexivity.
Defined.

(* ================================================================= *)
(** ** loki.py: the time formatter *)

Local Open Scope Z_scope.

Lemma str_last_snoc (s : string) (c : ascii) :
  str_last (s ++ String c "") = Some c.
Proof.
  induction s as [| a s IH]; simpl; [reflexivity |].
  rewrite IH. destruct (s ++ String c "") eqn:E; [| reflexivity].
  destruct s; discriminate.
Qed.

Lemma str_init_snoc (s : string) (c : ascii) :
  str_init (s ++ String c "") = s.
Proof.
  induction s as [| a s IH]; simpl; [reflexivity |].
  rewrite IH. destruct (s ++ String c "") eqn:E; [| reflexivity].
  destruct s; discriminate.
Qed.

Lemma digit_not_space (c : ascii) : is_digit c = true -> is_space c = false.
Proof.
  destruct c as [[] [] [] [] [] [] [] []]; vm_compute; intros H;
    first [reflexivity | discriminate H].
Qed.

Lemma str_lstrip_digits (s : string) :
  str_forall is_digit s = true -> str_lstrip s = s.
Proof.
  destruct s as [| c s]; simpl; [reflexivity |].
  intros H. apply andb_true_iff in H. destruct H as [H _].
  now rewrite (digit_not_space _ H).
Qed.

Lemma str_rev_append_forall (p : ascii -> bool) (s acc : string) :
  str_forall p s = true -> str_forall p acc = true ->
  str_forall p (str_rev_append s acc) = true.
Proof.
  revert acc. induction s as [| c s IH]; simpl; intros acc Hs Hacc; [assumption |].
  apply andb_true_iff in Hs. destruct Hs as [Hc Hs].
  apply IH; [assumption |]. simpl. now rewrite Hc, Hacc.
Qed.

Lemma str_rev_append_rev (s acc : string) :
  str_rev_append (str_rev_append s acc) "" = str_rev_append acc s.
Proof.
  revert acc. induction s as [| c s IH]; simpl; intros acc; [reflexivity |].
  now rewrite IH.
Qed.

Lemma str_strip_digits (s : string) :
  str_forall is_digit s = true -> str_strip s = s.
Proof.
  intros H. unfold str_strip, str_rev.
  rewrite (str_lstrip_digits s H).
  rewrite str_lstrip_digits by now apply str_rev_append_forall.
  now rewrite str_rev_append_rev.
Qed.

Lemma digits_value_digits (s : string) (acc : Z) (b : bool) (n : nat) :
  str_forall is_digit s = true ->
  (s <> "" \/ b = false) ->
  digits_value s acc b n = Some (decimal_from acc s, (n + String.length s)%nat).
Proof.
  revert acc b n. induction s as [| c s IH]; simpl; intros acc b n H Hne.
  - destruct Hne as [Hne | ->]; [congruence |]. now rewrite Nat.add_0_r.
  - apply andb_true_iff in H. destruct H as [Hc Hs].
    rewrite Hc. rewrite IH by auto. now rewrite Nat.add_succ_r.
Qed.

Lemma int_of_str_digits (s : string) :
  s <> "" -> str_forall is_digit s = true ->
  (String.length s <= int_max_str_digits)%nat ->
  int_of_str s = Ok (decimal s).
Proof.
  intros Hne Hd Hlen. unfold int_of_str.
  rewrite (str_strip_digits s Hd).
  assert (Hsign : (let '(sign, body) :=
                     match s with
                     | String "+" r => (1, r)
                     | String "-" r => (-1, r)
                     | _ => (1, s)
                     end in
                   match digits_value body 0 true 0 with
                   | Some (v, n) =>
                       if Nat.leb n int_max_str_digits then Ok (sign * v)
                       else Raise (Exn ValueError
                         "Exceeds the limit (4300 digits) for integer string conversion")
                   | None =>
                       Raise (Exn ValueError
                         ("invalid literal for int() with base 10: " ++ repr_str s))
                   end)
                  = match digits_value s 0 true 0 with
                    | Some (v, n) =>
                        if Nat.leb n int_max_str_digits then Ok (1 * v)
                        else Raise (Exn ValueError
                          "Exceeds the limit (4300 digits) for integer string conversion")
                    | None =>
                        Raise (Exn ValueError
                          ("invalid literal for int() with base 10: " ++ repr_str s))
                    end).
  { destruct s as [| c s']; [reflexivity |].
    simpl in Hd. apply andb_true_iff in Hd. destruct Hd as [Hc _].
    destruct c as [[] [] [] [] [] [] [] []]; try reflexivity;
      vm_compute in Hc; discriminate. }
  rewrite Hsign.
  rewrite (digits_value_digits s 0 true 0 Hd) by auto.
  simpl Nat.add.
  apply Nat.leb_le in Hlen. rewrite Hlen.
  unfold decimal. now rewrite Z.mul_1_l.
Qed.

Lemma decimal_from_nonneg (s : string) (acc : Z) :
  0 <= acc -> str_forall is_digit s = true -> 0 <= decimal_from acc s.
Proof.
  revert acc. induction s as [| c s IH]; simpl; intros acc Hacc H; [assumption |].
  apply andb_true_iff in H. destruct H as [Hc Hs].
  apply IH; [| assumption].
  unfold is_digit, in_range in Hc. apply andb_true_iff in Hc.
  destruct Hc as [H1 _]. apply N.leb_le in H1.
  unfold digit_value. lia.
Qed.

Lemma ends_with_unit_snoc (s : string) (unit : ascii) :
  is_unit unit = true -> Loki.ends_with_unit (s ++ String unit "") = true.
Proof.
  intros H. unfold Loki.ends_with_unit. rewrite str_last_snoc.
  unfold is_unit in H.
  destruct (Ascii.eqb unit "m"), (Ascii.eqb unit "h"), (Ascii.eqb unit "s");
    simpl in *; congruence.
Qed.

Lemma unit_seconds_microseconds (unit : ascii) (v : Z) :
  is_unit unit = true ->
  exists secs, Loki.unit_seconds unit v = Some secs /\
               secs * 1000000 = v * unit_microseconds unit.
Proof.
  unfold is_unit, Loki.unit_seconds, unit_microseconds.
  destruct (Ascii.eqb unit "s"); [intros _; exists v; split; [reflexivity | lia] |].
  destruct (Ascii.eqb unit "m"); [intros _; eexists; split; [reflexivity | lia] |].
  destruct (Ascii.eqb unit "h"); [intros _; eexists; split; [reflexivity | lia] |].
  discriminate.
Qed.

Lemma try_except_run_ok {A} clss (body : M A) handler env w a w1 :
  body env w = (Ok a, w1) -> try_except clss body handler env w = (Ok a, w1).
Proof. unfold try_except. now intros ->. Qed.

Lemma try_except_run_caught {A} clss (body : M A) handler env w e w1 :
  body env w = (Raise e, w1) ->
  existsb (exn_class_eqb (exn_cls e)) clss = true ->
  try_except clss body handler env w = handler (exn_str e) env w1.
Proof. unfold try_except. now intros -> ->. Qed.

(** The relative branch, for a value in range. *)
Lemma format_time_relative env w digits unit :
  digits <> "" ->
  str_forall is_digit digits = true ->
  (String.length digits <= int_max_str_digits)%nat ->
  is_unit unit = true ->
  0 <= env_now env (clock_reads w) <= datetime_max ->
  decimal digits * unit_microseconds unit <= env_now env (clock_reads w) ->
  Loki._format_time_for_loki (Some (digits ++ String unit "")) env w
    = (Ok (VStr (env_strftime env
                   (env_now env (clock_reads w)
                    - decimal digits * unit_microseconds unit))),
       tick w).
Proof.
  intros Hne Hd Hlen Hu Hnow Hdelta.
  destruct (unit_seconds_microseconds unit (decimal digits) Hu)
    as (secs & Hsecs & Hus).
  assert (Hpos : 0 <= decimal digits)
    by (apply decimal_from_nonneg; [lia | assumption]).
  assert (Hupos : 0 < unit_microseconds unit).
  { unfold is_unit in Hu. unfold unit_microseconds.
    destruct (Ascii.eqb unit "s"); [lia |].
    destruct (Ascii.eqb unit "m"); [lia |].
    destruct (Ascii.eqb unit "h"); [lia | discriminate]. }
  assert (Hsecs0 : 0 <= secs) by nia.
  assert (Hbody : Loki.format_time_body (digits ++ String unit "") env w
                  = (Ok (Some (VStr (env_strftime env
                           (env_now env (clock_reads w)
                            - decimal digits * unit_microseconds unit)))),
                     tick w)).
  { unfold Loki.format_time_body.
    rewrite (ends_with_unit_snoc _ _ Hu), str_last_snoc, str_init_snoc.
    eapply bind_run;
      [rewrite (int_of_str_digits _ Hne Hd Hlen); apply lift_run | cbv beta].
    rewrite Hsecs.
    assert (Htd : timedelta_seconds secs = Ok (secs * 1000000)).
    { unfold timedelta_seconds, datetime_max in *.
      assert (H1 : (-999999999 <=? secs / 86400) = true)
        by (apply Z.leb_le;
            assert (0 <= secs / 86400) by (apply Z.div_pos; lia); lia).
      assert (H2 : (secs / 86400 <=? 999999999) = true).
      { apply Z.leb_le. apply Z.div_le_upper_bound; lia. }
      now rewrite H1, H2. }
    eapply bind_run; [rewrite Htd; apply lift_run | cbv beta].
    eapply bind_run; [reflexivity | cbv beta].
    assert (Hsub : datetime_sub (utc (env_now env (clock_reads w)))
                                (secs * 1000000)
                   = Ok (Datetime (env_now env (clock_reads w) - secs * 1000000)
                                  (Some 0))).
    { unfold datetime_sub, utc. cbn [dt_wall dt_utcoffset].
      assert (H1 : (0 <=? env_now env (clock_reads w) - secs * 1000000) = true)
        by (apply Z.leb_le; lia).
      assert (H2 : (env_now env (clock_reads w) - secs * 1000000
                    <=? datetime_max) = true) by (apply Z.leb_le; lia).
      now rewrite H1, H2. }
    eapply bind_run; [rewrite Hsub; apply lift_run | cbv beta].
    eapply bind_run; [reflexivity | cbv beta].
    cbn [dt_wall]. rewrite Hus. reflexivity. }
  unfold Loki._format_time_for_loki.
  assert (Ht : str_truthy (digits ++ String unit "") = true)
    by (destruct digits; reflexivity).
  rewrite Ht. cbn [negb].
  apply try_except_run_ok.
  eapply bind_run; [exact Hbody | reflexivity].
Qed.

Lemma int_of_str_raises (s : string) (e : exn) :
  int_of_str s = Raise e -> exn_cls e = ValueError.
Proof.
  unfold int_of_str.
  destruct (match str_strip s with
            | String "+" r => (1, r)
            | String "-" r => (-1, r)
            | _ => (1, str_strip s)
            end) as [sign body].
  destruct (digits_value body 0 true 0) as [[v n] |].
  - destruct (Nat.leb n int_max_str_digits); intros H; inversion H; reflexivity.
  - intros H; inversion H; reflexivity.
Qed.

(** A string that fails to parse comes back unchanged, the clock unread. *)
Lemma format_time_passthrough env w s :
  s <> "" -> fails_to_parse env s = true ->
  Loki._format_time_for_loki (Some s) env w = (Ok (VStr s), w).
Proof.
  intros Hne Hf.
  assert (Ht : str_truthy s = true) by (destruct s; [congruence | reflexivity]).
  unfold Loki._format_time_for_loki. rewrite Ht. cbn [negb].
  unfold fails_to_parse in Hf.
  unfold Loki.format_time_body.
  destruct (Loki.ends_with_unit s).
  - destruct (int_of_str (str_init s)) as [v | e] eqn:E; [discriminate |].
    erewrite try_except_run_caught.
    + reflexivity.
    + apply bind_run_raise. apply bind_run_raise. apply lift_run.
    + rewrite (int_of_str_raises _ _ E). reflexivity.
  - destruct (str_contains "T" s).
    + destruct (env_fromisoformat env s) eqn:E; [discriminate |].
      erewrite try_except_run_caught.
      * reflexivity.
      * apply bind_run_raise. eapply bind_run; [reflexivity | cbv beta].
        rewrite E. reflexivity.
      * reflexivity.
    + reflexivity.
Qed.

(** ** C6 *)

(** C6, as the code has it.  For every time string made of one or more
    decimal digits (no more than [int()] converts) and a unit [s], [m] or
    [h], whose offset does not reach back before year 1, the Loki time
    formatter reads the UTC clock once and returns the timestamp of
    now - value x unit; and a time string that fails to parse is returned
    unchanged, the call not failing. *)
Theorem format_time_for_loki_resolves :
  forall env w,
    (forall digits unit,
        digits <> "" ->
        str_forall is_digit digits = true ->
        (String.length digits <= int_max_str_digits)%nat ->
        is_unit unit = true ->
        0 <= env_now env (clock_reads w) <= datetime_max ->
        decimal digits * unit_microseconds unit <= env_now env (clock_reads w) ->
        Loki._format_time_for_loki (Some (digits ++ String unit "")) env w
          = (Ok (VStr (env_strftime env
                         (env_now env (clock_reads w)
                          - decimal digits * unit_microseconds unit))),
             tick w)) /\
    (forall s,
        s <> "" -> fails_to_parse env s = true ->
        Loki._format_time_for_loki (Some s) env w = (Ok (VStr s), w)).
Proof.
  intros env w. split.
  - intros. now apply format_time_relative.
  - intros. now apply format_time_passthrough.
Qed.

Lemma format_time_for_loki_witness :
  Loki._format_time_for_loki (Some "5m") Data.idle_env world0
    = (Ok (VStr "2023-12-31T23:55:00.000000Z"), tick world0) /\
  Loki._format_time_for_loki (Some "soon") Data.idle_env world0
    = (Ok (VStr "soon"), world0).
Proof.
  destruct (format_time_for_loki_resolves Data.idle_env world0) as [Hrel Hpass].
  split.
  - apply (Hrel "5" "m"%char).
    + discriminate.
    + reflexivity.
    + vm_compute. lia.
    + reflexivity.
    + vm_compute. split; discriminate.
    + vm_compute. discriminate.
  - apply (Hpass "soon").
    + discriminate.
    + reflexivity.
Defined.

(** A time string of digits and a unit whose offset is more than
    [timedelta] holds: the formatter raises [OverflowError], which its
    [except] clause does not catch; the string is neither resolved nor
    passed through. *)
Lemma format_time_for_loki_overflow :
  str_forall is_digit "999999999999999" = true /\
  is_unit "h" = true /\
  Loki._format_time_for_loki (Some "999999999999999h") Data.idle_env world0
    = (Raise (Exn OverflowError
                  "days=41666666666666; must have magnitude <= 999999999"),
       world0).
Proof. repeat split. Qed.

(** The same for an offset that reaches back before year 1. *)
Example format_time_for_loki_before_year_1 :
  Loki._format_time_for_loki (Some "99999999999s") Data.idle_env world0
    = (Raise (Exn OverflowError "date value out of range"), tick world0).
Proof. reflexivity. Qed.

(* ================================================================= *)
(** ** prometheus.py: the HTTP-metrics rollup *)

Lemma dict_get_set_other (k k' : string) (v : value) (d : dict) :
  k <> k' -> dict_get k (dict_set k' v d) = dict_get k d.
Proof.
  intros Hne. induction d as [| [k0 v0] d IH]; simpl.
  - destruct (String.eqb k k') eqn:E; [| reflexivity].
    apply String.eqb_eq in E. congruence.
  - destruct (String.eqb k' k0) eqn:E; simpl.
    + apply String.eqb_eq in E. subst k0.
      destruct (String.eqb k k') eqn:E'; [| reflexivity].
      apply String.eqb_eq in E'. congruence.
    + now rewrite IH.
Qed.

Lemma add_warnings_ok response base env w result w' :
  Prometheus.add_warnings response base env w = (Ok result, w') ->
  w' = w /\ forall k, k <> "warnings" -> dict_get k result = dict_get k base.
Proof.
  unfold Prometheus.add_warnings. intros H.
  apply bind_ok_inv in H. destruct H as (has & w1 & Hhas & H).
  apply lift_inv in Hhas. destruct Hhas as [_ ->].
  destruct has.
  - apply bind_ok_inv in H. destruct H as (x & w1 & Hx & H).
    apply lift_inv in Hx. destruct Hx as [_ ->].
    apply ret_inv in H. destruct H as [H ->]. inversion H; subst result.
    split; [reflexivity |]. intros k Hk. now apply dict_get_set_other.
  - apply ret_inv in H. destruct H as [H ->]. inversion H; subst result.
    split; [reflexivity |]. reflexivity.
Qed.

Lemma log_result_shape_ok response env w u w' :
  Prometheus.log_result_shape response env w = (Ok u, w') ->
  w' = w /\
  exists data res n,
    py_getitem response "data" = Ok data /\
    py_get data "result" (VList []) = Ok res /\
    py_len res = Ok n.
Proof.
  unfold Prometheus.log_result_shape. intros H.
  apply bind_ok_inv in H. destruct H as (data & w1 & Hd & H).
  apply lift_inv in Hd. destruct Hd as [Hd ->].
  apply bind_ok_inv in H. destruct H as (rt & w1 & Hrt & H).
  apply lift_inv in Hrt. destruct Hrt as [_ ->].
  apply bind_ok_inv in H. destruct H as (res & w1 & Hres & H).
  apply lift_inv in Hres. destruct Hres as [Hres ->].
  apply bind_ok_inv in H. destruct H as (n & w1 & Hn & H).
  apply lift_inv in Hn. destruct Hn as [Hn ->].
  apply ret_inv in H. destruct H as [_ ->].
  split; [reflexivity |]. eauto 6.
Qed.

(** What a result of [query_prometheus] looks like. *)
Lemma query_prometheus_ok_shape q t env w r w' :
  Prometheus.query_prometheus q t env w = (Ok r, w') ->
  exists d data status res n,
    r = VDict d /\
    dict_get "data" d = Some data /\
    dict_get "status" d = Some status /\
    py_get data "result" (VList []) = Ok res /\
    py_len res = Ok n.
Proof.
  unfold Prometheus.query_prometheus. intros H.
  apply tool_try_ok_inv in H. destruct H as ([response result] & w0 & H & Helse).
  cbn [fst snd] in Helse.
  apply bind_ok_inv in Helse. destruct Helse as (u & w1 & Hshape & Hret).
  apply ret_inv in Hret. destruct Hret as [Hret _]. inversion Hret; subst r.
  apply log_result_shape_ok in Hshape.
  destruct Hshape as (_ & data & res & n & Hdata & Hres & Hn).
  apply bind_ok_inv in H. destruct H as (u1 & w2 & _ & H).
  apply bind_ok_inv in H. destruct H as (resp & w3 & _ & H).
  apply bind_ok_inv in H. destruct H as (u2 & w4 & _ & H).
  apply bind_ok_inv in H. destruct H as (status & w5 & Hstatus & H).
  apply bind_ok_inv in H. destruct H as (data' & w6 & Hdata' & H).
  apply lift_inv in Hdata'. destruct Hdata' as [Hdata' ->].
  apply bind_ok_inv in H. destruct H as (at_ & w7 & _ & H).
  apply bind_ok_inv in H. destruct H as (res' & w8 & Hw & H).
  apply ret_inv in H. destruct H as [H _]. inversion H; subst resp result.
  apply add_warnings_ok in Hw. destruct Hw as [_ Hkeys].
  rewrite Hdata in Hdata'. inversion Hdata'; subst data'.
  exists res', data, status, res, n.
  split; [reflexivity |].
  split; [rewrite Hkeys by discriminate; reflexivity |].
  split; [rewrite Hkeys by discriminate; reflexivity |].
  split; assumption.
Qed.

Lemma settled_cases (out : result value) :
  settled out = true ->
  (exists r, out = Ok r) \/ (exists msg, out = Raise (Exn PrometheusAPIError msg)).
Proof.
  destruct out as [r | [cls msg]]; simpl; [eauto |].
  intros H. apply exn_class_eqb_eq in H. simpl in H. subst. eauto.
Qed.

(** [_execute_single_query] turns a settled sub-query into its entry. *)
Lemma execute_single_query_run q name env w :
  settled (fst (Prometheus.query_prometheus q None env w)) = true ->
  Prometheus._execute_single_query q name env w
    = (Ok (metric_entry q (fst (Prometheus.query_prometheus q None env w))),
       snd (Prometheus.query_prometheus q None env w)).
Proof.
  intros H. unfold Prometheus._execute_single_query.
  destruct (Prometheus.query_prometheus q None env w) as [out w'] eqn:E.
  cbn [fst snd] in *.
  destruct (settled_cases _ H) as [(r & ->) | (msg & ->)].
  - destruct (query_prometheus_ok_shape _ _ _ _ _ _ E)
      as (d & data & status & res & n & -> & Hd & Hs & _).
    apply try_except_run_ok.
    eapply bind_run; [exact E | cbv beta].
    eapply bind_run;
      [cbn [py_getitem]; rewrite Hd; apply lift_run | cbv beta].
    eapply bind_run;
      [cbn [py_getitem]; rewrite Hs; apply lift_run | cbv beta].
    unfold metric_entry, field. now rewrite Hd, Hs.
  - erewrite try_except_run_caught.
    + reflexivity.
    + apply bind_run_raise. exact E.
    + reflexivity.
Qed.

Lemma dict_set_fresh (k : string) (v : value) (d : dict) :
  ~ In k (dict_keys d) -> dict_set k v d = (d ++ [(k, v)])%list.
Proof.
  induction d as [| [k' v'] d IH]; simpl; intros H; [reflexivity |].
  destruct (String.eqb k k') eqn:E.
  - apply String.eqb_eq in E. subst. tauto.
  - rewrite IH; tauto.
Qed.

Lemma metrics_loop_run env (qs : list (string * string)) (acc : dict) (w : World) :
  forallb settled (sub_runs env (map snd qs) w) = true ->
  NoDup (dict_keys acc ++ map fst qs)%list ->
  for_each qs Prometheus.run_metric acc env w
    = (Ok (acc ++ metrics_of qs (sub_runs env (map snd qs) w))%list,
       sub_world env (map snd qs) w).
Proof.
  revert acc w. induction qs as [| [name q] qs IH]; intros acc w Hs Hnd.
  - simpl. now rewrite app_nil_r.
  - cbn [map snd fst sub_runs sub_world forallb] in *.
    apply andb_true_iff in Hs. destruct Hs as [Hq Hrest].
    cbn [for_each].
    eapply bind_run.
    + unfold Prometheus.run_metric. cbn [fst snd].
      eapply bind_run; [apply execute_single_query_run; exact Hq | reflexivity].
    + cbv beta. rewrite dict_set_fresh.
      * rewrite IH.
        -- unfold metrics_of. cbn [combine map fst snd].
           now rewrite <- app_assoc.
        -- exact Hrest.
        -- unfold dict_keys. rewrite map_app. cbn [map fst].
           now rewrite <- app_assoc.
      * apply NoDup_remove_2 in Hnd. intros Hin. apply Hnd.
        apply in_or_app. now left.
Qed.

Lemma sub_runs_length env qs w :
  List.length (sub_runs env qs w) = List.length qs.
Proof.
  revert w. induction qs as [| q qs IH]; simpl; intros w; [reflexivity |].
  now rewrite IH.
Qed.

Lemma http_queries_names sn tr :
  map fst (Prometheus.http_queries sn tr)
    = ["request_rate"; "avg_response_time"; "p95_response_time";
       "p99_response_time"; "error_rate"; "client_error_rate";
       "active_requests"; "avg_response_size"].
Proof. reflexivity. Qed.

Lemma http_queries_distinct sn tr :
  NoDup (map fst (Prometheus.http_queries sn tr)).
Proof.
  rewrite http_queries_names.
  repeat constructor; simpl; intuition discriminate.
Qed.

(** The rollup returns whenever each of its sub-queries returned or failed
    with the Prometheus error, and its metrics are the entries of the
    outcomes, in the order of the queries. *)
Lemma analyze_http_metrics_run env w sn tr :
  forallb settled (metric_outcomes env sn tr w) = true ->
  exists res w',
    Prometheus.analyze_http_metrics sn tr env w = (Ok (VDict res), w') /\
    dict_get "metrics" res
      = Some (VDict (metrics_of (Prometheus.http_queries sn tr)
                                (metric_outcomes env sn tr w))).
Proof.
  intros H. unfold metric_outcomes in *.
  eexists. eexists. split.
  - unfold Prometheus.analyze_http_metrics.
    eapply tool_try_run; [| reflexivity].
    eapply bind_run; [apply now_iso_run | cbv beta].
    eapply bind_run; [apply metrics_loop_run; [exact H |] | reflexivity].
    apply http_queries_distinct.
  - reflexivity.
Qed.

Lemma metrics_of_keys (qs : list (string * string)) (outs : list (result value)) :
  List.length qs = List.length outs ->
  dict_keys (metrics_of qs outs) = map fst qs.
Proof.
  revert outs. induction qs as [| [name q] qs IH]; intros [| o outs] H;
    simpl in *; try discriminate; [reflexivity |].
  f_equal. apply IH. congruence.
Qed.

Lemma metrics_of_get (qs : list (string * string)) (outs : list (result value))
    (i : nat) (name q : string) (out : result value) :
  NoDup (map fst qs) ->
  nth_error qs i = Some (name, q) ->
  nth_error outs i = Some out ->
  dict_get name (metrics_of qs outs) = Some (metric_entry q out).
Proof.
  revert outs i. induction qs as [| [n0 q0] qs IH]; intros outs i Hnd Hq Ho.
  - destruct i; discriminate.
  - destruct outs as [| o outs]; [destruct i; discriminate |].
    inversion Hnd as [| ? ? Hnotin Hnd']; subst.
    destruct i as [| i]; simpl in Hq, Ho.
    + inversion Hq; inversion Ho; subst.
      unfold metrics_of. simpl. now rewrite String.eqb_refl.
    + unfold metrics_of. simpl.
      destruct (String.eqb name n0) eqn:E.
      * apply String.eqb_eq in E. subst n0. exfalso. apply Hnotin.
        apply nth_error_In in Hq.
        apply (in_map fst) in Hq. exact Hq.
      * now apply (IH outs i).
Qed.

Lemma metrics_of_data_count (qs : list (string * string))
    (outs : list (result value)) :
  List.length qs = List.length outs ->
  List.length (filter (fun e => has_key "data" (snd e)) (metrics_of qs outs))
    = List.length (filter succeeded outs).
Proof.
  revert outs. induction qs as [| [name q] qs IH]; intros [| o outs] H;
    simpl in *; try discriminate; [reflexivity |].
  unfold metrics_of in *. simpl.
  destruct o as [r | e]; simpl; rewrite IH by congruence; reflexivity.
Qed.

Lemma metrics_of_error_count (qs : list (string * string))
    (outs : list (result value)) :
  List.length qs = List.length outs ->
  List.length (filter (fun e => has_key "error" (snd e)) (metrics_of qs outs))
    = List.length (filter (fun o => negb (succeeded o)) outs).
Proof.
  revert outs. induction qs as [| [name q] qs IH]; intros [| o outs] H;
    simpl in *; try discriminate; [reflexivity |].
  unfold metrics_of in *. simpl.
  destruct o as [r | e]; simpl; rewrite IH by congruence; reflexivity.
Qed.

Lemma filter_all {A} (p : A -> bool) (l : list A) :
  forallb p l = true -> filter p l = l.
Proof.
  induction l as [| x l IH]; simpl; [reflexivity |].
  intros H. apply andb_true_iff in H. destruct H as [-> H]. now rewrite IH.
Qed.

Lemma filter_none {A} (p : A -> bool) (l : list A) :
  forallb p l = true -> filter (fun x => negb (p x)) l = [].
Proof.
  induction l as [| x l IH]; simpl; [reflexivity |].
  intros H. apply andb_true_iff in H. destruct H as [-> H]. now apply IH.
Qed.

(** A list all of whose items but the [k]-th satisfy [p]. *)
Lemma all_but_one {A} (p : A -> bool) (l : list A) (k : nat) (x : A) :
  nth_error l k = Some x ->
  (forall i, i <> k -> (i < List.length l)%nat ->
             exists y, nth_error l i = Some y /\ p y = true) ->
  exists l1 l2, l = (l1 ++ x :: l2)%list /\ List.length l1 = k /\
                forallb p l1 = true /\ forallb p l2 = true.
Proof.
  intros Hk Hothers.
  destruct (nth_error_split l k Hk) as (l1 & l2 & -> & Hlen).
  exists l1, l2. split; [reflexivity |]. split; [assumption |].
  split; apply forallb_forall; intros y Hy;
    destruct (In_nth_error _ _ Hy) as (i & Hi).
  - assert (Hlt : (i < List.length l1)%nat)
      by (apply nth_error_Some; congruence).
    destruct (Hothers i) as (y' & Hy' & Hp).
    + lia.
    + rewrite length_app. lia.
    + rewrite nth_error_app1 in Hy' by assumption. congruence.
  - assert (Hlt : (i < List.length l2)%nat)
      by (apply nth_error_Some; congruence).
    destruct (Hothers (List.length l1 + S i)%nat) as (y' & Hy' & Hp).
    + lia.
    + rewrite length_app. simpl. lia.
    + rewrite nth_error_app2 in Hy' by lia.
      replace (List.length l1 + S i - List.length l1)%nat with (S i) in Hy' by lia.
      simpl in Hy'. congruence.
Qed.

Lemma succeeded_settled (l : list (result value)) :
  forallb succeeded l = true -> forallb settled l = true.
Proof.
  induction l as [| [r | e] l IH]; simpl; try discriminate; auto.
Qed.

(** ** C3 *)

(** C3.  For [analyze_http_metrics] with any service name and time range,
    when exactly one of the eight PromQL sub-queries fails with a
    [PrometheusAPIError] and the other seven return, the call does not
    raise: it returns a result whose [metrics] mapping has exactly eight
    entries, under the eight metric names in order, seven of them carrying
    the data and the status of their sub-query's result and one carrying
    the failure message in its [error] field with status [error]. *)
Theorem analyze_http_metrics_one_failure :
  forall env w service_name time_range k msg,
    nth_error (metric_outcomes env service_name time_range w) k
      = Some (Raise (Exn PrometheusAPIError msg)) ->
    (forall i, i <> k -> (i < 8)%nat ->
               exists r, nth_error (metric_outcomes env service_name time_range w) i
                         = Some (Ok r)) ->
    exists res w' metrics,
      Prometheus.analyze_http_metrics service_name time_range env w
        = (Ok (VDict res), w') /\
      dict_get "metrics" res = Some (VDict metrics) /\
      dict_keys metrics
        = map fst (Prometheus.http_queries service_name time_range) /\
      List.length metrics = 8%nat /\
      List.length (filter (fun e => has_key "data" (snd e)) metrics) = 7%nat /\
      List.length (filter (fun e => has_key "error" (snd e)) metrics) = 1%nat /\
      (forall i name q r,
          nth_error (Prometheus.http_queries service_name time_range) i
            = Some (name, q) ->
          nth_error (metric_outcomes env service_name time_range w) i
            = Some (Ok r) ->
          dict_get name metrics
            = Some (VDict [("query", VStr q); ("data", field "data" r);
                           ("status", field "status" r)])) /\
      (forall name q,
          nth_error (Prometheus.http_queries service_name time_range) k
            = Some (name, q) ->
          dict_get name metrics
            = Some (VDict [("query", VStr q); ("error", VStr msg);
                           ("status", VStr "error")])).
Proof.
  intros env w sn tr k msg Hk Hothers.
  set (outs := metric_outcomes env sn tr w) in *.
  set (qs := Prometheus.http_queries sn tr).
  assert (Hlen : List.length qs = List.length outs).
  { unfold outs, metric_outcomes. rewrite sub_runs_length, length_map.
    reflexivity. }
  assert (Hlen8 : List.length outs = 8%nat) by (rewrite <- Hlen; reflexivity).
  destruct (all_but_one succeeded outs k _ Hk) as (l1 & l2 & Hsplit & _ & H1 & H2).
  { intros i Hi Hlt. destruct (Hothers i Hi) as (r & Hr); [lia |].
    exists (Ok r). auto. }
  assert (Hsettled : forallb settled outs = true).
  { rewrite Hsplit, forallb_app. simpl.
    now rewrite (succeeded_settled _ H1), (succeeded_settled _ H2). }
  destruct (analyze_http_metrics_run env w sn tr Hsettled) as (res & w' & Hrun & Hm).
  fold outs qs in Hm.
  exists res, w', (metrics_of qs outs).
  split; [exact Hrun |]. split; [exact Hm |].
  split; [now apply metrics_of_keys |].
  assert (Hlen' : List.length (metrics_of qs outs) = 8%nat).
  { rewrite <- (length_map fst). fold (dict_keys (metrics_of qs outs)).
    rewrite metrics_of_keys by assumption. reflexivity. }
  split; [exact Hlen' |].
  split.
  { rewrite metrics_of_data_count by assumption.
    rewrite Hsplit, filter_app. simpl.
    rewrite (filter_all _ _ H1), (filter_all _ _ H2).
    rewrite Hsplit, length_app in Hlen8. simpl in Hlen8.
    rewrite length_app. lia. }
  split.
  { rewrite metrics_of_error_count by assumption.
    rewrite Hsplit, filter_app. simpl.
    now rewrite (filter_none _ _ H1), (filter_none _ _ H2). }
  split.
  - intros i name q r Hq Hr.
    apply (metrics_of_get qs outs i name q (Ok r)); auto.
    apply http_queries_distinct.
  - intros name q Hq.
    apply (metrics_of_get qs outs k name q
                          (Raise (Exn PrometheusAPIError msg))); auto.
    apply http_queries_distinct.
Qed.

Lemma analyze_http_metrics_one_failure_witness :
  exists res w' metrics,
    Prometheus.analyze_http_metrics (Some "checkout") "5m" Data.rollup_env world0
      = (Ok (VDict res), w') /\
    dict_get "metrics" res = Some (VDict metrics) /\
    dict_keys metrics = map fst (Prometheus.http_queries (Some "checkout") "5m") /\
    List.length metrics = 8%nat /\
    List.length (filter (fun e => has_key "data" (snd e)) metrics) = 7%nat /\
    List.length (filter (fun e => has_key "error" (snd e)) metrics) = 1%nat /\
    (forall i name q r,
        nth_error (Prometheus.http_queries (Some "checkout") "5m") i
          = Some (name, q) ->
        nth_error (metric_outcomes Data.rollup_env (Some "checkout") "5m" world0) i
          = Some (Ok r) ->
        dict_get name metrics
          = Some (VDict [("query", VStr q); ("data", field "data" r);
                         ("status", field "status" r)])) /\
    (forall name q,
        nth_error (Prometheus.http_queries (Some "checkout") "5m") 4
          = Some (name, q) ->
        dict_get name metrics
          = Some (VDict [("query", VStr q);
                         ("error",
                          VStr "Failed to call Prometheus API: Server error '500 Internal Server Error' for url 'http://localhost:9090/api/v1/query'");
                         ("status", VStr "error")])).
Proof.
  apply (analyze_http_metrics_one_failure
           Data.rollup_env world0 (Some "checkout") "5m" 4).
  - reflexivity.
  - intros i Hi Hlt.
    do 8 (destruct i as [| i]; [first [congruence | eexists; reflexivity] |]).
    lia.
Defined.

(* ================================================================= *)
(** ** prometheus.py: the alert-threshold check *)

Lemma try_except_ok_inv {A} clss (body : M A) handler env w a w' :
  try_except clss body handler env w = (Ok a, w') ->
  body env w = (Ok a, w') \/
  exists e w1, body env w = (Raise e, w1) /\
               existsb (exn_class_eqb (exn_cls e)) clss = true /\
               handler (exn_str e) env w1 = (Ok a, w').
Proof.
  unfold try_except. destruct (body env w) as [[x | e] w1].
  - intros H. inversion H; subst. now left.
  - destruct (existsb _ clss) eqn:E; [| discriminate].
    intros H. right. eauto.
Qed.

Lemma bind_raise_inv {A B} (m : M A) (k : A -> M B) env w e w' :
  bind m k env w = (Raise e, w') ->
  m env w = (Raise e, w') \/
  exists a w1, m env w = (Ok a, w1) /\ k a env w1 = (Raise e, w').
Proof.
  unfold bind. destruct (m env w) as [[a | e0] w1]; [eauto |].
  intros H. inversion H; subst. now left.
Qed.

(** [_execute_alert_query] turns a settled sub-query into its entry. *)
Lemma execute_alert_query_run name cfg env w :
  settled (fst (Prometheus.query_prometheus (Prometheus.alert_query cfg) None env w))
    = true ->
  Prometheus._execute_alert_query name cfg env w
    = (Ok (alert_entry cfg
             (fst (Prometheus.query_prometheus (Prometheus.alert_query cfg)
                                               None env w))),
       snd (Prometheus.query_prometheus (Prometheus.alert_query cfg) None env w)).
Proof.
  intros H. unfold Prometheus._execute_alert_query.
  destruct (Prometheus.query_prometheus (Prometheus.alert_query cfg) None env w)
    as [out w'] eqn:E.
  cbn [fst snd] in *.
  destruct (settled_cases _ H) as [(r & ->) | (msg & ->)].
  - destruct (query_prometheus_ok_shape _ _ _ _ _ _ E)
      as (d & data & status & res & n & -> & Hd & Hs & Hres & Hn).
    assert (Hcount : result_count (VDict d) = n).
    { unfold result_count, field. now rewrite Hd, Hres, Hn. }
    apply try_except_run_ok.
    eapply bind_run; [exact E | cbv beta].
    eapply bind_run;
      [cbn [py_getitem]; rewrite Hd; apply lift_run | cbv beta].
    eapply bind_run; [rewrite Hres; apply lift_run | cbv beta].
    eapply bind_run; [rewrite Hn; apply lift_run | cbv beta].
    unfold alert_entry, fires. rewrite Hcount.
    destruct (0 <? n).
    + eapply bind_run;
        [cbn [py_getitem]; rewrite Hd; apply lift_run | cbv beta].
      unfold field. now rewrite Hd.
    + eapply bind_run; [reflexivity | cbv beta]. reflexivity.
  - erewrite try_except_run_caught.
    + reflexivity.
    + apply bind_run_raise. exact E.
    + reflexivity.
Qed.

(** If [_execute_alert_query] returns, its sub-query was settled. *)
Lemma execute_alert_query_ok_settled name cfg env w entry w' :
  Prometheus._execute_alert_query name cfg env w = (Ok entry, w') ->
  settled (fst (Prometheus.query_prometheus (Prometheus.alert_query cfg) None env w))
    = true.
Proof.
  unfold Prometheus._execute_alert_query. intros H.
  apply try_except_ok_inv in H. destruct H as [H | (e & w1 & H & Hcls & _)].
  - apply bind_ok_inv in H. destruct H as (r & w1 & -> & _). reflexivity.
  - apply bind_raise_inv in H. destruct H as [-> | (r & w2 & Hq & H)].
    + simpl in *. now rewrite orb_false_r in Hcls.
    + now rewrite Hq.
Qed.

Lemma alert_entry_firing cfg out :
  py_getitem (alert_entry cfg out) "firing" = Ok (VBool (fires out)).
Proof. destruct out; reflexivity. Qed.

Lemma run_alert_run st name cfg env w :
  settled (fst (Prometheus.query_prometheus (Prometheus.alert_query cfg) None env w))
    = true ->
  Prometheus.run_alert st (name, cfg) env w
    = (Ok (alert_step st
             (name, cfg,
              fst (Prometheus.query_prometheus (Prometheus.alert_query cfg)
                                                None env w))),
       snd (Prometheus.query_prometheus (Prometheus.alert_query cfg) None env w)).
Proof.
  intros H. unfold Prometheus.run_alert. cbn [fst snd].
  eapply bind_run; [apply execute_alert_query_run; exact H | cbv beta].
  eapply bind_run; [rewrite alert_entry_firing; apply lift_run | cbv beta].
  unfold alert_step. cbn [fst snd py_truthy]. reflexivity.
Qed.

Lemma run_alert_ok_settled st name cfg env w st' w' :
  Prometheus.run_alert st (name, cfg) env w = (Ok st', w') ->
  settled (fst (Prometheus.query_prometheus (Prometheus.alert_query cfg) None env w))
    = true.
Proof.
  unfold Prometheus.run_alert. intros H.
  apply bind_ok_inv in H. destruct H as (entry & w1 & H & _).
  now apply execute_alert_query_ok_settled in H.
Qed.

Lemma alerts_loop_run env (qs : list (string * Prometheus.alert_config))
    (st : Prometheus.alert_state) (w : World) :
  forallb settled (sub_runs env (alert_texts qs) w) = true ->
  for_each qs Prometheus.run_alert st env w
    = (Ok (fold_left alert_step
                     (combine qs (sub_runs env (alert_texts qs) w)) st),
       sub_world env (alert_texts qs) w).
Proof.
  revert st w. induction qs as [| [name cfg] qs IH]; intros st w Hs.
  - reflexivity.
  - cbn [alert_texts map snd fst sub_runs sub_world forallb] in *.
    apply andb_true_iff in Hs. destruct Hs as [Hq Hrest].
    cbn [for_each].
    eapply bind_run; [apply run_alert_run; exact Hq | cbv beta].
    rewrite (IH _ _ Hrest). reflexivity.
Qed.

Lemma alerts_loop_ok_settled env (qs : list (string * Prometheus.alert_config))
    (st : Prometheus.alert_state) (w : World) st' w' :
  for_each qs Prometheus.run_alert st env w = (Ok st', w') ->
  forallb settled (sub_runs env (alert_texts qs) w) = true.
Proof.
  revert st w. induction qs as [| [name cfg] qs IH]; intros st w H.
  - reflexivity.
  - cbn [for_each] in H.
    apply bind_ok_inv in H. destruct H as (st1 & w1 & Hrun & H).
    pose proof (run_alert_ok_settled _ _ _ _ _ _ _ Hrun) as Hq.
    rewrite (run_alert_run _ _ _ _ _ Hq) in Hrun. inversion Hrun; subst.
    cbn [alert_texts map snd sub_runs forallb].
    rewrite Hq. simpl. eapply IH. exact H.
Qed.

Lemma count_firing_app (d1 d2 : dict) :
  count_firing (d1 ++ d2)%list = count_firing d1 + count_firing d2.
Proof.
  unfold count_firing. rewrite filter_app, length_app. lia.
Qed.

Lemma is_firing_alert_entry cfg out :
  is_firing (alert_entry cfg out) = fires out.
Proof. destruct out; reflexivity. Qed.

(** The state of the alert loop: the entries so far, the number of them
    firing, and the two severity counters adding up to it. *)
Lemma alert_fold_spec (qs : list (string * Prometheus.alert_config))
    (outs : list (result value)) (st : Prometheus.alert_state) :
  NoDup (dict_keys (Prometheus.st_alerts st) ++ map fst qs)%list ->
  forallb (fun a => counted_severity (snd a)) qs = true ->
  let st' := fold_left alert_step (combine qs outs) st in
  Prometheus.st_alerts st'
    = (Prometheus.st_alerts st ++ alerts_of qs outs)%list /\
  Prometheus.st_firing st'
    = Prometheus.st_firing st + count_firing (alerts_of qs outs) /\
  Prometheus.st_critical st' + Prometheus.st_warning st'
    = Prometheus.st_critical st + Prometheus.st_warning st
      + count_firing (alerts_of qs outs).
Proof.
  revert outs st. induction qs as [| [name cfg] qs IH]; intros outs st Hnd Hsev.
  - cbv zeta. unfold alerts_of, count_firing. simpl. rewrite app_nil_r.
    repeat split; lia.
  - destruct outs as [| out outs].
    + cbv zeta. unfold alerts_of, count_firing. simpl. rewrite app_nil_r.
      repeat split; lia.
    + cbn [combine fold_left].
      cbn [forallb snd] in Hsev. apply andb_true_iff in Hsev.
      destruct Hsev as [Hc Hsev].
      assert (Hfresh : ~ In name (dict_keys (Prometheus.st_alerts st))).
      { cbn [map fst] in Hnd. apply NoDup_remove_2 in Hnd.
        intros Hin. apply Hnd. apply in_or_app. now left. }
      set (st1 := alert_step st (name, cfg, out)).
      assert (Halerts : Prometheus.st_alerts st1
                        = (Prometheus.st_alerts st
                             ++ [(name, alert_entry cfg out)])%list).
      { unfold st1, alert_step. cbn [fst snd].
        rewrite (dict_set_fresh _ _ _ Hfresh).
        destruct (fires out); reflexivity. }
      assert (Hfiring : Prometheus.st_firing st1
                        = Prometheus.st_firing st + (if fires out then 1 else 0)).
      { unfold st1, alert_step. cbn [fst snd].
        destruct (fires out); simpl; lia. }
      assert (Hsum : Prometheus.st_critical st1 + Prometheus.st_warning st1
                     = Prometheus.st_critical st + Prometheus.st_warning st
                       + (if fires out then 1 else 0)).
      { unfold st1, alert_step, Prometheus.count_alert. cbn [fst snd].
        unfold counted_severity in Hc.
        destruct (fires out); simpl; [| lia].
        destruct (String.eqb (Prometheus.alert_severity cfg) "critical");
          [lia |].
        simpl in Hc. rewrite Hc. lia. }
      destruct (IH outs st1) as (Ha & Hf & Hs).
      * rewrite Halerts. unfold dict_keys. rewrite map_app. cbn [map fst].
        rewrite <- app_assoc. exact Hnd.
      * exact Hsev.
      * assert (Hcount : count_firing (alerts_of ((name, cfg) :: qs) (out :: outs))
                         = (if fires out then 1 else 0)
                           + count_firing (alerts_of qs outs)).
        { unfold alerts_of. cbn [combine map fst snd].
          change ((name, alert_entry cfg out)
                    :: map (fun x => (fst (fst x), alert_entry (snd (fst x)) (snd x)))
                         (combine qs outs))
            with ([(name, alert_entry cfg out)]
                    ++ map (fun x => (fst (fst x), alert_entry (snd (fst x)) (snd x)))
                         (combine qs outs))%list.
          rewrite count_firing_app. f_equal.
          unfold count_firing. cbn [filter snd].
          rewrite is_firing_alert_entry. destruct (fires out); reflexivity. }
        split; [| split].
        -- rewrite Ha, Halerts, <- app_assoc. reflexivity.
        -- rewrite Hf, Hfiring, Hcount. lia.
        -- rewrite Hs, Hsum, Hcount. lia.
Qed.

Lemma alert_queries_distinct sn : NoDup (map fst (Prometheus.alert_queries sn)).
Proof. simpl. repeat constructor; simpl; intuition discriminate. Qed.

Lemma alert_queries_severities sn :
  forallb (fun a => counted_severity (snd a)) (Prometheus.alert_queries sn) = true.
Proof. reflexivity. Qed.

(** The threshold check returns whenever each of its sub-queries returned
    or failed with the Prometheus error. *)
Lemma check_alerting_thresholds_run env w sn :
  forallb settled (alert_outcomes env sn w) = true ->
  exists res w' check_time firing critical warning,
    Prometheus.check_alerting_thresholds sn env w = (Ok (VDict res), w') /\
    res = [("service_name", opt_value sn); ("check_time", check_time);
           ("alerts",
            VDict (alerts_of (Prometheus.alert_queries sn)
                             (alert_outcomes env sn w)));
           ("summary",
            VDict [("total_checks", VInt 5); ("firing_alerts", VInt firing);
                   ("critical_alerts", VInt critical);
                   ("warning_alerts", VInt warning)])] /\
    firing = count_firing (alerts_of (Prometheus.alert_queries sn)
                                     (alert_outcomes env sn w)) /\
    critical + warning = firing.
Proof.
  intros H. unfold alert_outcomes in *.
  fold (alert_texts (Prometheus.alert_queries sn)) in *.
  set (qs := Prometheus.alert_queries sn) in *.
  set (outs := sub_runs env (alert_texts qs) (tick w)) in *.
  pose proof (alert_fold_spec qs outs Prometheus.alert_state0
                (alert_queries_distinct sn) (alert_queries_severities sn))
    as Hspec.
  cbv zeta in Hspec. destruct Hspec as (Ha & Hf & Hs).
  change (Prometheus.st_alerts Prometheus.alert_state0) with (@nil (string * value)) in Ha.
  change (Prometheus.st_firing Prometheus.alert_state0) with 0 in Hf.
  change (Prometheus.st_critical Prometheus.alert_state0) with 0 in Hs.
  change (Prometheus.st_warning Prometheus.alert_state0) with 0 in Hs.
  rewrite app_nil_l in Ha. rewrite Z.add_0_l in Hf, Hs.
  set (st := fold_left alert_step (combine qs outs) Prometheus.alert_state0) in *.
  exists [("service_name", opt_value sn);
          ("check_time",
           VStr (env_isoformat env (utc (env_now env (clock_reads w)))));
          ("alerts", VDict (Prometheus.st_alerts st));
          ("summary",
           VDict [("total_checks", VInt 5);
                  ("firing_alerts", VInt (Prometheus.st_firing st));
                  ("critical_alerts", VInt (Prometheus.st_critical st));
                  ("warning_alerts", VInt (Prometheus.st_warning st))])].
  exists (sub_world env (alert_texts qs) (tick w)).
  exists (VStr (env_isoformat env (utc (env_now env (clock_reads w))))).
  exists (Prometheus.st_firing st), (Prometheus.st_critical st),
    (Prometheus.st_warning st).
  split; [| split; [| split]].
  - unfold Prometheus.check_alerting_thresholds.
    eapply tool_try_run; [| reflexivity].
    eapply bind_run; [apply now_iso_run | cbv beta].
    eapply bind_run; [apply alerts_loop_run; exact H | reflexivity].
  - rewrite Ha. reflexivity.
  - exact Hf.
  - rewrite Hs, Hf. reflexivity.
Qed.

Lemma check_alerting_thresholds_ok_settled env w sn r w' :
  Prometheus.check_alerting_thresholds sn env w = (Ok r, w') ->
  forallb settled (alert_outcomes env sn w) = true.
Proof.
  unfold Prometheus.check_alerting_thresholds. intros H.
  apply tool_try_ok_inv in H. destruct H as (r0 & w0 & H & _).
  apply bind_ok_inv in H. destruct H as (t & w1 & Hnow & H).
  rewrite now_iso_run in Hnow. inversion Hnow; subst.
  apply bind_ok_inv in H. destruct H as (st & w2 & Hloop & _).
  apply alerts_loop_ok_settled in Hloop. exact Hloop.
Qed.

Lemma error_entry_not_firing cfg out :
  has_key "error" (alert_entry cfg out) = true ->
  field "firing" (alert_entry cfg out) = VBool false.
Proof. destruct out; simpl; [discriminate | reflexivity]. Qed.

Lemma alerts_of_entries qs outs name entry :
  In (name, entry) (alerts_of qs outs) ->
  exists cfg out, entry = alert_entry cfg out.
Proof.
  unfold alerts_of. intros H. apply in_map_iff in H.
  destruct H as ([[n cfg] out] & E & _). inversion E; subst. eauto.
Qed.

(** ** C10 *)

(** C10.  Every result that [check_alerting_thresholds] returns satisfies
    the invariant of its summary: [firing_alerts] is the number of alert
    entries whose [firing] field is true, [critical_alerts] and
    [warning_alerts] add up to [firing_alerts], and every entry that
    records the error of a failed sub-query has [firing] false, so a failed
    check is never counted as a firing alert. *)
Theorem check_alerting_thresholds_summary :
  forall service_name env w r w',
    Prometheus.check_alerting_thresholds service_name env w = (Ok r, w') ->
    exists res alerts summary firing critical warning,
      r = VDict res /\
      dict_get "alerts" res = Some (VDict alerts) /\
      dict_get "summary" res = Some (VDict summary) /\
      dict_get "firing_alerts" summary = Some (VInt firing) /\
      dict_get "critical_alerts" summary = Some (VInt critical) /\
      dict_get "warning_alerts" summary = Some (VInt warning) /\
      firing = Z.of_nat (List.length (filter (fun e => is_firing (snd e)) alerts)) /\
      critical + warning = firing /\
      (forall name entry,
          In (name, entry) alerts ->
          has_key "error" entry = true ->
          field "firing" entry = VBool false).
Proof.
  intros sn env w r w' H.
  pose proof (check_alerting_thresholds_ok_settled _ _ _ _ _ H) as Hs.
  destruct (check_alerting_thresholds_run env w sn Hs)
    as (res & w1 & t & firing & critical & warning & Hrun & Hres & Hf & Hsum).
  rewrite Hrun in H. inversion H; subst r w1. clear H.
  exists res, (alerts_of (Prometheus.alert_queries sn) (alert_outcomes env sn w)).
  eexists. exists firing, critical, warning.
  rewrite Hres.
  split; [reflexivity |]. split; [reflexivity |]. split; [reflexivity |].
  split; [reflexivity |]. split; [reflexivity |]. split; [reflexivity |].
  split; [exact Hf |]. split; [exact Hsum |].
  intros name entry Hin Herr.
  destruct (alerts_of_entries _ _ _ _ Hin) as (cfg & out & ->).
  now apply error_entry_not_firing.
Qed.


Lemma check_alerting_thresholds_summary_witness :
  exists r w',
    Prometheus.check_alerting_thresholds (Some "checkout") Data.alerts_env world0
      = (Ok r, w') /\
    exists res alerts summary firing critical warning,
      r = VDict res /\
      dict_get "alerts" res = Some (VDict alerts) /\
      dict_get "summary" res = Some (VDict summary) /\
      dict_get "firing_alerts" summary = Some (VInt firing) /\
      dict_get "critical_alerts" summary = Some (VInt critical) /\
      dict_get "warning_alerts" summary = Some (VInt warning) /\
      firing = Z.of_nat (List.length (filter (fun e => is_firing (snd e)) alerts)) /\
      critical + warning = firing /\
      (forall name entry,
          In (name, entry) alerts ->
          has_key "error" entry = true ->
          field "firing" entry = VBool false).
Proof.
  eexists. eexists. split; [vm_compute; reflexivity |].
  eapply (check_alerting_thresholds_summary
            (Some "checkout") Data.alerts_env world0).
  vm_compute. reflexivity.
Defined.

(** On the sample backend two alerts fire, one of each severity, and the
    check that failed is not among them. *)
Example check_alerting_thresholds_sample :
  exists res summary w',
    Prometheus.check_alerting_thresholds (Some "checkout") Data.alerts_env world0
      = (Ok (VDict res), w') /\
    dict_get "summary" res = Some (VDict summary) /\
    summary = [("total_checks", VInt 5); ("firing_alerts", VInt 2);
               ("critical_alerts", VInt 1); ("warning_alerts", VInt 1)].
Proof.
  do 3 eexists. split; [vm_compute; reflexivity |].
  split; reflexivity.
Qed.

(* ================================================================= *)
(** ** Replies without a data field *)

(** A tool whose body never returns raises its backend's error. *)
Lemma tool_try_fails {A B} cls prefix (body : M A) (orelse : A -> M B) env w :
  (forall a w1, body env w <> (Ok a, w1)) ->
  exists msg w', tool_try cls prefix body orelse env w = (Raise (Exn cls msg), w').
Proof.
  intros H. unfold tool_try.
  destruct (body env w) as [[a | [c m]] w1] eqn:E.
  - exfalso. now apply (H a w1).
  - cbn [exn_cls exn_str]. destruct (exn_class_eqb c cls) eqn:Ec.
    + apply exn_class_eqb_eq in Ec. subst c. eauto.
    + eauto.
Qed.

Lemma make_loki_request_ok endpoint params env w body w' :
  Loki.make_loki_request endpoint params env w = (Ok body, w') ->
  next_reply env w (env_loki_url env ++ endpoint) params = HttpJson body /\
  w' = sent (Request (env_loki_url env ++ endpoint) params) w.
Proof.
  unfold Loki.make_loki_request, bind, ask. apply make_request_ok.
Qed.

Lemma make_prometheus_request_ok endpoint params env w body w' :
  Prometheus.make_prometheus_request endpoint params env w = (Ok body, w') ->
  next_reply env w (env_prometheus_url env ++ "/api/v1" ++ endpoint) params
    = HttpJson body /\
  w' = sent (Request (env_prometheus_url env ++ "/api/v1" ++ endpoint) params) w.
Proof.
  unfold Prometheus.make_prometheus_request, bind, ask. apply make_request_ok.
Qed.

Lemma loki_response_data_ok response env w data w' :
  Loki.response_data response env w = (Ok data, w') ->
  py_getitem response "data" = Ok data /\ w' = w.
Proof.
  unfold Loki.response_data, Loki._raise_loki_error. intros H. inv_ok. auto.
Qed.

Lemma lacks_data_getitem (r : reply) (body data : value) :
  lacks_data r = true -> r = HttpJson body -> py_getitem body "data" <> Ok data.
Proof.
  intros H ->. unfold lacks_data in H.
  destruct body; try discriminate. simpl.
  destruct (dict_get "data" d); [discriminate |]. discriminate.
Qed.

Section MissingData.

Variable env : Env.
Hypothesis Hlacks : forall n req, lacks_data (env_http env n req) = true.

Ltac split_binds H :=
  repeat (apply bind_ok_inv in H;
          let a := fresh "a" in let w := fresh "w" in let Hm := fresh "Hm" in
          destruct H as (a & w & Hm & H); cbv beta zeta in H).

Ltac jaeger_absurd :=
  match goal with
  | Hreq : Jaeger.make_jaeger_request _ _ _ _ = (Ok ?r, _),
    Hdata : Jaeger.response_data ?r _ _ = (Ok _, _) |- _ =>
      apply make_jaeger_request_ok in Hreq; destruct Hreq as [Hreq _];
      apply jaeger_response_data_ok in Hdata; destruct Hdata as [Hdata _];
      exact (lacks_data_getitem _ _ _ (Hlacks _ _) Hreq Hdata)
  end.

Ltac loki_absurd :=
  match goal with
  | Hreq : Loki.make_loki_request _ _ _ _ = (Ok ?r, _),
    Hdata : Loki.response_data ?r _ _ = (Ok _, _) |- _ =>
      apply make_loki_request_ok in Hreq; destruct Hreq as [Hreq _];
      apply loki_response_data_ok in Hdata; destruct Hdata as [Hdata _];
      exact (lacks_data_getitem _ _ _ (Hlacks _ _) Hreq Hdata)
  end.

Ltac prometheus_absurd :=
  match goal with
  | Hreq : Prometheus.make_prometheus_request _ _ _ _ = (Ok ?r, _),
    Hdata : lift (py_getitem ?r "data") _ _ = (Ok _, _) |- _ =>
      apply make_prometheus_request_ok in Hreq; destruct Hreq as [Hreq _];
      apply lift_inv in Hdata; destruct Hdata as [Hdata _];
      exact (lacks_data_getitem _ _ _ (Hlacks _ _) Hreq Hdata)
  end.

Lemma get_services_lacks w :
  exists msg w', Jaeger.get_services env w = (Raise (Exn JaegerAPIError msg), w').
Proof.
  apply tool_try_fails. intros a w1 H. split_binds H. jaeger_absurd.
Qed.

Lemma get_trace_lacks trace_id w :
  exists msg w',
    Jaeger.get_trace trace_id env w = (Raise (Exn JaegerAPIError msg), w').
Proof.
  apply tool_try_fails. intros a w1 H. split_binds H. jaeger_absurd.
Qed.

Lemma analyze_service_dependencies_lacks sn lookback w :
  exists msg w',
    Jaeger.analyze_service_dependencies sn lookback env w
      = (Raise (Exn JaegerAPIError msg), w').
Proof.
  apply tool_try_fails. intros a w1 H. split_binds H. jaeger_absurd.
Qed.

Lemma get_service_operations_lacks sn w :
  exists msg w',
    Jaeger.get_service_operations sn env w
      = (Raise (Exn JaegerAPIError msg), w').
Proof.
  apply tool_try_fails. intros a w1 H. split_binds H. jaeger_absurd.
Qed.

Lemma search_traces_lacks params w :
  exists msg w',
    Jaeger.search_traces params env w = (Raise (Exn JaegerAPIError msg), w').
Proof.
  apply tool_try_fails. intros a w1 H. split_binds H. jaeger_absurd.
Qed.

Lemma query_logs_never_ok query start_time end_time limit direction w r w' :
  Loki.query_logs query start_time end_time limit direction env w <> (Ok r, w').
Proof.
  intros H. apply tool_try_ok_inv in H. destruct H as (a & w1 & H & _).
  split_binds H. loki_absurd.
Qed.

Lemma query_logs_lacks query start_time end_time limit direction w :
  exists msg w',
    Loki.query_logs query start_time end_time limit direction env w
      = (Raise (Exn LokiAPIError msg), w').
Proof.
  apply tool_try_fails. intros a w1 H. split_binds H. loki_absurd.
Qed.

Lemma get_log_labels_lacks w :
  exists msg w', Loki.get_log_labels env w = (Raise (Exn LokiAPIError msg), w').
Proof.
  apply tool_try_fails. intros a w1 H. split_binds H. loki_absurd.
Qed.

Lemma loki_get_label_values_lacks label w :
  exists msg w',
    Loki.get_label_values label env w = (Raise (Exn LokiAPIError msg), w').
Proof.
  apply tool_try_fails. intros a w1 H. split_binds H. loki_absurd.
Qed.

Lemma search_logs_by_trace_id_lacks trace_id label start_time end_time limit w :
  exists msg w',
    Loki.search_logs_by_trace_id trace_id label start_time end_time limit env w
      = (Raise (Exn LokiAPIError msg), w').
Proof.
  apply tool_try_fails. intros a w1 H. split_binds H.
  match goal with
  | Hq : Loki.query_logs _ _ _ _ _ _ _ = (Ok _, _) |- _ =>
      exact (query_logs_never_ok _ _ _ _ _ _ _ _ Hq)
  end.
Qed.

Lemma query_prometheus_lacks query time w :
  exists msg w',
    Prometheus.query_prometheus query time env w
      = (Raise (Exn PrometheusAPIError msg), w').
Proof.
  apply tool_try_fails. intros a w1 H. split_binds H. prometheus_absurd.
Qed.

Lemma query_range_prometheus_lacks query start end_ step w :
  exists msg w',
    Prometheus.query_range_prometheus query start end_ step env w
      = (Raise (Exn PrometheusAPIError msg), w').
Proof.
  apply tool_try_fails. intros a w1 H. split_binds H. prometheus_absurd.
Qed.

Lemma get_metrics_metadata_lacks w :
  exists msg w',
    Prometheus.get_metrics_metadata env w
      = (Raise (Exn PrometheusAPIError msg), w').
Proof.
  apply tool_try_fails. intros a w1 H. split_binds H. prometheus_absurd.
Qed.

Lemma get_label_names_lacks w :
  exists msg w',
    Prometheus.get_label_names env w = (Raise (Exn PrometheusAPIError msg), w').
Proof.
  apply tool_try_fails. intros a w1 H. split_binds H. prometheus_absurd.
Qed.

Lemma prometheus_get_label_values_lacks label_name w :
  exists msg w',
    Prometheus.get_label_values label_name env w
      = (Raise (Exn PrometheusAPIError msg), w').
Proof.
  apply tool_try_fails. intros a w1 H. split_binds H. prometheus_absurd.
Qed.

Lemma get_series_lacks match_ start end_ w :
  exists msg w',
    Prometheus.get_series match_ start end_ env w
      = (Raise (Exn PrometheusAPIError msg), w').
Proof.
  apply tool_try_fails. intros a w1 H. split_binds H. prometheus_absurd.
Qed.

(** Every sub-query of a rollup fails with the Prometheus error. *)
Lemma sub_runs_lacks (qs : list string) (w : World) :
  forallb (fun o => (settled o && negb (succeeded o))%bool) (sub_runs env qs w)
    = true.
Proof.
  revert w. induction qs as [| q qs IH]; intros w; [reflexivity |].
  cbn [sub_runs forallb].
  destruct (query_prometheus_lacks q None w) as (msg & w' & ->).
  cbn [fst snd]. rewrite IH. reflexivity.
Qed.

End MissingData.

Lemma metrics_of_all_errors (qs : list (string * string))
    (outs : list (result value)) :
  forallb (fun o => (settled o && negb (succeeded o))%bool) outs = true ->
  forallb (fun e => has_key "error" (snd e)) (metrics_of qs outs) = true.
Proof.
  revert outs. induction qs as [| [name q] qs IH]; intros [| o outs] H;
    try reflexivity.
  cbn [forallb] in H. apply andb_true_iff in H. destruct H as [Ho H].
  unfold metrics_of. cbn [combine map forallb fst snd].
  destruct o as [r | e]; [simpl in Ho; discriminate |].
  simpl. apply (IH outs H).
Qed.

Lemma alerts_of_all_errors (qs : list (string * Prometheus.alert_config))
    (outs : list (result value)) :
  forallb (fun o => (settled o && negb (succeeded o))%bool) outs = true ->
  forallb (fun e => has_key "error" (snd e)) (alerts_of qs outs) = true.
Proof.
  revert outs. induction qs as [| [name q] qs IH]; intros [| o outs] H;
    try reflexivity.
  cbn [forallb] in H. apply andb_true_iff in H. destruct H as [Ho H].
  unfold alerts_of. cbn [combine map forallb fst snd].
  destruct o as [r | e]; [simpl in Ho; discriminate |].
  simpl. apply (IH outs H).
Qed.

Lemma forallb_weaken {A} (p q : A -> bool) (l : list A) :
  (forall x, p x = true -> q x = true) ->
  forallb p l = true -> forallb q l = true.
Proof.
  intros Hpq. induction l as [| x l IH]; simpl; [reflexivity |].
  intros H. apply andb_true_iff in H. destruct H as [Hx Hl].
  now rewrite (Hpq _ Hx), IH.
Qed.

Lemma failed_is_settled (l : list (result value)) :
  forallb (fun o => (settled o && negb (succeeded o))%bool) l = true ->
  forallb settled l = true.
Proof.
  apply forallb_weaken. intros x H. now apply andb_true_iff in H.
Qed.

(** ** C4 *)

(** C4, as the code has it.  When every reply of the backend is a JSON
    object with no [data] field, every tool operation that sends a single
    query fails with its own backend's error kind ([JaegerAPIError],
    [LokiAPIError], [PrometheusAPIError]) and returns nothing; so does the
    trace-log correlation.  The two Prometheus rollups,
    [analyze_http_metrics] and [check_alerting_thresholds], do not fail:
    they return a result in which every entry records the error of its
    sub-query. *)
Theorem missing_data_field :
  forall call env w,
    (forall n req, lacks_data (env_http env n req) = true) ->
    match rollup_items call with
    | None =>
        exists msg w',
          run_tool call env w = (Raise (Exn (error_kind call) msg), w')
    | Some key =>
        exists res items w',
          run_tool call env w = (Ok (VDict res), w') /\
          dict_get key res = Some (VDict items) /\
          forallb (fun e => has_key "error" (snd e)) items = true
    end.
Proof.
  intros call env w H.
  destruct call; cbn [rollup_items run_tool error_kind].
  - now apply get_services_lacks.
  - now apply get_trace_lacks.
  - now apply analyze_service_dependencies_lacks.
  - now apply get_service_operations_lacks.
  - now apply search_traces_lacks.
  - now apply query_logs_lacks.
  - now apply get_log_labels_lacks.
  - now apply loki_get_label_values_lacks.
  - now apply search_logs_by_trace_id_lacks.
  - now apply query_prometheus_lacks.
  - now apply query_range_prometheus_lacks.
  - now apply get_metrics_metadata_lacks.
  - now apply get_label_names_lacks.
  - now apply prometheus_get_label_values_lacks.
  - now apply get_series_lacks.
  - pose proof (sub_runs_lacks env H
                  (map snd (Prometheus.http_queries service_name time_range))
                  (tick w)) as Hf.
    destruct (analyze_http_metrics_run env w service_name time_range)
      as (res & w' & Hrun & Hm).
    { now apply failed_is_settled. }
    exists res. eexists. exists w'.
    split; [exact Hrun |]. split; [exact Hm |].
    now apply metrics_of_all_errors.
  - pose proof (sub_runs_lacks env H
                  (alert_texts (Prometheus.alert_queries service_name))
                  (tick w)) as Hf.
    destruct (check_alerting_thresholds_run env w service_name)
      as (res & w' & t & f & c & wn & Hrun & Hres & _).
    { now apply failed_is_settled. }
    exists res. eexists. exists w'.
    split; [exact Hrun |]. split; [rewrite Hres; reflexivity |].
    now apply alerts_of_all_errors.
Qed.

Lemma missing_data_field_witness :
  (exists msg w',
      Jaeger.get_trace "abc123" Data.no_data_env world0
        = (Raise (Exn JaegerAPIError msg), w')) /\
  (exists msg w',
      Prometheus.query_prometheus "up" None Data.no_data_env world0
        = (Raise (Exn PrometheusAPIError msg), w')).
Proof.
  split.
  - apply (missing_data_field (JaegerGetTrace "abc123") Data.no_data_env world0).
    intros n req. reflexivity.
  - apply (missing_data_field (PrometheusQuery "up" None)
                              Data.no_data_env world0).
    intros n req. reflexivity.
Defined.

(** On replies with status [success] and no [data] field the rollup does
    not fail: it returns its eight entries. *)
Lemma analyze_http_metrics_returns_without_data :
  (forall n req, lacks_data (env_http Data.no_data_env n req) = true) /\
  exists res metrics w',
    Prometheus.analyze_http_metrics (Some "checkout") "5m"
                                    Data.no_data_env world0
      = (Ok (VDict res), w') /\
    dict_get "metrics" res = Some (VDict metrics) /\
    List.length metrics = 8%nat.
Proof.
  split; [intros n req; reflexivity |].
  do 3 eexists. split; [vm_compute; reflexivity |].
  split; reflexivity.
Qed.

(* ================================================================= *)
(** ** Replies with a failed status, and failures inside the rollups *)

Lemma tool_try_run_raise {A B} cls prefix (body : M A) (orelse : A -> M B)
    env w msg w1 :
  body env w = (Raise (Exn cls msg), w1) ->
  tool_try cls prefix body orelse env w = (Raise (Exn cls msg), w1).
Proof.
  unfold tool_try. intros ->. cbn [exn_cls].
  assert (E : exn_class_eqb cls cls = true) by now apply exn_class_eqb_eq.
  now rewrite E.
Qed.

Lemma tool_try_run_wrap {A B} cls prefix (body : M A) (orelse : A -> M B)
    env w e w1 :
  body env w = (Raise e, w1) ->
  exn_class_eqb (exn_cls e) cls = false ->
  tool_try cls prefix body orelse env w
    = (Raise (Exn cls (prefix ++ exn_str e)), w1).
Proof. unfold tool_try. now intros -> ->. Qed.

Lemma make_prometheus_request_run endpoint params env w body :
  next_reply env w (env_prometheus_url env ++ "/api/v1" ++ endpoint) params
    = HttpJson body ->
  Prometheus.make_prometheus_request endpoint params env w
    = (Ok body,
       sent (Request (env_prometheus_url env ++ "/api/v1" ++ endpoint) params) w).
Proof.
  intros H. unfold Prometheus.make_prometheus_request, bind, ask.
  now apply make_request_run.
Qed.

Lemma check_status_fails body prefix env w :
  failed_status body = true ->
  Prometheus.check_status (VDict body) prefix env w
    = (Raise (Exn PrometheusAPIError (prefix ++ error_text body)), w).
Proof.
  unfold failed_status, field. intros H.
  unfold Prometheus.check_status.
  eapply bind_run; [apply lift_run | cbv beta].
  rewrite H.
  eapply bind_run; [apply lift_run | cbv beta]. reflexivity.
Qed.

Section FailedStatus.

Variable env : Env.
Variable w : World.
Variable body : dict.
Hypothesis Hreply :
  forall req, env_http env (List.length (requests w)) req = HttpJson (VDict body).
Hypothesis Hfailed : failed_status body = true.

(** The request is answered and the status check raises. *)
Ltac status_raises :=
  eexists; eexists; split;
  [ apply tool_try_run_raise;
    repeat first
      [ apply bind_run_raise; apply check_status_fails; exact Hfailed
      | eapply bind_run;
        [ first [ apply make_prometheus_request_run; apply Hreply
                | apply lift_run
                | reflexivity ]
        | cbv beta zeta ] ]
  | intros _; reflexivity ].

(** The arguments are refused before any request. *)
Ltac refused :=
  eexists; eexists; split;
  [ apply tool_try_run_raise; repeat first [ reflexivity | apply bind_run_raise ]
  | intros Hsent; exfalso; apply Hsent; reflexivity ].

Lemma query_prometheus_status query time :
  exists msg w',
    Prometheus.query_prometheus query time env w
      = (Raise (Exn PrometheusAPIError msg), w') /\
    (requests w' <> requests w ->
     msg = "Prometheus query failed: " ++ error_text body).
Proof.
  unfold Prometheus.query_prometheus.
  destruct query as [| c q]; [refused | status_raises].
Qed.

Lemma query_range_prometheus_status query start end_ step :
  exists msg w',
    Prometheus.query_range_prometheus query start end_ step env w
      = (Raise (Exn PrometheusAPIError msg), w') /\
    (requests w' <> requests w ->
     msg = "Prometheus range query failed: " ++ error_text body).
Proof.
  unfold Prometheus.query_range_prometheus.
  destruct query as [| c q]; [refused |].
  destruct start as [| c1 s]; [refused |].
  destruct end_ as [| c2 e]; [refused | status_raises].
Qed.

Lemma get_metrics_metadata_status :
  exists msg w',
    Prometheus.get_metrics_metadata env w
      = (Raise (Exn PrometheusAPIError msg), w') /\
    (requests w' <> requests w ->
     msg = "Failed to get metadata: " ++ error_text body).
Proof. unfold Prometheus.get_metrics_metadata. status_raises. Qed.

Lemma get_label_names_status :
  exists msg w',
    Prometheus.get_label_names env w
      = (Raise (Exn PrometheusAPIError msg), w') /\
    (requests w' <> requests w ->
     msg = "Failed to get label names: " ++ error_text body).
Proof. unfold Prometheus.get_label_names. status_raises. Qed.

Lemma get_label_values_status label_name :
  exists msg w',
    Prometheus.get_label_values label_name env w
      = (Raise (Exn PrometheusAPIError msg), w') /\
    (requests w' <> requests w ->
     msg = "Failed to get label values: " ++ error_text body).
Proof.
  unfold Prometheus.get_label_values.
  destruct label_name as [| c l]; [refused | status_raises].
Qed.

Lemma get_series_status match_ start end_ :
  exists msg w',
    Prometheus.get_series match_ start end_ env w
      = (Raise (Exn PrometheusAPIError msg), w') /\
    (requests w' <> requests w ->
     msg = "Failed to find series: " ++ error_text body).
Proof.
  unfold Prometheus.get_series.
  destruct match_ as [| s1 [| s2 rest]].
  - refused.
  - status_raises.
  - eexists. eexists. split.
    + apply tool_try_run_wrap.
      * eapply bind_run; [reflexivity | cbv beta].
        apply bind_run_raise. reflexivity.
      * reflexivity.
    + intros Hsent. exfalso. apply Hsent. reflexivity.
Qed.

End FailedStatus.

(** A sub-query with a query text: the request is sent and the status check
    raises with the backend's text. *)
Lemma query_prometheus_failed_status env w body query :
  (forall req, env_http env (List.length (requests w)) req = HttpJson (VDict body)) ->
  failed_status body = true ->
  str_truthy query = true ->
  Prometheus.query_prometheus query None env w
    = (Raise (Exn PrometheusAPIError
                  ("Prometheus query failed: " ++ error_text body)),
       sent (Request (env_prometheus_url env ++ "/api/v1/query")
                     (Some [("query", VStr query)])) w).
Proof.
  intros Hreply Hfailed Hq. unfold Prometheus.query_prometheus.
  apply tool_try_run_raise. rewrite Hq. cbn [negb when_].
  eapply bind_run; [reflexivity | cbv beta].
  eapply bind_run;
    [apply make_prometheus_request_run; apply Hreply | cbv beta].
  apply bind_run_raise. apply check_status_fails. exact Hfailed.
Qed.

Lemma sub_runs_failed_status env body (qs : list string) (w : World) :
  (forall n req, env_http env n req = HttpJson (VDict body)) ->
  failed_status body = true ->
  forallb str_truthy qs = true ->
  Forall (fun o => o = Raise (Exn PrometheusAPIError
                                  ("Prometheus query failed: " ++ error_text body)))
         (sub_runs env qs w).
Proof.
  intros Hreply Hfailed. revert w.
  induction qs as [| q qs IH]; intros w Hq; [constructor |].
  cbn [forallb] in Hq. apply andb_true_iff in Hq. destruct Hq as [Hq Hqs].
  cbn [sub_runs].
  rewrite (query_prometheus_failed_status env w body q
             (fun req => Hreply _ req) Hfailed Hq).
  cbn [fst snd]. constructor; [reflexivity | now apply IH].
Qed.

Lemma all_failed_settled (e : exn) (outs : list (result value)) :
  exn_cls e = PrometheusAPIError ->
  Forall (fun o => o = Raise e) outs -> forallb settled outs = true.
Proof.
  intros He H. induction H as [| o outs -> _ IH]; [reflexivity |].
  cbn [forallb settled]. rewrite He, IH. reflexivity.
Qed.

Lemma metrics_of_failed (e : exn) (qs : list (string * string))
    (outs : list (result value)) (name : string) (entry : value) :
  Forall (fun o => o = Raise e) outs ->
  In (name, entry) (metrics_of qs outs) ->
  field "error" entry = VStr (exn_str e).
Proof.
  intros Hall Hin. unfold metrics_of in Hin. apply in_map_iff in Hin.
  destruct Hin as ([[n q] out] & E & Hin). inversion E; subst. clear E.
  apply in_combine_r in Hin. rewrite Forall_forall in Hall.
  rewrite (Hall _ Hin). reflexivity.
Qed.

Lemma alerts_of_failed (e : exn) (qs : list (string * Prometheus.alert_config))
    (outs : list (result value)) (name : string) (entry : value) :
  Forall (fun o => o = Raise e) outs ->
  In (name, entry) (alerts_of qs outs) ->
  field "error" entry = VStr (exn_str e).
Proof.
  intros Hall Hin. unfold alerts_of in Hin. apply in_map_iff in Hin.
  destruct Hin as ([[n q] out] & E & Hin). inversion E; subst. clear E.
  apply in_combine_r in Hin. rewrite Forall_forall in Hall.
  rewrite (Hall _ Hin). reflexivity.
Qed.

Lemma http_queries_nonempty sn tr :
  forallb str_truthy (map snd (Prometheus.http_queries sn tr)) = true.
Proof. reflexivity. Qed.

Lemma alert_queries_nonempty sn :
  forallb str_truthy (alert_texts (Prometheus.alert_queries sn)) = true.
Proof. reflexivity. Qed.

(** ** C7 *)

(** C7, as the code has it.  Every Prometheus tool that sends a single
    query validates the backend's own status field: when the decoded reply
    has a status other than [success], the call fails with a
    [PrometheusAPIError] and returns nothing, and whenever a request was
    sent the message is the tool's prefix followed by the error text the
    backend supplied.  The two rollups, [analyze_http_metrics] and
    [check_alerting_thresholds], do not fail on such replies: they return,
    with that message in the [error] field of every entry. *)
Theorem failed_status_reported :
  forall call env w body,
    failed_status body = true ->
    (forall prefix,
        status_prefix call = Some prefix ->
        (forall req, env_http env (List.length (requests w)) req
                     = HttpJson (VDict body)) ->
        exists msg w',
          run_tool call env w = (Raise (Exn PrometheusAPIError msg), w') /\
          (requests w' <> requests w -> msg = prefix ++ error_text body)) /\
    (forall key,
        rollup_items call = Some key ->
        (forall n req, env_http env n req = HttpJson (VDict body)) ->
        exists res items w',
          run_tool call env w = (Ok (VDict res), w') /\
          dict_get key res = Some (VDict items) /\
          forall name entry,
            In (name, entry) items ->
            field "error" entry
              = VStr ("Prometheus query failed: " ++ error_text body)).
Proof.
  intros call env w body Hfailed. split.
  - intros prefix Hprefix Hreply.
    destruct call; cbn [status_prefix] in Hprefix; try discriminate;
      inversion Hprefix; subst prefix; cbn [run_tool].
    + now apply query_prometheus_status.
    + now apply query_range_prometheus_status.
    + now apply get_metrics_metadata_status.
    + now apply get_label_names_status.
    + now apply get_label_values_status.
    + now apply get_series_status.
  - intros key Hkey Hreply.
    destruct call; cbn [rollup_items] in Hkey; try discriminate;
      inversion Hkey; subst key; cbn [run_tool].
    + pose proof (sub_runs_failed_status env body _ (tick w) Hreply Hfailed
                    (http_queries_nonempty service_name time_range)) as Hall.
      destruct (analyze_http_metrics_run env w service_name time_range)
        as (res & w' & Hrun & Hm).
      { eapply all_failed_settled; [| exact Hall]. reflexivity. }
      exists res. eexists. exists w'.
      split; [exact Hrun |]. split; [exact Hm |].
      intros name entry Hin.
      apply (metrics_of_failed _ _ _ _ _ Hall Hin).
    + pose proof (sub_runs_failed_status env body _ (tick w) Hreply Hfailed
                    (alert_queries_nonempty service_name)) as Hall.
      destruct (check_alerting_thresholds_run env w service_name)
        as (res & w' & t & f & c & wn & Hrun & Hres & _).
      { eapply all_failed_settled; [| exact Hall]. reflexivity. }
      exists res. eexists. exists w'.
      split; [exact Hrun |]. split; [rewrite Hres; reflexivity |].
      intros name entry Hin.
      apply (alerts_of_failed _ _ _ _ _ Hall Hin).
Qed.

Lemma failed_status_reported_witness :
  (exists msg w',
      Prometheus.query_prometheus "up" None Data.bad_query_env world0
        = (Raise (Exn PrometheusAPIError msg), w') /\
      (requests w' <> requests world0 ->
       msg = "Prometheus query failed: parse error: unexpected end of input")) /\
  (exists res items w',
      Prometheus.check_alerting_thresholds None Data.bad_query_env world0
        = (Ok (VDict res), w') /\
      dict_get "alerts" res = Some (VDict items) /\
      forall name entry,
        In (name, entry) items ->
        field "error" entry
          = VStr "Prometheus query failed: parse error: unexpected end of input").
Proof.
  split.
  - apply (proj1 (failed_status_reported
                    (PrometheusQuery "up" None) Data.bad_query_env world0
                    [("status", VStr "error"); ("errorType", VStr "bad_data");
                     ("error", VStr "parse error: unexpected end of input")]
                    eq_refl)
                 "Prometheus query failed: " eq_refl).
    intros req. reflexivity.
  - apply (proj2 (failed_status_reported
                    (PrometheusCheckAlertingThresholds None)
                    Data.bad_query_env world0
                    [("status", VStr "error"); ("errorType", VStr "bad_data");
                     ("error", VStr "parse error: unexpected end of input")]
                    eq_refl)
                 "alerts" eq_refl).
    intros n req. reflexivity.
Defined.

(** On replies with status [error] the rollup does not fail with a
    [PrometheusAPIError]: it returns its eight entries. *)
Lemma analyze_http_metrics_returns_on_failed_status :
  (forall n req,
      exists body, env_http Data.bad_query_env n req = HttpJson (VDict body) /\
                   failed_status body = true) /\
  exists res metrics w',
    Prometheus.analyze_http_metrics (Some "checkout") "5m"
                                    Data.bad_query_env world0
      = (Ok (VDict res), w') /\
    dict_get "metrics" res = Some (VDict metrics) /\
    List.length metrics = 8%nat.
Proof.
  split; [intros n req; eexists; split; reflexivity |].
  do 3 eexists. split; [vm_compute; reflexivity |].
  split; reflexivity.
Qed.

Lemma alerts_of_get (qs : list (string * Prometheus.alert_config))
    (outs : list (result value)) (i : nat) (name : string)
    (cfg : Prometheus.alert_config) (out : result value) :
  NoDup (map fst qs) ->
  nth_error qs i = Some (name, cfg) ->
  nth_error outs i = Some out ->
  dict_get name (alerts_of qs outs) = Some (alert_entry cfg out).
Proof.
  revert outs i. induction qs as [| [n0 c0] qs IH]; intros outs i Hnd Hq Ho.
  - destruct i; discriminate.
  - destruct outs as [| o outs]; [destruct i; discriminate |].
    inversion Hnd as [| ? ? Hnotin Hnd']; subst.
    destruct i as [| i]; simpl in Hq, Ho.
    + inversion Hq; inversion Ho; subst.
      unfold alerts_of. simpl. now rewrite String.eqb_refl.
    + unfold alerts_of. simpl.
      destruct (String.eqb name n0) eqn:E.
      * apply String.eqb_eq in E. subst n0. exfalso. apply Hnotin.
        apply nth_error_In in Hq.
        apply (in_map fst) in Hq. exact Hq.
      * now apply (IH outs i).
Qed.

(** The trace-log correlation passes the failure of its one query on. *)
Lemma search_logs_by_trace_id_reraises trace_id label start_time end_time limit
    env w e w' :
  trace_id <> "" -> label <> "" ->
  Loki.query_logs ("{" ++ label ++ "} | json | trace_id=" ++ dq ++ trace_id ++ dq)
                  (if opt_truthy start_time then start_time else Some "1h")
                  end_time limit "backward" env w
    = (Raise e, w') ->
  Loki.search_logs_by_trace_id trace_id label start_time end_time limit env w
    = (Raise e, w').
Proof.
  intros Ht Hl Hq.
  pose proof (tool_try_raises _ _ _ _ _ _ _ Hq) as Hcls.
  destruct e as [cls msg]. cbn [exn_cls] in Hcls. subst cls.
  unfold Loki.search_logs_by_trace_id.
  apply tool_try_run_raise.
  destruct trace_id as [| c1 t]; [congruence |].
  destruct label as [| c2 l]; [congruence |].
  cbn [str_truthy negb when_].
  eapply bind_run; [reflexivity | cbv beta].
  eapply bind_run; [reflexivity | cbv beta zeta].
  apply bind_run_raise. exact Hq.
Qed.

(** ** C2 *)

(** C2, as the code has it.  In the two Prometheus rollups, the HTTP-metrics
    rollup [analyze_http_metrics] and the alert-threshold check
    [check_alerting_thresholds], a sub-query that fails with a
    [PrometheusAPIError] is caught on its own and recorded as the error
    entry of its item: the call returns whenever each sub-query returned or
    failed so.  The trace-log correlation [search_logs_by_trace_id] has one
    underlying query and no entry for its failure: when [query_logs]
    raises, the same error is raised by the whole call. *)
Theorem composite_sub_query_failures :
  forall env w,
    (forall service_name time_range,
        forallb settled (metric_outcomes env service_name time_range w) = true ->
        exists res metrics w',
          Prometheus.analyze_http_metrics service_name time_range env w
            = (Ok (VDict res), w') /\
          dict_get "metrics" res = Some (VDict metrics) /\
          forall i name q e,
            nth_error (Prometheus.http_queries service_name time_range) i
              = Some (name, q) ->
            nth_error (metric_outcomes env service_name time_range w) i
              = Some (Raise e) ->
            dict_get name metrics
              = Some (VDict [("query", VStr q); ("error", VStr (exn_str e));
                             ("status", VStr "error")])) /\
    (forall service_name,
        forallb settled (alert_outcomes env service_name w) = true ->
        exists res alerts w',
          Prometheus.check_alerting_thresholds service_name env w
            = (Ok (VDict res), w') /\
          dict_get "alerts" res = Some (VDict alerts) /\
          forall i name cfg e,
            nth_error (Prometheus.alert_queries service_name) i
              = Some (name, cfg) ->
            nth_error (alert_outcomes env service_name w) i = Some (Raise e) ->
            dict_get name alerts
              = Some (VDict [("query", VStr (Prometheus.alert_query cfg));
                             ("description",
                              VStr (Prometheus.alert_description cfg));
                             ("severity", VStr (Prometheus.alert_severity cfg));
                             ("error", VStr (exn_str e));
                             ("firing", VBool false)])) /\
    (forall trace_id label start_time end_time limit e w',
        trace_id <> "" -> label <> "" ->
        Loki.query_logs
          ("{" ++ label ++ "} | json | trace_id=" ++ dq ++ trace_id ++ dq)
          (if opt_truthy start_time then start_time else Some "1h")
          end_time limit "backward" env w
          = (Raise e, w') ->
        Loki.search_logs_by_trace_id trace_id label start_time end_time limit
                                     env w
          = (Raise e, w')).
Proof.
  intros env w. split; [| split].
  - intros sn tr Hs.
    destruct (analyze_http_metrics_run env w sn tr Hs) as (res & w' & Hrun & Hm).
    exists res. eexists. exists w'.
    split; [exact Hrun |]. split; [exact Hm |].
    intros i name q e Hq Ho.
    apply (metrics_of_get _ _ i name q (Raise e)); auto.
    apply http_queries_distinct.
  - intros sn Hs.
    destruct (check_alerting_thresholds_run env w sn Hs)
      as (res & w' & t & f & c & wn & Hrun & Hres & _).
    exists res. eexists. exists w'.
    split; [exact Hrun |]. split; [rewrite Hres; reflexivity |].
    intros i name cfg e Hq Ho.
    apply (alerts_of_get _ _ i name cfg (Raise e)); auto.
    apply alert_queries_distinct.
  - intros. now apply search_logs_by_trace_id_reraises.
Qed.

Lemma composite_sub_query_failures_witness :
  (exists res metrics w',
      Prometheus.analyze_http_metrics (Some "checkout") "5m"
                                      Data.rollup_env world0
        = (Ok (VDict res), w') /\
      dict_get "metrics" res = Some (VDict metrics) /\
      forall i name q e,
        nth_error (Prometheus.http_queries (Some "checkout") "5m") i
          = Some (name, q) ->
        nth_error (metric_outcomes Data.rollup_env (Some "checkout") "5m" world0) i
          = Some (Raise e) ->
        dict_get name metrics
          = Some (VDict [("query", VStr q); ("error", VStr (exn_str e));
                         ("status", VStr "error")])) /\
  (exists res alerts w',
      Prometheus.check_alerting_thresholds (Some "checkout")
                                           Data.alerts_env world0
        = (Ok (VDict res), w') /\
      dict_get "alerts" res = Some (VDict alerts) /\
      forall i name cfg e,
        nth_error (Prometheus.alert_queries (Some "checkout")) i
          = Some (name, cfg) ->
        nth_error (alert_outcomes Data.alerts_env (Some "checkout") world0) i
          = Some (Raise e) ->
        dict_get name alerts
          = Some (VDict [("query", VStr (Prometheus.alert_query cfg));
                         ("description",
                          VStr (Prometheus.alert_description cfg));
                         ("severity", VStr (Prometheus.alert_severity cfg));
                         ("error", VStr (exn_str e));
                         ("firing", VBool false)])) /\
  Loki.search_logs_by_trace_id "abc123" "service_name=~.+" None None 100
                               Data.down_env world0
    = (Raise (Exn LokiAPIError
                  "Failed to call Loki API: All connection attempts failed"),
       sent (Request "http://localhost:3100/loki/api/v1/query_range"
               (Some [("query",
                       VStr ("{service_name=~.+} | json | trace_id="
                               ++ dq ++ "abc123" ++ dq));
                      ("limit", VInt 100); ("direction", VStr "backward");
                      ("start", VStr "2023-12-31T23:00:00.000000Z")]))
            (tick world0)).
Proof.
  destruct (composite_sub_query_failures Data.rollup_env world0) as (Hm & _ & _).
  destruct (composite_sub_query_failures Data.alerts_env world0) as (_ & Ha & _).
  destruct (composite_sub_query_failures Data.down_env world0) as (_ & _ & Hl).
  split; [| split].
  - apply Hm. reflexivity.
  - apply Ha. reflexivity.
  - apply Hl.
    + discriminate.
    + discriminate.
    + vm_compute. reflexivity.
Defined.

(** The one underlying query of the trace-log correlation fails, and the
    whole call raises: no result with an error entry is returned. *)
Lemma search_logs_by_trace_id_fails_whole :
  (exists e w',
      Loki.query_logs ("{service_name=~.+} | json | trace_id="
                         ++ dq ++ "abc123" ++ dq)
                      (Some "1h") None 100 "backward" Data.down_env world0
        = (Raise e, w')) /\
  ~ (exists r w',
        Loki.search_logs_by_trace_id "abc123" "service_name=~.+" None None 100
                                     Data.down_env world0
          = (Ok r, w')).
Proof.
  split.
  - do 2 eexists. vm_compute. reflexivity.
  - intros (r & w' & H). vm_compute in H. discriminate H.
Qed.

(* ================================================================= *)
(** ** Further properties of the tools *)

(** X1.  A tool refuses a missing required argument (an empty query, trace
    id, label or service name, an empty selector list) with its backend's
    error and the message of the check, before the clock is read or a
    request is sent. *)
Theorem refused_before_any_request :
  forall call env w msg,
    refused call = Some msg ->
    run_tool call env w = (Raise (Exn (error_kind call) msg), w).
Proof.
  intros call env w msg H.
  destruct call; cbn [refused] in H; try discriminate.
  - destruct trace_id; inversion H. reflexivity.
  - destruct service_name; inversion H. reflexivity.
  - destruct query; inversion H. reflexivity.
  - destruct label; inversion H. reflexivity.
  - destruct trace_id; [inversion H; reflexivity |].
    destruct label; inversion H. reflexivity.
  - destruct query; inversion H. reflexivity.
  - destruct query; [inversion H; reflexivity |].
    destruct start; [inversion H; reflexivity |].
    destruct end_; inversion H. reflexivity.
  - destruct label_name; inversion H. reflexivity.
  - destruct match_; inversion H. reflexivity.
Qed.

Lemma refused_before_any_request_witness :
  Loki.search_logs_by_trace_id "abc123" "" None None 100 Data.idle_env world0
    = (Raise (Exn LokiAPIError "Label is required"), world0) /\
  Prometheus.query_range_prometheus "up" "" "2024-01-01T00:00:00Z" "15s"
                                    Data.idle_env world0
    = (Raise (Exn PrometheusAPIError "Start time is required"), world0).
Proof.
  split.
  - apply (refused_before_any_request
             (LokiSearchLogsByTraceId "abc123" "" None None 100)
             Data.idle_env world0 "Label is required").
    reflexivity.
  - apply (refused_before_any_request
             (PrometheusQueryRange "up" "" "2024-01-01T00:00:00Z" "15s")
             Data.idle_env world0 "Start time is required").
    reflexivity.
Defined.

(** X2.  Whatever the backend replies, a tool that raises raises its own
    backend's error kind; only the two query tools of Prometheus, whose
    [else] block runs outside the handlers, are not covered. *)
Theorem tools_raise_their_backend_error :
  forall call env w e w',
    has_else_block call = false ->
    run_tool call env w = (Raise e, w') ->
    exn_cls e = error_kind call.
Proof.
  intros call env w e w' Hb H.
  destruct call; try discriminate Hb; cbn [run_tool error_kind] in *;
    exact (tool_try_raises _ _ _ _ _ _ _ H).
Qed.

Lemma tools_raise_their_backend_error_witness :
  exists e w',
    Jaeger.search_traces
      Data.search_params
      (Sample.env (Sample.always (HttpJson (VDict [("data", VList [VStr "x"])]))))
      world0
      = (Raise e, w') /\
    exn_cls e = JaegerAPIError.
Proof.
  eexists. eexists. split; [vm_compute; reflexivity |].
  eapply (tools_raise_their_backend_error
            (JaegerSearchTraces Data.search_params)
            (Sample.env (Sample.always
                           (HttpJson (VDict [("data", VList [VStr "x"])]))))
            world0 _ _ eq_refl).
  vm_compute. reflexivity.
Defined.

Lemma check_status_passes body prefix env w :
  dict_get "status" body = Some (VStr "success") ->
  Prometheus.check_status (VDict body) prefix env w = (Ok tt, w).
Proof.
  intros H. unfold Prometheus.check_status.
  eapply bind_run; [apply lift_run | cbv beta].
  cbn [py_get]. rewrite H. reflexivity.
Qed.

Lemma add_warnings_run body base env w :
  exists result,
    Prometheus.add_warnings (VDict body) base env w = (Ok result, w) /\
    (forall k, k <> "warnings" -> dict_get k result = dict_get k base) /\
    (dict_get "warnings" base = None ->
     dict_get "warnings" result = dict_get "warnings" body).
Proof.
  unfold Prometheus.add_warnings, bind, lift, ret. cbn [py_contains py_getitem].
  destruct (dict_get "warnings" body) as [x |] eqn:E.
  - eexists. split; [reflexivity |]. split.
    + intros k Hk. now apply dict_get_set_other.
    + intros _. apply dict_get_set_same.
  - eexists. split; [reflexivity |]. split; auto.
Qed.


Lemma log_result_shape_escapes body data env w :
  dict_get "data" body = Some data ->
  is_dict data = false ->
  Prometheus.log_result_shape (VDict body) env w
    = (Raise (attribute_error data "get"), w).
Proof.
  intros Hd Hn. unfold Prometheus.log_result_shape.
  eapply bind_run; [cbn [py_getitem]; rewrite Hd; apply lift_run | cbv beta].
  apply bind_run_raise. destruct data; try discriminate; reflexivity.
Qed.

(** On a reply with status [success] the body of [query_prometheus]
    builds its result, and what is left to run is the [else] block. *)
Lemma query_prometheus_to_else env w body data query time :
  (forall req, env_http env (List.length (requests w)) req = HttpJson (VDict body)) ->
  success_body body data ->
  str_truthy query = true ->
  exists res,
    Prometheus.query_prometheus query time env w
      = (_ <- Prometheus.log_result_shape (VDict body) ;; ret (VDict res))
          env
          (tick (sent (Request (env_prometheus_url env ++ "/api/v1/query")
                         (Some (Prometheus.set_opt_param "time" time
                                  [("query", VStr query)]))) w)) /\
    dict_get "query" res = Some (VStr query) /\
    dict_get "status" res = Some (VStr "success") /\
    dict_get "data" res = Some data /\
    dict_get "executed_at" res
      = Some (VStr (env_isoformat env (utc (env_now env (clock_reads w))))) /\
    dict_get "warnings" res = dict_get "warnings" body.
Proof.
  intros Hreply [Hs Hd] Hq.
  set (w1 := sent (Request (env_prometheus_url env ++ "/api/v1/query")
                     (Some (Prometheus.set_opt_param "time" time
                              [("query", VStr query)]))) w).
  destruct (add_warnings_run body
              [("query", VStr query); ("status", VStr "success"); ("data", data);
               ("executed_at",
                VStr (env_isoformat env (utc (env_now env (clock_reads w)))))]
              env (tick w1)) as (res & Hrun & Hkeys & Hwarn).
  exists res. split.
  - unfold Prometheus.query_prometheus.
    eapply tool_try_run;
      [ rewrite Hq; cbn [negb when_];
        (eapply bind_run; [reflexivity | cbv beta zeta]);
        (eapply bind_run;
           [apply make_prometheus_request_run; apply Hreply | cbv beta]);
        (eapply bind_run; [apply check_status_passes; exact Hs | cbv beta]);
        (eapply bind_run;
           [cbn [py_getitem]; rewrite Hs; apply lift_run | cbv beta]);
        (eapply bind_run;
           [cbn [py_getitem]; rewrite Hd; apply lift_run | cbv beta]);
        (eapply bind_run; [apply now_iso_run | cbv beta]);
        (eapply bind_run; [exact Hrun | reflexivity])
      | reflexivity ].
  - repeat split; try (rewrite Hkeys by discriminate; reflexivity).
    apply Hwarn. reflexivity.
Qed.

Lemma query_range_prometheus_to_else env w body data query start end_ step :
  (forall req, env_http env (List.length (requests w)) req = HttpJson (VDict body)) ->
  success_body body data ->
  str_truthy query = true -> str_truthy start = true ->
  str_truthy end_ = true ->
  exists res,
    Prometheus.query_range_prometheus query start end_ step env w
      = (_ <- Prometheus.log_result_shape (VDict body) ;; ret (VDict res))
          env
          (tick (sent (Request (env_prometheus_url env ++ "/api/v1/query_range")
                         (Some [("query", VStr query); ("start", VStr start);
                                ("end", VStr end_); ("step", VStr step)])) w)) /\
    dict_get "query" res = Some (VStr query) /\
    dict_get "start" res = Some (VStr start) /\
    dict_get "end" res = Some (VStr end_) /\
    dict_get "step" res = Some (VStr step) /\
    dict_get "status" res = Some (VStr "success") /\
    dict_get "data" res = Some data /\
    dict_get "warnings" res = dict_get "warnings" body.
Proof.
  intros Hreply [Hs Hd] Hq Hst He.
  set (w1 := sent (Request (env_prometheus_url env ++ "/api/v1/query_range")
                     (Some [("query", VStr query); ("start", VStr start);
                            ("end", VStr end_); ("step", VStr step)])) w).
  destruct (add_warnings_run body
              [("query", VStr query); ("start", VStr start);
               ("end", VStr end_); ("step", VStr step);
               ("status", VStr "success"); ("data", data);
               ("executed_at",
                VStr (env_isoformat env (utc (env_now env (clock_reads w)))))]
              env (tick w1)) as (res & Hrun & Hkeys & Hwarn).
  exists res. split.
  - unfold Prometheus.query_range_prometheus.
    eapply tool_try_run;
      [ rewrite Hq, Hst, He; cbn [negb when_];
        (eapply bind_run; [reflexivity | cbv beta zeta]);
        (eapply bind_run; [reflexivity | cbv beta zeta]);
        (eapply bind_run; [reflexivity | cbv beta zeta]);
        (eapply bind_run;
           [apply make_prometheus_request_run; apply Hreply | cbv beta]);
        (eapply bind_run; [apply check_status_passes; exact Hs | cbv beta]);
        (eapply bind_run;
           [cbn [py_getitem]; rewrite Hs; apply lift_run | cbv beta]);
        (eapply bind_run;
           [cbn [py_getitem]; rewrite Hd; apply lift_run | cbv beta]);
        (eapply bind_run; [apply now_iso_run | cbv beta]);
        (eapply bind_run; [exact Hrun | reflexivity])
      | reflexivity ].
  - repeat split; try (rewrite Hkeys by discriminate; reflexivity).
    apply Hwarn. reflexivity.
Qed.


(** X4.  The [else] block of the two query tools is outside their
    handlers: on a reply with status [success] whose data is not an object,
    the tool raises the [AttributeError] of [data.get], not a
    [PrometheusAPIError]. *)
Theorem query_tools_else_block_escapes :
  forall env w body data,
    (forall req, env_http env (List.length (requests w)) req
                 = HttpJson (VDict body)) ->
    success_body body data ->
    is_dict data = false ->
    (forall query time,
        str_truthy query = true ->
        exists w',
          Prometheus.query_prometheus query time env w
            = (Raise (attribute_error data "get"), w')) /\
    (forall query start end_ step,
        str_truthy query = true -> str_truthy start = true ->
        str_truthy end_ = true ->
        exists w',
          Prometheus.query_range_prometheus query start end_ step env w
            = (Raise (attribute_error data "get"), w')).
Proof.
  intros env w body data Hreply Hbody Hn. split.
  - intros query time Hq.
    destruct (query_prometheus_to_else env w body data query time Hreply Hbody Hq)
      as (res & Hrun & _).
    eexists. rewrite Hrun.
    apply bind_run_raise.
    apply (log_result_shape_escapes body data); [apply Hbody | exact Hn].
  - intros query start end_ step Hq Hs He.
    destruct (query_range_prometheus_to_else env w body data query start end_
                step Hreply Hbody Hq Hs He) as (res & Hrun & _).
    eexists. rewrite Hrun.
    apply bind_run_raise.
    apply (log_result_shape_escapes body data); [apply Hbody | exact Hn].
Qed.


Lemma query_tools_else_block_escapes_witness :
  exists w',
    Prometheus.query_prometheus "up" None Data.list_data_env world0
      = (Raise (Exn AttributeError "'list' object has no attribute 'get'"), w').
Proof.
  apply (proj1 (query_tools_else_block_escapes
                  Data.list_data_env world0
                  [("status", VStr "success"); ("data", VList [])] (VList [])
                  (fun req => eq_refl) (conj eq_refl eq_refl) eq_refl)
               "up" None eq_refl).
Defined.

Lemma try_except_run_uncaught {A} clss (body : M A) handler env w e w1 :
  body env w = (Raise e, w1) ->
  existsb (exn_class_eqb (exn_cls e)) clss = false ->
  try_except clss body handler env w = (Raise e, w1).
Proof. unfold try_except. now intros -> ->. Qed.

Lemma query_prometheus_escape_run env w body data query :
  (forall req, env_http env (List.length (requests w)) req = HttpJson (VDict body)) ->
  success_body body data ->
  is_dict data = false ->
  str_truthy query = true ->
  Prometheus.query_prometheus query None env w
    = (Raise (attribute_error data "get"), tick (sent (query_request env query) w)).
Proof.
  intros Hreply Hbody Hn Hq.
  destruct (query_prometheus_to_else env w body data query None Hreply Hbody Hq)
    as (res & Hrun & _).
  rewrite Hrun. apply bind_run_raise.
  apply (log_result_shape_escapes body data); [apply Hbody | exact Hn].
Qed.

(** X5.  A sub-query that escapes with another exception than the
    Prometheus error is not recorded as an entry: on replies with status
    [success] whose data is not an object, each rollup stops at its first
    sub-query, after one request, and fails as a whole with that exception
    wrapped in a [PrometheusAPIError]. *)
Theorem rollups_abort_on_escape :
  forall env w body data,
    (forall n req, env_http env n req = HttpJson (VDict body)) ->
    success_body body data ->
    is_dict data = false ->
    (forall service_name time_range,
        exists w',
          Prometheus.analyze_http_metrics service_name time_range env w
            = (Raise (Exn PrometheusAPIError
                          ("Failed to analyze HTTP metrics: "
                             ++ exn_str (attribute_error data "get"))), w') /\
          List.length (requests w') = S (List.length (requests w))) /\
    (forall service_name,
        exists w',
          Prometheus.check_alerting_thresholds service_name env w
            = (Raise (Exn PrometheusAPIError
                          ("Failed to check alerting thresholds: "
                             ++ exn_str (attribute_error data "get"))), w') /\
          List.length (requests w') = S (List.length (requests w))).
Proof.
  intros env w body data Hreply Hbody Hn.
  assert (Hcls : exn_class_eqb (exn_cls (attribute_error data "get"))
                               PrometheusAPIError = false) by reflexivity.
  split.
  - intros sn tr. eexists. split.
    + unfold Prometheus.analyze_http_metrics.
      apply tool_try_run_wrap; [| exact Hcls].
      eapply bind_run; [apply now_iso_run | cbv beta].
      apply bind_run_raise.
      unfold Prometheus.http_queries. cbn [for_each].
      apply bind_run_raise. unfold Prometheus.run_metric. cbn [fst snd].
      apply bind_run_raise. unfold Prometheus._execute_single_query.
      apply try_except_run_uncaught; [| reflexivity].
      apply bind_run_raise.
      apply (query_prometheus_escape_run env (tick w) body data);
        [intros req; apply Hreply | exact Hbody | exact Hn | reflexivity].
    + reflexivity.
  - intros sn. eexists. split.
    + unfold Prometheus.check_alerting_thresholds.
      apply tool_try_run_wrap; [| exact Hcls].
      eapply bind_run; [apply now_iso_run | cbv beta].
      apply bind_run_raise.
      unfold Prometheus.alert_queries. cbn [for_each].
      apply bind_run_raise. unfold Prometheus.run_alert. cbn [fst snd].
      apply bind_run_raise. unfold Prometheus._execute_alert_query.
      apply try_except_run_uncaught; [| reflexivity].
      apply bind_run_raise.
      apply (query_prometheus_escape_run env (tick w) body data);
        [intros req; apply Hreply | exact Hbody | exact Hn | reflexivity].
    + reflexivity.
Qed.

Lemma rollups_abort_on_escape_witness :
  exists w',
    Prometheus.analyze_http_metrics (Some "checkout") "5m"
                                    Data.list_data_env world0
      = (Raise (Exn PrometheusAPIError
                    "Failed to analyze HTTP metrics: 'list' object has no attribute 'get'"),
         w') /\
    List.length (requests w') = 1%nat.
Proof.
  apply (proj1 (rollups_abort_on_escape
                  Data.list_data_env world0
                  [("status", VStr "success"); ("data", VList [])] (VList [])
                  (fun n req => eq_refl) (conj eq_refl eq_refl) eq_refl)
               (Some "checkout") "5m").
Defined.

(** X6.  [get_series] builds its selector parameter by adding a list to a
    string: with two or more selectors it fails on every input, before any
    request, with the [TypeError] of that addition wrapped in a
    [PrometheusAPIError]. *)
Theorem get_series_rejects_several_selectors :
  forall first second others start end_ env w,
    Prometheus.get_series (first :: second :: others) start end_ env w
      = (Raise (Exn PrometheusAPIError
                    ("Failed to find series: can only concatenate str (not "
                       ++ dq ++ "list" ++ dq ++ ") to str")),
         w).
Proof.
  intros first second others start end_ env w.
  unfold Prometheus.get_series.
  assert (Hloop : Prometheus.match_loop 0 (first :: second :: others) []
                  = Raise (Exn TypeError
                             ("can only concatenate str (not "
                                ++ dq ++ "list" ++ dq ++ ") to str"))).
  { cbn [Prometheus.match_loop Nat.eqb rbind dict_set].
    cbn [py_getitem dict_get String.eqb Ascii.eqb Bool.eqb rbind Prometheus.py_add].
    reflexivity. }
  rewrite (tool_try_run_wrap _ _ _ _ env w
             (Exn TypeError ("can only concatenate str (not "
                               ++ dq ++ "list" ++ dq ++ ") to str")) w).
  - reflexivity.
  - eapply bind_run; [reflexivity | cbv beta].
    apply bind_run_raise. rewrite Hloop. apply lift_run.
  - reflexivity.
Qed.

(** X7.  [get_trace] reports an empty or null [data] as a trace that was
    not found, with the trace id in the message. *)
Theorem get_trace_not_found :
  forall env w trace_id body data,
    trace_id <> "" ->
    next_reply env w (env_jaeger_url env ++ "/api/traces/" ++ trace_id) None
      = HttpJson (VDict body) ->
    dict_get "data" body = Some data ->
    py_truthy data = false ->
    Jaeger.get_trace trace_id env w
      = (Raise (Exn JaegerAPIError ("No trace found with ID: " ++ trace_id)),
         sent (Request (env_jaeger_url env ++ "/api/traces/" ++ trace_id) None) w).
Proof.
  intros env w trace_id body data Hid Hreply Hdata Hfalsy.
  assert (Ht : str_truthy trace_id = true)
    by (destruct trace_id; [congruence | reflexivity]).
  unfold Jaeger.get_trace. apply tool_try_run_raise.
  rewrite Ht. cbn [negb when_].
  eapply bind_run; [reflexivity | cbv beta].
  eapply bind_run; [apply make_jaeger_request_run; exact Hreply | cbv beta].
  eapply bind_run; [apply jaeger_response_data_run; exact Hdata | cbv beta].
  rewrite Hfalsy. cbn [negb when_]. apply bind_run_raise. reflexivity.
Qed.

Lemma get_trace_not_found_witness :
  Jaeger.get_trace "abc123"
                   (Sample.env (Sample.always (HttpJson (VDict [("data", VList [])]))))
                   world0
    = (Raise (Exn JaegerAPIError "No trace found with ID: abc123"),
       sent (Request "http://localhost:16686/api/traces/abc123" None) world0).
Proof.
  apply (get_trace_not_found
           (Sample.env (Sample.always (HttpJson (VDict [("data", VList [])]))))
           world0 "abc123" [("data", VList [])] (VList [])).
  - discriminate.
  - reflexivity.
  - reflexivity.
  - reflexivity.
Defined.

Lemma root_span_info_entry (span : value) :
  wf_span span = true ->
  Jaeger.root_span_info span = Ok (root_entry span).
Proof.
  intros H. unfold Jaeger.root_span_info.
  rewrite (span_service_name_wf _ H).
  destruct span; try discriminate. reflexivity.
Qed.

(** X8.  The root span of a trace is found by a first-match scan: on
    well-formed spans [_find_root_span] reports the first span in source
    order that has no CHILD_OF reference, also when later spans have none
    either, and [None] when every span has one. *)
Theorem find_root_span_first_match :
  forall spans,
    forallb wf_span spans = true ->
    Jaeger._find_root_span (VList spans)
      = Ok (match find parentless spans with
            | Some root => root_entry root
            | None => VNone
            end).
Proof.
  intros spans H. unfold Jaeger._find_root_span. cbn [py_iter rbind].
  induction spans as [| s spans IH]; [reflexivity |].
  cbn [forallb] in H. apply andb_true_iff in H. destruct H as [Hs Hrest].
  cbn [Jaeger.find_root_loop find].
  rewrite (has_parent_wf _ Hs). cbn [rbind].
  destruct (parentless s).
  - cbn [negb]. now apply root_span_info_entry.
  - cbn [negb]. now apply IH.
Qed.

Lemma find_root_span_first_match_witness :
  Jaeger._find_root_span
    (VList [Data.query_span; Data.root_span;
            Data.span "s9" "orphan" "billing" 1704067200000900 7 []])
    = Ok (root_entry Data.root_span).
Proof.
  apply (find_root_span_first_match
           [Data.query_span; Data.root_span;
            Data.span "s9" "orphan" "billing" 1704067200000900 7 []]).
  reflexivity.
Defined.

(** X9.  Without a service name ([None] or the empty string)
    [analyze_service_dependencies] does not filter: every edge of the reply
    is returned, in source order, and counted. *)
Theorem analyze_service_dependencies_unfiltered :
  forall env w service_name lookback_hours body edges,
    opt_truthy service_name = false ->
    next_reply env w (env_jaeger_url env ++ "/api/dependencies")
               (Some (dependencies_params env w lookback_hours))
      = HttpJson (VDict body) ->
    dict_get "data" body = Some (VList edges) ->
    forallb wf_edge edges = true ->
    exists res w' summary unique,
      Jaeger.analyze_service_dependencies service_name lookback_hours env w
        = (Ok (VDict res), w') /\
      dict_get "service_name" res = Some (opt_value service_name) /\
      dict_get "dependencies" res = Some (VList (map edge_entry edges)) /\
      dict_get "summary" res = Some (VDict summary) /\
      dict_get "total_dependencies" summary
        = Some (VInt (Z.of_nat (List.length edges))) /\
      dict_get "unique_services" summary = Some (VList unique) /\
      NoDup unique /\
      forall name,
        In name unique <->
        exists e, In e edges /\
                  (name = field "parent" e \/ name = field "child" e).
Proof.
  intros env w sn lookback_hours body edges Hsn Hreply Hdata Hwf.
  destruct (names_of_spec edges [] Hwf eq_refl (NoDup_nil _)) as (_ & Hnd & Hin).
  eexists. eexists. eexists. exists (names_of edges []).
  split.
  - unfold Jaeger.analyze_service_dependencies.
    eapply tool_try_run;
      [ (eapply bind_run; [reflexivity | cbv beta]);
        (eapply bind_run; [reflexivity | cbv beta zeta]);
        (eapply bind_run;
           [apply make_jaeger_request_run; exact Hreply | cbv beta]);
        (eapply bind_run;
           [apply jaeger_response_data_run; exact Hdata | cbv beta]);
        rewrite Hsn;
        (eapply bind_run; [reflexivity | cbv beta]);
        (eapply bind_run; [apply now_iso_run | cbv beta]);
        (eapply bind_run; [apply lift_run | cbv beta]);
        (eapply bind_run; [apply lift_run | cbv beta]);
        (eapply bind_run;
           [rewrite (rfold_add_dependency _ _ _ Hwf); apply lift_run |]);
        reflexivity
      | reflexivity ].
  - split; [reflexivity |]. split; [reflexivity |]. split; [reflexivity |].
    split; [reflexivity |]. split; [reflexivity |].
    split; [assumption |].
    intros name. rewrite Hin. simpl. tauto.
Qed.

Lemma analyze_service_dependencies_unfiltered_witness :
  exists res w' summary unique,
    Jaeger.analyze_service_dependencies None 24 Data.edges_env world0
      = (Ok (VDict res), w') /\
    dict_get "service_name" res = Some VNone /\
    dict_get "dependencies" res = Some (VList (map edge_entry Data.edges)) /\
    dict_get "summary" res = Some (VDict summary) /\
    dict_get "total_dependencies" summary = Some (VInt 4) /\
    dict_get "unique_services" summary = Some (VList unique) /\
    NoDup unique /\
    forall name,
      In name unique <->
      exists e, In e Data.edges /\
                (name = field "parent" e \/ name = field "child" e).
Proof.
  apply (analyze_service_dependencies_unfiltered
           Data.edges_env world0 None 24 [("data", VList Data.edges)] Data.edges).
  - reflexivity.
  - reflexivity.
  - reflexivity.
  - reflexivity.
Defined.

Lemma str_chars_length (s : string) :
  List.length (str_chars s) = String.length s.
Proof. induction s as [| c s IH]; simpl; congruence. Qed.

Lemma py_iter_len (v : value) (items : list value) (n : Z) :
  py_iter v = Ok items -> py_len v = Ok n -> n = Z.of_nat (List.length items).
Proof.
  destruct v; simpl; try discriminate; intros H1 H2;
    inversion H1; inversion H2; subst.
  - now rewrite length_map, str_chars_length.
  - reflexivity.
  - now rewrite length_map.
Qed.

Lemma rmap_length {A B} (f : A -> result B) (l : list A) (l' : list B) :
  rmap f l = Ok l' -> List.length l' = List.length l.
Proof.
  intros H. apply rmap_ok_Forall2 in H.
  induction H; simpl; congruence.
Qed.






(** On the sample reply of two streams, of two entries and of one, three
    entries are emitted. *)
Example query_logs_sample :
  exists res summary logs w',
    Loki.query_logs "{service_name=~.+}" (Some "1h") None 50 "backward"
                    Data.logs_env world0 = (Ok (VDict res), w') /\
    dict_get "summary" res = Some (VDict summary) /\
    dict_get "total_entries" summary = Some (VInt 3) /\
    dict_get "streams_count" summary = Some (VInt 2) /\
    dict_get "logs" res = Some (VList logs) /\
    map (field "timestamp") logs
      = [VStr "2024-01-01T00:00:00.250000+00:00";
         VStr "2023-12-31T23:59:59+00:00";
         VStr "2023-12-31T23:59:58.500000+00:00"] /\
    map (field "service_name") logs
      = [VStr "user-service"; VStr "user-service"; VStr "profile-service"].
Proof.
  do 4 eexists. split; [vm_compute; reflexivity |].
  repeat split; reflexivity.
Qed.

(** X11.  The trace-log correlation is [query_logs] on the query
    [{label} | json | trace_id="<id>"], over the last hour unless a start
    time is given, with the trace id and the search type added to its
    result. *)
Theorem search_logs_by_trace_id_extends_query_logs :
  forall trace_id label start_time end_time limit env w res w',
    trace_id <> "" -> label <> "" ->
    Loki.query_logs
      ("{" ++ label ++ "} | json | trace_id=" ++ dq ++ trace_id ++ dq)
      (if opt_truthy start_time then start_time else Some "1h")
      end_time limit "backward" env w
      = (Ok (VDict res), w') ->
    Loki.search_logs_by_trace_id trace_id label start_time end_time limit env w
      = (Ok (VDict (dict_set "search_type" (VStr "trace_correlation")
                      (dict_set "trace_id" (VStr trace_id) res))),
         w').
Proof.
  intros trace_id label start_time end_time limit env w res w' Ht Hl Hq.
  unfold Loki.search_logs_by_trace_id.
  destruct trace_id as [| c1 t]; [congruence |].
  destruct label as [| c2 l]; [congruence |].
  eapply tool_try_run;
    [ cbn [str_truthy negb when_];
      (eapply bind_run; [reflexivity | cbv beta]);
      (eapply bind_run; [reflexivity | cbv beta zeta]);
      (eapply bind_run; [exact Hq | cbv beta]);
      (eapply bind_run; [apply lift_run | cbv beta]);
      reflexivity
    | reflexivity ].
Qed.

Lemma search_logs_by_trace_id_extends_witness :
  exists res w',
    Loki.search_logs_by_trace_id "abc123" "service_name=~.+" None None 100
                                 Data.logs_env world0
      = (Ok (VDict (dict_set "search_type" (VStr "trace_correlation")
                      (dict_set "trace_id" (VStr "abc123") res))),
         w') /\
    dict_get "query" res
      = Some (VStr ("{service_name=~.+} | json | trace_id="
                      ++ dq ++ "abc123" ++ dq)).
Proof.
  eexists. eexists. split.
  - apply (search_logs_by_trace_id_extends_query_logs
             "abc123" "service_name=~.+" None None 100 Data.logs_env world0).
    + discriminate.
    + discriminate.
    + vm_compute. reflexivity.
  - reflexivity.
Defined.

Lemma execute_single_query_ok_settled q name env w entry w' :
  Prometheus._execute_single_query q name env w = (Ok entry, w') ->
  settled (fst (Prometheus.query_prometheus q None env w)) = true.
Proof.
  unfold Prometheus._execute_single_query. intros H.
  apply try_except_ok_inv in H. destruct H as [H | (e & w1 & H & Hcls & _)].
  - apply bind_ok_inv in H. destruct H as (r & w1 & -> & _). reflexivity.
  - apply bind_raise_inv in H. destruct H as [-> | (r & w2 & Hq & H)].
    + simpl in *. now rewrite orb_false_r in Hcls.
    + now rewrite Hq.
Qed.

Lemma run_metric_run acc name q env w :
  settled (fst (Prometheus.query_prometheus q None env w)) = true ->
  Prometheus.run_metric acc (name, q) env w
    = (Ok (dict_set name
                    (metric_entry q (fst (Prometheus.query_prometheus q None env w)))
                    acc),
       snd (Prometheus.query_prometheus q None env w)).
Proof.
  intros H. unfold Prometheus.run_metric. cbn [fst snd].
  eapply bind_run; [apply execute_single_query_run; exact H | reflexivity].
Qed.

Lemma metrics_loop_ok_settled env (qs : list (string * string)) (acc : dict)
    (w : World) acc' w' :
  for_each qs Prometheus.run_metric acc env w = (Ok acc', w') ->
  forallb settled (sub_runs env (map snd qs) w) = true.
Proof.
  revert acc w. induction qs as [| [name q] qs IH]; intros acc w H.
  - reflexivity.
  - cbn [for_each] in H.
    apply bind_ok_inv in H. destruct H as (acc1 & w1 & Hrun & H).
    assert (Hq : settled (fst (Prometheus.query_prometheus q None env w)) = true).
    { unfold Prometheus.run_metric in Hrun. cbn [fst snd] in Hrun.
      apply bind_ok_inv in Hrun. destruct Hrun as (entry & w2 & Hrun & _).
      now apply execute_single_query_ok_settled in Hrun. }
    rewrite (run_metric_run _ _ _ _ _ Hq) in Hrun. inversion Hrun; subst.
    cbn [map snd sub_runs forallb].
    rewrite Hq. simpl. eapply IH. exact H.
Qed.

Lemma analyze_http_metrics_ok_settled env w sn tr r w' :
  Prometheus.analyze_http_metrics sn tr env w = (Ok r, w') ->
  forallb settled (metric_outcomes env sn tr w) = true.
Proof.
  unfold Prometheus.analyze_http_metrics. intros H.
  apply tool_try_ok_inv in H. destruct H as (r0 & w0 & H & _).
  apply bind_ok_inv in H. destruct H as (t & w1 & Hnow & H).
  rewrite now_iso_run in Hnow. inversion Hnow; subst.
  apply bind_ok_inv in H. destruct H as (st & w2 & Hloop & _).
  apply metrics_loop_ok_settled in Hloop. exact Hloop.
Qed.

(** X12.  Each rollup returns a result exactly when every one of its
    sub-queries returned or failed with the Prometheus error: a sub-query
    that fails with anything else makes the rollup fail as a whole. *)
Theorem rollups_return_iff_settled :
  forall env w,
    (forall service_name time_range,
        (exists r w',
            Prometheus.analyze_http_metrics service_name time_range env w
              = (Ok r, w'))
        <-> forallb settled (metric_outcomes env service_name time_range w)
            = true) /\
    (forall service_name,
        (exists r w',
            Prometheus.check_alerting_thresholds service_name env w = (Ok r, w'))
        <-> forallb settled (alert_outcomes env service_name w) = true).
Proof.
  intros env w. split.
  - intros sn tr. split.
    + intros (r & w' & H). eapply analyze_http_metrics_ok_settled. exact H.
    + intros H. destruct (analyze_http_metrics_run env w sn tr H)
        as (res & w' & Hrun & _). eauto.
  - intros sn. split.
    + intros (r & w' & H). eapply check_alerting_thresholds_ok_settled. exact H.
    + intros H. destruct (check_alerting_thresholds_run env w sn H)
        as (res & w' & t & f & c & wn & Hrun & _). eauto.
Qed.

(** *** The requests of a tool *)

Lemma quiet_ret {A} (a : A) : quiet (ret a).
Proof. intros env w. reflexivity. Qed.

Lemma quiet_lift {A} (r : result A) : quiet (lift r).
Proof. intros env w. reflexivity. Qed.

Lemma quiet_bind {A B} (m : M A) (k : A -> M B) :
  quiet m -> (forall a, quiet (k a)) -> quiet (bind m k).
Proof.
  intros Hm Hk env w. unfold bind.
  specialize (Hm env w). destruct (m env w) as [[a | e] w1]; cbn [snd] in *.
  - now rewrite Hk.
  - exact Hm.
Qed.

Lemma quiet_now_iso : quiet now_iso.
Proof. intros env w. reflexivity. Qed.

Lemma quiet_check_status response prefix :
  quiet (Prometheus.check_status response prefix).
Proof.
  unfold Prometheus.check_status.
  apply quiet_bind; [apply quiet_lift | intros status].
  destruct (negb (py_eq_str status "success")); [| apply quiet_ret].
  apply quiet_bind; [apply quiet_lift | intros msg]. apply quiet_lift.
Qed.

Lemma quiet_add_warnings response result :
  quiet (Prometheus.add_warnings response result).
Proof.
  unfold Prometheus.add_warnings.
  apply quiet_bind; [apply quiet_lift | intros has].
  destruct has; [| apply quiet_ret].
  apply quiet_bind; [apply quiet_lift | intros x]. apply quiet_ret.
Qed.

Lemma quiet_log_result_shape response :
  quiet (Prometheus.log_result_shape response).
Proof.
  unfold Prometheus.log_result_shape.
  repeat (apply quiet_bind; [apply quiet_lift | intros ?]).
  apply quiet_ret.
Qed.

Lemma tool_try_requests {A B} cls prefix (body : M A) (orelse : A -> M B) env w :
  (forall a, quiet (orelse a)) ->
  requests (snd (tool_try cls prefix body orelse env w))
    = requests (snd (body env w)).
Proof.
  intros Hq. unfold tool_try.
  destruct (body env w) as [[a | e] w1]; cbn [snd].
  - apply Hq.
  - now destruct (exn_class_eqb (exn_cls e) cls).
Qed.

Lemma bind_requests {A B} (m : M A) (k : A -> M B) env w :
  (forall a, quiet (k a)) ->
  requests (snd (bind m k env w)) = requests (snd (m env w)).
Proof.
  intros Hq. unfold bind.
  destruct (m env w) as [[a | e] w1]; cbn [snd]; [apply Hq | reflexivity].
Qed.

Lemma make_prometheus_request_requests endpoint params env w :
  requests (snd (Prometheus.make_prometheus_request endpoint params env w))
    = Request (env_prometheus_url env ++ "/api/v1" ++ endpoint) params
        :: requests w.
Proof.
  unfold Prometheus.make_prometheus_request, bind, ask, make_request.
  destruct (env_http env _ _); reflexivity.
Qed.

(** An instant query sends one request, whatever the reply is. *)
Lemma query_prometheus_requests q env w :
  str_truthy q = true ->
  requests (snd (Prometheus.query_prometheus q None env w))
    = query_request env q :: requests w.
Proof.
  intros Hq. unfold Prometheus.query_prometheus.
  rewrite tool_try_requests.
  2:{ intros rr. apply quiet_bind; [apply quiet_log_result_shape | intros ?].
      apply quiet_ret. }
  rewrite Hq. cbn [negb when_].
  change (requests
            (snd (bind (Prometheus.make_prometheus_request
                          "/query"
                          (Some (Prometheus.set_opt_param
                                   "time" None [("query", VStr q)])))
                       (fun response =>
                          _ <- Prometheus.check_status
                                 response "Prometheus query failed: " ;;
                          status <- lift (py_getitem response "status") ;;
                          data <- lift (py_getitem response "data") ;;
                          executed_at <- now_iso ;;
                          result <- Prometheus.add_warnings response
                                      [("query", VStr q); ("status", status);
                                       ("data", data);
                                       ("executed_at", executed_at)] ;;
                          ret (response, VDict result))
                       env w))
          = query_request env q :: requests w).
  rewrite bind_requests.
  - apply make_prometheus_request_requests.
  - intros response.
    apply quiet_bind; [apply quiet_check_status | intros ?].
    apply quiet_bind; [apply quiet_lift | intros ?].
    apply quiet_bind; [apply quiet_lift | intros ?].
    apply quiet_bind; [apply quiet_now_iso | intros ?].
    apply quiet_bind; [apply quiet_add_warnings | intros ?].
    apply quiet_ret.
Qed.

Lemma sub_world_requests env (qs : list string) (w : World) :
  forallb str_truthy qs = true ->
  requests (sub_world env qs w)
    = (rev (map (query_request env) qs) ++ requests w)%list.
Proof.
  revert w. induction qs as [| q qs IH]; intros w H; [reflexivity |].
  cbn [forallb] in H. apply andb_true_iff in H. destruct H as [Hq Hqs].
  cbn [sub_world map rev]. rewrite (IH _ Hqs), (query_prometheus_requests _ _ _ Hq).
  rewrite <- app_assoc. reflexivity.
Qed.

Lemma http_queries_truthy sn tr :
  forallb str_truthy (map snd (Prometheus.http_queries sn tr)) = true.
Proof. reflexivity. Qed.

Lemma alert_queries_truthy sn :
  forallb str_truthy (alert_texts (Prometheus.alert_queries sn)) = true.
Proof. reflexivity. Qed.

(** X13.  A rollup that returns has sent exactly one instant query for
    each of its PromQL texts, in the order of its table, and nothing else:
    eight requests for the HTTP metrics, five for the threshold checks,
    whether the sub-queries succeeded or not.  (The world lists the
    requests newest first.) *)
Theorem rollups_send_each_query_once :
  forall env w,
    (forall service_name time_range r w',
        Prometheus.analyze_http_metrics service_name time_range env w
          = (Ok r, w') ->
        rev (requests w')
          = (rev (requests w)
               ++ map (query_request env)
                      (map snd (Prometheus.http_queries service_name
                                                        time_range)))%list) /\
    (forall service_name r w',
        Prometheus.check_alerting_thresholds service_name env w = (Ok r, w') ->
        rev (requests w')
          = (rev (requests w)
               ++ map (query_request env)
                      (alert_texts (Prometheus.alert_queries service_name)))%list).
Proof.
  intros env w. split.
  - intros sn tr r w' H.
    pose proof (analyze_http_metrics_ok_settled _ _ _ _ _ _ H) as Hs.
    unfold metric_outcomes in Hs.
    unfold Prometheus.analyze_http_metrics in H.
    apply tool_try_ok_inv in H. destruct H as (r0 & w0 & H & Hret).
    apply ret_inv in Hret. destruct Hret as [_ ->].
    apply bind_ok_inv in H. destruct H as (t & w1 & Hnow & H).
    rewrite now_iso_run in Hnow. inversion Hnow; subst t w1. clear Hnow.
    apply bind_ok_inv in H. destruct H as (st & w2 & Hloop & H).
    apply ret_inv in H. destruct H as [_ ->].
    rewrite metrics_loop_run in Hloop;
      [| exact Hs | apply http_queries_distinct].
    apply (f_equal snd) in Hloop. cbn [snd] in Hloop. rewrite <- Hloop.
    rewrite sub_world_requests by apply http_queries_truthy.
    rewrite rev_app_distr, rev_involutive. reflexivity.
  - intros sn r w' H.
    pose proof (check_alerting_thresholds_ok_settled _ _ _ _ _ H) as Hs.
    unfold alert_outcomes in Hs.
    fold (alert_texts (Prometheus.alert_queries sn)) in Hs.
    unfold Prometheus.check_alerting_thresholds in H.
    apply tool_try_ok_inv in H. destruct H as (r0 & w0 & H & Hret).
    apply ret_inv in Hret. destruct Hret as [_ ->].
    apply bind_ok_inv in H. destruct H as (t & w1 & Hnow & H).
    rewrite now_iso_run in Hnow. inversion Hnow; subst t w1. clear Hnow.
    apply bind_ok_inv in H. destruct H as (st & w2 & Hloop & H).
    rewrite alerts_loop_run in Hloop by exact Hs.
    apply ret_inv in H. destruct H as [_ ->].
    apply (f_equal snd) in Hloop. cbn [snd] in Hloop. rewrite <- Hloop.
    rewrite sub_world_requests by apply alert_queries_truthy.
    rewrite rev_app_distr, rev_involutive. reflexivity.
Qed.

Lemma rollups_send_each_query_once_witness :
  exists r w',
    Prometheus.check_alerting_thresholds (Some "checkout") Data.alerts_env world0
      = (Ok r, w') /\
    rev (requests w')
      = (rev (requests world0)
           ++ map (query_request Data.alerts_env)
                  (alert_texts (Prometheus.alert_queries (Some "checkout"))))%list.
Proof.
  eexists. eexists. split; [vm_compute; reflexivity |].
  eapply (proj2 (rollups_send_each_query_once Data.alerts_env world0)
                (Some "checkout")).
  vm_compute. reflexivity.
Defined.

(** *** The listing tools of Jaeger *)

Lemma stamp_loop_run env (entry : value -> value -> value) (items acc : list value)
    (w : World) :
  for_each items
           (fun acc x => t <- now_iso ;; ret (acc ++ [entry x t])%list)
           acc env w
    = (Ok (acc ++ stamped env entry (clock_reads w) items)%list,
       ticks (List.length items) w).
Proof.
  revert acc w. induction items as [| x items IH]; intros acc w.
  - cbn. rewrite app_nil_r. now destruct w.
  - cbn [for_each stamped List.length].
    eapply bind_run.
    + eapply bind_run; [apply now_iso_run | reflexivity].
    + cbv beta. rewrite IH. rewrite <- app_assoc.
      unfold ticks, tick. cbn [clock_reads requests].
      now rewrite Nat.add_succ_r.
Qed.

(** X14.  The two listing tools of Jaeger send one request and return one
    entry per item of the reply's data, in order; every entry is stamped
    with a read of the clock of its own, so the entries of one call need
    not carry the same time. *)
Theorem jaeger_listings_stamp_each_entry :
  forall env w body data items,
    dict_get "data" body = Some data ->
    py_iter data = Ok items ->
    (next_reply env w (env_jaeger_url env ++ "/api/services") None
       = HttpJson (VDict body) ->
     Jaeger.get_services env w
       = (Ok (VList (stamped env service_entry (clock_reads w) items)),
          ticks (List.length items)
                (sent (Request (env_jaeger_url env ++ "/api/services") None) w)))
    /\
    (forall service_name,
        str_truthy service_name = true ->
        next_reply env w (env_jaeger_url env ++ "/api/operations")
                   (Some [("service", VStr service_name)])
          = HttpJson (VDict body) ->
        Jaeger.get_service_operations service_name env w
          = (Ok (VList (stamped env (operation_entry service_name)
                                (clock_reads w) items)),
             ticks (List.length items)
                   (sent (Request (env_jaeger_url env ++ "/api/operations")
                                  (Some [("service", VStr service_name)])) w))).
Proof.
  intros env w body data items Hdata Hiter. split.
  - intros Hreply. unfold Jaeger.get_services.
    eapply tool_try_run;
      [ (eapply bind_run;
         [apply make_jaeger_request_run; exact Hreply | cbv beta]);
        (eapply bind_run;
         [apply jaeger_response_data_run; exact Hdata | cbv beta]);
        (eapply bind_run; [rewrite Hiter; apply lift_run | cbv beta]);
        (eapply bind_run;
         [apply (stamp_loop_run env service_entry) | cbv beta]);
        reflexivity
      | reflexivity ].
  - intros service_name Hname Hreply. unfold Jaeger.get_service_operations.
    rewrite Hname. cbn [negb when_].
    eapply tool_try_run;
      [ (eapply bind_run; [reflexivity | cbv beta]);
        (eapply bind_run;
         [apply make_jaeger_request_run; exact Hreply | cbv beta]);
        (eapply bind_run;
         [apply jaeger_response_data_run; exact Hdata | cbv beta]);
        (eapply bind_run; [rewrite Hiter; apply lift_run | cbv beta]);
        (eapply bind_run;
         [apply (stamp_loop_run env (operation_entry service_name)) | cbv beta]);
        reflexivity
      | reflexivity ].
Qed.

Lemma jaeger_listings_stamp_each_entry_witness :
  Jaeger.get_services Data.names_env world0
    = (Ok (VList [service_entry (VStr "user-service")
                                (VStr "2024-01-01T00:00:00+00:00");
                  service_entry (VStr "user-db")
                                (VStr "2024-01-01T00:00:01+00:00")]),
       ticks 2 (sent (Request (env_jaeger_url Data.names_env ++ "/api/services")
                              None) world0)).
Proof.
  apply (proj1 (jaeger_listings_stamp_each_entry
                  Data.names_env world0
                  [("data", VList [VStr "user-service"; VStr "user-db"])]
                  (VList [VStr "user-service"; VStr "user-db"])
                  [VStr "user-service"; VStr "user-db"]
                  eq_refl eq_refl)).
  reflexivity.
Defined.

(** *** The metadata of the metrics *)

Lemma add_metric_info_wf (metrics : dict) (name : string) (info : value) :
  match info with VList (x :: _) => is_dict x | _ => true end = true ->
  Prometheus.add_metric_info metrics (name, info)
    = Ok (if described info then dict_set name (description info) metrics
          else metrics).
Proof.
  unfold Prometheus.add_metric_info.
  destruct info as [| | | | l |]; try reflexivity.
  destruct l as [| x l]; [reflexivity |].
  destruct x; try discriminate. reflexivity.
Qed.

Lemma metadata_loop_run (md acc : dict) :
  wf_metadata md = true ->
  NoDup (dict_keys acc ++ dict_keys md)%list ->
  rfold Prometheus.add_metric_info md acc = Ok (acc ++ descriptions md)%list.
Proof.
  revert acc. induction md as [| [name info] md IH]; intros acc Hwf Hnd.
  - cbn. now rewrite app_nil_r.
  - cbn [wf_metadata forallb snd] in Hwf.
    apply andb_true_iff in Hwf. destruct Hwf as [Hinfo Hwf].
    cbn [rfold]. rewrite (add_metric_info_wf _ _ _ Hinfo). cbn [rbind].
    assert (Hfresh : ~ In name (dict_keys acc)).
    { apply NoDup_remove_2 in Hnd. intros Hin. apply Hnd.
      apply in_or_app. now left. }
    unfold descriptions. cbn [filter snd].
    destruct (described info).
    + rewrite (dict_set_fresh _ _ _ Hfresh).
      rewrite IH; [| exact Hwf |].
      * cbn [map fst snd]. now rewrite <- app_assoc.
      * unfold dict_keys in *. rewrite map_app. cbn [map fst].
        now rewrite <- app_assoc.
    + rewrite IH; [reflexivity | exact Hwf |].
      unfold dict_keys in *. cbn [map fst] in Hnd.
      now apply NoDup_remove_1 in Hnd.
Qed.

(** X15.  On a reply with status [success] whose data maps metric names to
    metadata, [get_metrics_metadata] counts every name in [total_metrics]
    but describes, by the type, help and unit of its first record, only
    the names whose metadata is a non-empty list: [total_metrics] can
    exceed the number of metrics described. *)
Theorem get_metrics_metadata_describes_first_records :
  forall env w body md,
    next_reply env w (env_prometheus_url env ++ "/api/v1/metadata") None
      = HttpJson (VDict body) ->
    success_body body (VDict md) ->
    NoDup (dict_keys md) ->
    wf_metadata md = true ->
    exists res w',
      Prometheus.get_metrics_metadata env w = (Ok (VDict res), w') /\
      dict_get "total_metrics" res = Some (VInt (Z.of_nat (List.length md))) /\
      dict_get "metrics" res = Some (VDict (descriptions md)) /\
      (List.length (descriptions md) <= List.length md)%nat.
Proof.
  intros env w body md Hreply [Hstatus Hdata] Hnd Hwf.
  eexists. eexists. split; [| split; [| split]].
  - unfold Prometheus.get_metrics_metadata.
    eapply tool_try_run;
      [ (eapply bind_run;
         [apply make_prometheus_request_run; exact Hreply | cbv beta]);
        (eapply bind_run;
         [apply check_status_passes; exact Hstatus | cbv beta]);
        (eapply bind_run;
         [cbn [py_getitem]; rewrite Hdata; apply lift_run | cbv beta]);
        (eapply bind_run; [apply lift_run | cbv beta]);
        (eapply bind_run; [apply now_iso_run | cbv beta]);
        (eapply bind_run; [apply lift_run | cbv beta]);
        (eapply bind_run;
         [cbn [py_items];
          rewrite (metadata_loop_run md [] Hwf Hnd); apply lift_run
         | cbv beta]);
        reflexivity
      | reflexivity ].
  - reflexivity.
  - reflexivity.
  - unfold descriptions. rewrite length_map. apply filter_length_le.
Qed.

Lemma get_metrics_metadata_describes_witness :
  exists res w',
    Prometheus.get_metrics_metadata Data.metadata_env world0
      = (Ok (VDict res), w') /\
    dict_get "total_metrics" res = Some (VInt 3) /\
    dict_get "metrics" res
      = Some (VDict
                [("http_server_active_requests",
                  VDict [("type", VStr "gauge");
                         ("help", VStr "Number of active HTTP server requests.");
                         ("unit", VStr "{request}")]);
                 ("up", VDict [("type", VStr "gauge"); ("help", VStr "");
                               ("unit", VStr "")])]) /\
    (2 <= 3)%nat.
Proof.
  apply (get_metrics_metadata_describes_first_records
           Data.metadata_env world0
           [("status", VStr "success"); ("data", VDict Data.metadata)]
           Data.metadata).
  - reflexivity.
  - split; reflexivity.
  - repeat constructor; simpl; intuition discriminate.
  - reflexivity.
Defined.

(** *** The services of a trace *)

Lemma add_service_wf (s : pyset) (span : value) :
  wf_span span = true ->
  is_name (span_service span) = true ->
  Jaeger.add_service s span
    = Ok (if py_truthy (span_service span)
          then names_add (span_service span) s else s).
Proof.
  intros Hwf Hname. unfold Jaeger.add_service.
  rewrite (span_service_name_wf _ Hwf).
  destruct span as [| | | | | d]; try discriminate.
  cbn [wf_span] in Hwf. apply andb_true_iff in Hwf. destruct Hwf as [Hp _].
  unfold span_service, field in *. cbn [py_get rbind].
  destruct (dict_get "process" d) as [p |].
  - destruct p as [| | | | | p]; try discriminate. cbn [py_get rbind].
    destruct (dict_get "serviceName" p) as [v |].
    + destruct (py_truthy v); [| reflexivity].
      cbn [rbind]. now apply set_add_name.
    + reflexivity.
  - reflexivity.
Qed.

Lemma services_loop_run (spans : list value) (s : pyset) :
  forallb wf_span spans = true ->
  forallb (fun span => is_name (span_service span)) spans = true ->
  rfold Jaeger.add_service spans s = Ok (services_of spans s).
Proof.
  revert s. induction spans as [| span spans IH]; intros s Hwf Hn;
    [reflexivity |].
  cbn [forallb] in Hwf, Hn.
  apply andb_true_iff in Hwf. destruct Hwf as [Hw Hwf].
  apply andb_true_iff in Hn. destruct Hn as [Hs Hn].
  cbn [rfold]. rewrite (add_service_wf _ _ Hw Hs). cbn [rbind].
  now rewrite IH.
Qed.

Lemma services_of_spec (spans : list value) (s : pyset) :
  forallb (fun span => is_name (span_service span)) spans = true ->
  forallb is_name s = true -> NoDup s ->
  NoDup (services_of spans s) /\
  forall v, In v (services_of spans s)
            <-> In v s \/
                (py_truthy v = true /\
                 exists span, In span spans /\ span_service span = v).
Proof.
  revert s. induction spans as [| span spans IH]; intros s Hn Hs Hnd.
  - simpl. split; [assumption |]. intros v. split; [auto |].
    intros [H | (_ & x & [] & _)]. exact H.
  - cbn [forallb] in Hn. apply andb_true_iff in Hn. destruct Hn as [Hx Hn].
    unfold services_of. cbn [fold_left]. fold (services_of spans).
    destruct (py_truthy (span_service span)) eqn:Ht.
    + destruct (names_add_spec _ _ Hx Hs Hnd) as (Hs1 & Hnd1 & Hin1).
      destruct (IH _ Hn Hs1 Hnd1) as [Hnd2 Hin2].
      split; [assumption |]. intros v. rewrite Hin2, Hin1. split.
      * intros [[-> | H] | (Hv & x & Hx' & E)].
        -- right. split; [assumption |]. exists span. simpl. auto.
        -- now left.
        -- right. split; [assumption |]. exists x. simpl. auto.
      * intros [H | (Hv & x & [<- | Hx'] & E)].
        -- left. now right.
        -- left. left. now symmetry.
        -- right. split; [assumption |]. eauto.
    + destruct (IH _ Hn Hs Hnd) as [Hnd2 Hin2].
      split; [assumption |]. intros v. rewrite Hin2. split.
      * intros [H | (Hv & x & Hx' & E)]; [now left |].
        right. split; [assumption |]. exists x. simpl. auto.
      * intros [H | (Hv & x & [<- | Hx'] & E)]; [now left | | ].
        -- rewrite E in Ht. congruence.
        -- right. split; [assumption |]. eauto.
Qed.

Lemma find_root_loop_total (spans : list value) :
  forallb wf_span spans = true ->
  exists r, Jaeger.find_root_loop spans = Ok r.
Proof.
  induction spans as [| s spans IH]; intros H; [simpl; eauto |].
  cbn [forallb] in H. apply andb_true_iff in H. destruct H as [Hs Hrest].
  cbn [Jaeger.find_root_loop]. rewrite (has_parent_wf _ Hs). cbn [rbind].
  destruct (negb (negb (parentless s))).
  - destruct (root_span_info_wf _ Hs) as (r & -> & _). eauto.
  - now apply IH.
Qed.

(** X16.  The summary of a trace counts its spans and lists its services
    as a set: on well-formed spans whose service names are strings,
    [services] has no duplicates and holds exactly the non-empty service
    names of the spans; spans without a service name add nothing. *)
Theorem process_trace_data_services :
  forall t spans,
    dict_get "spans" t = Some (VList spans) ->
    forallb wf_span spans = true ->
    forallb (fun span => is_name (span_service span)) spans = true ->
    exists entry services,
      Jaeger._process_trace_data (VDict t) = Ok (VDict entry) /\
      dict_get "spans_count" entry
        = Some (VInt (Z.of_nat (List.length spans))) /\
      dict_get "services" entry = Some (VList services) /\
      NoDup services /\
      forall v, In v services
                <-> py_truthy v = true /\
                    exists span, In span spans /\ span_service span = v.
Proof.
  intros t spans Hspans Hwf Hn.
  destruct (find_root_loop_total _ Hwf) as (root & Hroot).
  destruct (services_of_spec spans [] Hn eq_refl (NoDup_nil _)) as [Hnd Hin].
  assert (Hdur : exists d,
             (if py_truthy (VList spans)
              then first <~ py_first (VList spans) ;;
                   py_get first "duration" (VInt 0)
              else Ok (VInt 0)) = Ok d).
  { destruct spans as [| s spans']; [simpl; eauto |].
    cbn [forallb] in Hwf. apply andb_true_iff in Hwf. destruct Hwf as [Hs _].
    destruct s; try discriminate. simpl. eauto. }
  destruct Hdur as (d & Hdur).
  eexists. exists (services_of spans []). split; [| split; [| split; [| split]]].
  - unfold Jaeger._process_trace_data. cbn [py_get]. rewrite Hspans.
    cbn [rbind py_len]. rewrite Hdur. cbn [rbind py_iter].
    rewrite (services_loop_run _ _ Hwf Hn). cbn [rbind].
    unfold Jaeger._find_root_span. cbn [py_iter rbind]. rewrite Hroot.
    cbn [rbind]. reflexivity.
  - reflexivity.
  - reflexivity.
  - exact Hnd.
  - intros v. rewrite Hin. simpl. tauto.
Qed.

Lemma process_trace_data_services_witness :
  exists entry services,
    Jaeger._process_trace_data (VDict Data.trace) = Ok (VDict entry) /\
    dict_get "spans_count" entry = Some (VInt 3) /\
    dict_get "services" entry = Some (VList services) /\
    NoDup services /\
    forall v, In v services
              <-> py_truthy v = true /\
                  exists span,
                    In span [Data.query_span; Data.root_span; Data.render_span]
                    /\ span_service span = v.
Proof.
  apply (process_trace_data_services
           Data.trace [Data.query_span; Data.root_span; Data.render_span]);
    reflexivity.
Defined.

(** *** An unreachable backend *)

Lemma quiet_ask : quiet ask.
Proof. intros env w. reflexivity. Qed.

Lemma quiet_now_utc : quiet now_utc.
Proof. intros env w. reflexivity. Qed.

Lemma quiet_when (c : bool) (body : M unit) : quiet body -> quiet (when_ c body).
Proof. intros H. destruct c; [exact H | apply quiet_ret]. Qed.

Lemma quiet_try_except {A} clss (body : M A) handler :
  quiet body -> (forall s, quiet (handler s)) ->
  quiet (try_except clss body handler).
Proof.
  intros Hb Hh env w. unfold try_except.
  specialize (Hb env w). destruct (body env w) as [[a | e] w1]; cbn [snd] in *.
  - exact Hb.
  - destruct (existsb _ clss); [| exact Hb].
    now rewrite Hh.
Qed.

Ltac quiet_tac :=
  repeat first
    [ apply quiet_ret | apply quiet_lift | apply quiet_now_iso
    | apply quiet_now_utc | apply quiet_ask
    | apply quiet_when
    | apply quiet_bind; [| intros ?]
    | apply quiet_try_except; [| intros ?]
    | match goal with
      | |- quiet (if ?c then _ else _) => destruct c
      | |- quiet (match ?x with _ => _ end) => destruct x
      end ].

Lemma quiet_format_time_for_loki t : quiet (Loki._format_time_for_loki t).
Proof.
  unfold Loki._format_time_for_loki, Loki.format_time_body. quiet_tac.
Qed.

Lemma quiet_set_time_param key t params :
  quiet (Loki.set_time_param key t params).
Proof.
  unfold Loki.set_time_param.
  destruct (opt_truthy t); [| apply quiet_ret].
  apply quiet_bind; [apply quiet_format_time_for_loki | intros ?].
  apply quiet_ret.
Qed.

Lemma quiet_build_query_params query start_time end_time limit direction :
  quiet (Loki._build_query_params query start_time end_time limit direction).
Proof.
  unfold Loki._build_query_params. cbv zeta.
  apply quiet_bind; [apply quiet_set_time_param | intros ?].
  apply quiet_set_time_param.
Qed.

Section GatewayDown.

Variable env : Env.
Variable msg : string.
Hypothesis Hdown : forall n req, env_http env n req = HttpError msg.

Lemma fails_bind_left {A B} e (m : M A) (k : A -> M B) :
  fails_at_gateway env e m -> fails_at_gateway env e (bind m k).
Proof.
  intros H w. destruct (H w) as (e' & w' & Hm & Hw).
  exists e', w'. split; [| exact Hw]. now apply bind_run_raise.
Qed.

Lemma fails_bind_quiet {A B} e (m : M A) (k : A -> M B) :
  quiet m -> (forall a, fails_at_gateway env e (k a)) ->
  fails_at_gateway env e (bind m k).
Proof.
  intros Hq Hk w. specialize (Hq env w). unfold bind.
  destruct (m env w) as [[a | e0] w1]; cbn [snd] in Hq.
  - destruct (Hk a w1) as (e' & w' & Hrun & Hw).
    exists e', w'. split; [exact Hrun |]. now rewrite <- Hq.
  - exists e0, w1. split; [reflexivity | now left].
Qed.

Lemma fails_tool_try {A B} cls text prefix (body : M A) (orelse : A -> M B) :
  fails_at_gateway env (Exn cls text) body ->
  fails_at_gateway env (Exn cls text) (tool_try cls prefix body orelse).
Proof.
  intros H w. destruct (H w) as (e' & w' & Hm & Hw).
  unfold tool_try. rewrite Hm.
  destruct Hw as [Hw | (-> & Hw)].
  - destruct (exn_class_eqb (exn_cls e') cls); eexists; eexists;
      (split; [reflexivity | now left]).
  - cbn [exn_cls]. rewrite (proj2 (exn_class_eqb_eq cls cls) eq_refl).
    eexists. eexists. split; [reflexivity | now right].
Qed.

Lemma fails_make_request cls api url params :
  fails_at_gateway env (Exn cls ("Failed to call " ++ api ++ " API: " ++ msg))
                   (make_request cls api url params).
Proof.
  intros w. unfold make_request. rewrite Hdown.
  eexists. eexists. split; [reflexivity |]. right. split; [reflexivity |].
  eexists. reflexivity.
Qed.

Lemma fails_jaeger endpoint params :
  fails_at_gateway env (Exn JaegerAPIError ("Failed to call Jaeger API: " ++ msg))
                   (Jaeger.make_jaeger_request endpoint params).
Proof.
  unfold Jaeger.make_jaeger_request.
  apply fails_bind_quiet; [apply quiet_ask | intros ?].
  apply (fails_make_request JaegerAPIError "Jaeger").
Qed.

Lemma fails_loki endpoint params :
  fails_at_gateway env (Exn LokiAPIError ("Failed to call Loki API: " ++ msg))
                   (Loki.make_loki_request endpoint params).
Proof.
  unfold Loki.make_loki_request.
  apply fails_bind_quiet; [apply quiet_ask | intros ?].
  apply (fails_make_request LokiAPIError "Loki").
Qed.

Lemma fails_prometheus endpoint params :
  fails_at_gateway env
    (Exn PrometheusAPIError ("Failed to call Prometheus API: " ++ msg))
    (Prometheus.make_prometheus_request endpoint params).
Proof.
  unfold Prometheus.make_prometheus_request.
  apply fails_bind_quiet; [apply quiet_ask | intros ?].
  apply (fails_make_request PrometheusAPIError "Prometheus").
Qed.

Ltac down :=
  apply fails_tool_try; cbv zeta;
  repeat first
    [ apply fails_bind_left;
      solve [apply fails_jaeger | apply fails_loki | apply fails_prometheus]
    | apply fails_bind_quiet;
      [ solve [quiet_tac | apply quiet_build_query_params] | intros ?; cbv zeta ] ].

Lemma query_logs_down query start_time end_time limit direction :
  fails_at_gateway env (Exn LokiAPIError ("Failed to call Loki API: " ++ msg))
    (Loki.query_logs query start_time end_time limit direction).
Proof. unfold Loki.query_logs. down. Qed.

Lemma run_tool_down (call : tool_call) :
  rollup_items call = None ->
  fails_at_gateway env (gateway_error call msg) (run_tool call).
Proof.
  intros Hr.
  destruct call; try discriminate Hr;
    unfold gateway_error; cbn [run_tool error_kind api_name].
  - unfold Jaeger.get_services. down.
  - unfold Jaeger.get_trace. down.
  - unfold Jaeger.analyze_service_dependencies. down.
  - unfold Jaeger.get_service_operations. down.
  - unfold Jaeger.search_traces. down.
  - apply query_logs_down.
  - unfold Loki.get_log_labels. down.
  - unfold Loki.get_label_values. down.
  - unfold Loki.search_logs_by_trace_id.
    apply fails_tool_try; cbv zeta.
    apply fails_bind_quiet; [quiet_tac | intros ?].
    apply fails_bind_quiet; [quiet_tac | intros ?].
    apply fails_bind_left. apply query_logs_down.
  - unfold Prometheus.query_prometheus. down.
  - unfold Prometheus.query_range_prometheus. down.
  - unfold Prometheus.get_metrics_metadata. down.
  - unfold Prometheus.get_label_names. down.
  - unfold Prometheus.get_label_values. down.
  - unfold Prometheus.get_series. down.
Qed.

End GatewayDown.

(** X17.  When the HTTP call to the backend fails, every tool that sends a
    single query fails too, and sends at most one request: either it
    stopped before sending anything, or it sent one request and raises the
    error of its gateway, [Failed to call <backend> API: <text of the HTTP
    error>], with no prefix of the tool added. *)
Theorem unreachable_backend_fails_the_tool :
  forall call env msg w,
    rollup_items call = None ->
    (forall n req, env_http env n req = HttpError msg) ->
    exists e w',
      run_tool call env w = (Raise e, w') /\
      (requests w' = requests w \/
       (e = gateway_error call msg /\
        exists req, requests w' = req :: requests w)).
Proof.
  intros call env msg w Hr Hdown.
  exact (run_tool_down env msg Hdown call Hr w).
Qed.

Lemma unreachable_backend_fails_the_tool_witness :
  exists e w',
    Loki.search_logs_by_trace_id "abc123" "service_name=~.+" None None 100
                                 Data.down_env world0
      = (Raise e, w') /\
    (requests w' = requests world0 \/
     (e = Exn LokiAPIError
              "Failed to call Loki API: All connection attempts failed" /\
      exists req, requests w' = req :: requests world0)).
Proof.
  apply (unreachable_backend_fails_the_tool
           (LokiSearchLogsByTraceId "abc123" "service_name=~.+" None None 100)
           Data.down_env "All connection attempts failed" world0).
  - reflexivity.
  - intros n req. reflexivity.
Defined.

(** On the sample the request was sent. *)
Example unreachable_backend_sample :
  exists w',
    Loki.search_logs_by_trace_id "abc123" "service_name=~.+" None None 100
                                 Data.down_env world0
      = (Raise (Exn LokiAPIError
                    "Failed to call Loki API: All connection attempts failed"),
         w') /\
    List.length (requests w') = 1%nat.
Proof. eexists. split; vm_compute; reflexivity. Qed.

(** *** The time bounds of a log query *)

Lemma unit_seconds_of_unit (s : string) (v : Z) :
  Loki.ends_with_unit s = true ->
  Loki.unit_seconds (match str_last s with Some c => c | None => "s"%char end) v
    <> None.
Proof.
  unfold Loki.ends_with_unit, Loki.unit_seconds.
  destruct (str_last s) as [c |]; [| discriminate].
  destruct (Ascii.eqb c "s"); [discriminate |].
  destruct (Ascii.eqb c "m"); [discriminate |].
  destruct (Ascii.eqb c "h"); discriminate.
Qed.

(** What the [try] block of the formatter returns is a formatted time:
    the branch that returns [None] is never taken. *)
Lemma format_time_body_formatted env w s r w' :
  Loki.format_time_body s env w = (Ok r, w') ->
  r = None \/ exists us, r = Some (VStr (env_strftime env us)).
Proof.
  unfold Loki.format_time_body.
  destruct (Loki.ends_with_unit s) eqn:Hu.
  - intros H. apply bind_ok_inv in H. destruct H as (v & w1 & _ & H).
    pose proof (unit_seconds_of_unit s v Hu) as Hsecs.
    destruct (Loki.unit_seconds _ v) as [secs |]; [| congruence].
    apply bind_ok_inv in H. destruct H as (delta & w2 & _ & H).
    apply bind_ok_inv in H. destruct H as (now & w3 & _ & H).
    apply bind_ok_inv in H. destruct H as (target & w4 & _ & H).
    apply bind_ok_inv in H. destruct H as (env' & w5 & Hask & H).
    unfold ask in Hask. inversion Hask; subst env' w5.
    apply ret_inv in H. destruct H as [H _]. injection H as ->. right. eauto.
  - destruct (str_contains "T" s).
    + intros H. apply bind_ok_inv in H. destruct H as (env' & w1 & Hask & H).
      unfold ask in Hask. inversion Hask; subst env' w1.
      destruct (env_fromisoformat env s) as [dt |].
      * apply ret_inv in H. destruct H as [H _]. injection H as ->. right. eauto.
      * discriminate.
    + intros H. apply ret_inv in H. destruct H as [H _]. injection H as ->. now left.
Qed.

Lemma format_time_never_none env w t v w' :
  (forall us, env_strftime env us <> "") ->
  opt_truthy t = true ->
  Loki._format_time_for_loki t env w = (Ok v, w') ->
  exists text, v = VStr text /\ text <> "".
Proof.
  intros Hfmt Ht. destruct t as [s |]; [| discriminate].
  cbn [opt_truthy] in Ht. unfold Loki._format_time_for_loki. rewrite Ht.
  cbn [negb]. intros H.
  assert (Hs : s <> "") by (destruct s; [discriminate | congruence]).
  apply try_except_ok_inv in H. destruct H as [H | (e & w1 & _ & _ & H)].
  - apply bind_ok_inv in H. destruct H as (r & w1 & Hbody & H).
    destruct (format_time_body_formatted _ _ _ _ _ Hbody) as [-> | (us & ->)];
      apply ret_inv in H; destruct H as [H _]; injection H as ->; eauto.
  - apply ret_inv in H. destruct H as [H _]. injection H as ->. eauto.
Qed.

Lemma set_time_param_ok env w key t params params' w' :
  (forall us, env_strftime env us <> "") ->
  Loki.set_time_param key t params env w = (Ok params', w') ->
  if opt_truthy t
  then exists text, text <> "" /\ params' = dict_set key (VStr text) params
  else params' = params.
Proof.
  intros Hfmt. unfold Loki.set_time_param.
  destruct (opt_truthy t) eqn:Ht.
  - intros H. apply bind_ok_inv in H. destruct H as (v & w1 & Hf & H).
    destruct (format_time_never_none _ _ _ _ _ Hfmt Ht Hf) as (text & -> & Hne).
    apply ret_inv in H. destruct H as [H _]. injection H as ->.
    exists text. split; [exact Hne |].
    destruct text; [congruence | reflexivity].
  - intros H. apply ret_inv in H. destruct H as [H _]. now injection H as ->.
Qed.

(** X18.  Where the formatter of the time bounds returns, the parameters
    of a log query carry the query, the limit and the direction, a [start]
    exactly when a non-empty start time was given and an [end] exactly when
    a non-empty end time was given, each a non-empty text: for a non-empty
    time the formatter never yields [None], so no given bound is dropped. *)
Theorem build_query_params_keeps_given_bounds :
  forall env w query start_time end_time limit direction params w',
    (forall us, env_strftime env us <> "") ->
    Loki._build_query_params query start_time end_time limit direction env w
      = (Ok params, w') ->
    dict_get "query" params = Some (VStr query) /\
    dict_get "limit" params = Some (VInt limit) /\
    dict_get "direction" params = Some (VStr direction) /\
    (if opt_truthy start_time
     then exists text, text <> "" /\ dict_get "start" params = Some (VStr text)
     else dict_get "start" params = None) /\
    (if opt_truthy end_time
     then exists text, text <> "" /\ dict_get "end" params = Some (VStr text)
     else dict_get "end" params = None).
Proof.
  intros env w query start_time end_time limit direction params w' Hfmt H.
  unfold Loki._build_query_params in H. cbv zeta in H.
  apply bind_ok_inv in H. destruct H as (p1 & w1 & Hstart & Hend).
  apply (set_time_param_ok _ _ _ _ _ _ _ Hfmt) in Hstart.
  apply (set_time_param_ok _ _ _ _ _ _ _ Hfmt) in Hend.
  assert (Hq1 : dict_get "query" p1 = Some (VStr query) /\
                dict_get "limit" p1 = Some (VInt limit) /\
                dict_get "direction" p1 = Some (VStr direction) /\
                dict_get "end" p1 = None).
  { destruct (opt_truthy start_time).
    - destruct Hstart as (text & _ & ->).
      rewrite !dict_get_set_other by discriminate. repeat split.
    - subst p1. repeat split. }
  destruct Hq1 as (Hq & Hl & Hd & He).
  assert (Hkeep : forall k, k <> "end" -> dict_get k params = dict_get k p1).
  { intros k Hk. destruct (opt_truthy end_time).
    - destruct Hend as (text & _ & ->). now apply dict_get_set_other.
    - now subst params. }
  rewrite !Hkeep by discriminate.
  split; [exact Hq |]. split; [exact Hl |]. split; [exact Hd |]. split.
  - destruct (opt_truthy start_time).
    + destruct Hstart as (text & Hne & ->). exists text.
      split; [exact Hne | apply dict_get_set_same].
    + now subst p1.
  - destruct (opt_truthy end_time).
    + destruct Hend as (text & Hne & ->). exists text.
      split; [exact Hne | apply dict_get_set_same].
    + now subst params.
Qed.

Lemma strftime_not_empty (us : Z) : Sample.strftime us <> "".
Proof.
  unfold Sample.strftime.
  destruct (Sample.date_time_text us); discriminate.
Qed.

Lemma build_query_params_keeps_given_bounds_witness :
  exists params w',
    Loki._build_query_params "{service_name=~.+}" (Some "5m") (Some "") 50
                             "backward" Data.idle_env world0
      = (Ok params, w') /\
    dict_get "query" params = Some (VStr "{service_name=~.+}") /\
    dict_get "limit" params = Some (VInt 50) /\
    dict_get "direction" params = Some (VStr "backward") /\
    (exists text, text <> "" /\ dict_get "start" params = Some (VStr text)) /\
    dict_get "end" params = None.
Proof.
  eexists. eexists. split; [vm_compute; reflexivity |].
  eapply (build_query_params_keeps_given_bounds
            Data.idle_env world0 "{service_name=~.+}" (Some "5m") (Some "") 50
            "backward").
  - intros us. apply strftime_not_empty.
  - vm_compute. reflexivity.
Defined.

(** X19.  A trace search that returns has sent one request, with the
    parameters [_build_trace_search_params] built, and read the clock once;
    its [total_found] is the number of trace entries it returns, and its
    [search_parameters] echo the arguments as they were given, not as they
    were sent. *)
Theorem search_traces_counts :
  forall params env w r w',
    Jaeger.search_traces params env w = (Ok r, w') ->
    exists res entries summary query_params,
      r = VDict res /\
      dict_get "traces" res = Some (VList entries) /\
      dict_get "summary" res = Some (VDict summary) /\
      dict_get "total_found" summary
        = Some (VInt (Z.of_nat (List.length entries))) /\
      dict_get "search_parameters" res = Some (Jaeger.search_parameters params) /\
      Jaeger._build_trace_search_params env params = Ok query_params /\
      w' = tick (sent (Request (env_jaeger_url env ++ "/api/traces")
                               (Some query_params)) w).
Proof.
  intros params env w r w' H.
  unfold Jaeger.search_traces in H.
  apply tool_try_ok_inv in H. destruct H as (r0 & w0 & H & Hret).
  apply ret_inv in Hret. destruct Hret as [Hret ->]. inversion Hret; subst r0.
  apply bind_ok_inv in H. destruct H as (env' & w1 & Hask & H).
  unfold ask in Hask. inversion Hask; subst env' w1. clear Hask.
  apply bind_ok_inv in H. destruct H as (query_params & w1 & Hq & H).
  apply lift_inv in Hq. destruct Hq as [Hq ->].
  apply bind_ok_inv in H. destruct H as (response & w1 & Hreq & H).
  apply make_jaeger_request_ok in Hreq. destruct Hreq as [_ ->].
  apply bind_ok_inv in H. destruct H as (data & w1 & Hdata & H).
  apply jaeger_response_data_ok in Hdata. destruct Hdata as [_ ->].
  apply bind_ok_inv in H. destruct H as (items & w1 & Hitems & H).
  apply lift_inv in Hitems. destruct Hitems as [Hitems ->].
  apply bind_ok_inv in H. destruct H as (entries & w1 & Hentries & H).
  apply lift_inv in Hentries. destruct Hentries as [Hentries ->].
  apply bind_ok_inv in H. destruct H as (total & w1 & Htotal & H).
  apply lift_inv in Htotal. destruct Htotal as [Htotal ->].
  apply bind_ok_inv in H. destruct H as (search_time & w1 & Hnow & H).
  rewrite now_iso_run in Hnow. inversion Hnow; subst search_time w1. clear Hnow.
  apply ret_inv in H. destruct H as [H ->]. inversion H; subst r. clear H.
  eexists. exists entries. eexists. exists query_params.
  split; [reflexivity |]. split; [reflexivity |]. split; [reflexivity |].
  split.
  - cbn. rewrite (py_iter_len _ _ _ Hitems Htotal).
    now rewrite (rmap_length _ _ _ Hentries).
  - split; [reflexivity |]. split; [exact Hq | reflexivity].
Qed.

Lemma search_traces_counts_witness :
  exists r w',
    Jaeger.search_traces Data.search_params Data.trace_env world0 = (Ok r, w') /\
    exists res entries summary query_params,
      r = VDict res /\
      dict_get "traces" res = Some (VList entries) /\
      dict_get "summary" res = Some (VDict summary) /\
      dict_get "total_found" summary
        = Some (VInt (Z.of_nat (List.length entries))) /\
      dict_get "search_parameters" res
        = Some (Jaeger.search_parameters Data.search_params) /\
      Jaeger._build_trace_search_params Data.trace_env Data.search_params
        = Ok query_params /\
      w' = tick (sent (Request (env_jaeger_url Data.trace_env ++ "/api/traces")
                               (Some query_params)) world0).
Proof.
  eexists. eexists. split; [vm_compute; reflexivity |].
  eapply (search_traces_counts Data.search_params Data.trace_env world0).
  vm_compute. reflexivity.
Defined.

(** X20.  With exactly one selector [get_series] sends it as the text of
    [match[]], with [start] and [end] when they are given and not empty;
    on a reply with status [success] it returns the reply's data as the
    series, counted, and echoes its arguments. *)
Theorem get_series_single_selector :
  forall selector start end_ env w body data n,
    next_reply env w (env_prometheus_url env ++ "/api/v1/series")
               (Some (Prometheus.set_opt_param "end" end_
                        (Prometheus.set_opt_param "start" start
                           [("match[]", VStr selector)])))
      = HttpJson (VDict body) ->
    success_body body data ->
    py_len data = Ok n ->
    Prometheus.get_series [selector] start end_ env w
      = (Ok (VDict [("match_selectors", VList [VStr selector]);
                    ("start", opt_value start); ("end", opt_value end_);
                    ("series", data); ("total_series", VInt n);
                    ("retrieved_at",
                     VStr (env_isoformat env
                             (utc (env_now env (clock_reads w)))))]),
         tick (sent (Request (env_prometheus_url env ++ "/api/v1/series")
                             (Some (Prometheus.set_opt_param "end" end_
                                      (Prometheus.set_opt_param "start" start
                                         [("match[]", VStr selector)]))))
                    w)).
Proof.
  intros selector start end_ env w body data n Hreply [Hstatus Hdata] Hlen.
  unfold Prometheus.get_series.
  eapply tool_try_run;
    [ cbn [when_];
      (eapply bind_run; [reflexivity | cbv beta]);
      (eapply bind_run; [apply lift_run | cbv beta zeta]);
      cbn [dict_set String.eqb Ascii.eqb Bool.eqb];
      (eapply bind_run;
       [apply make_prometheus_request_run; exact Hreply | cbv beta]);
      (eapply bind_run;
       [apply check_status_passes; exact Hstatus | cbv beta]);
      (eapply bind_run;
       [cbn [py_getitem]; rewrite Hdata; apply lift_run | cbv beta]);
      (eapply bind_run;
       [cbn [py_getitem]; rewrite Hdata; apply lift_run | cbv beta]);
      (eapply bind_run; [rewrite Hlen; apply lift_run | cbv beta]);
      (eapply bind_run; [apply now_iso_run | cbv beta]);
      reflexivity
    | reflexivity ].
Qed.

Lemma get_series_single_selector_witness :
  Prometheus.get_series ["up"] (Some "2024-01-01T00:00:00Z") (Some "")
                        Data.metadata_env world0
    = (Ok (VDict [("match_selectors", VList [VStr "up"]);
                  ("start", VStr "2024-01-01T00:00:00Z"); ("end", VStr "");
                  ("series", VDict Data.metadata); ("total_series", VInt 3);
                  ("retrieved_at", VStr "2024-01-01T00:00:00+00:00")]),
       tick (sent (Request "http://localhost:9090/api/v1/series"
                           (Some [("match[]", VStr "up");
                                  ("start", VStr "2024-01-01T00:00:00Z")]))
                  world0)).
Proof.
  apply (get_series_single_selector
           "up" (Some "2024-01-01T00:00:00Z") (Some "") Data.metadata_env world0
           [("status", VStr "success"); ("data", VDict Data.metadata)]
           (VDict Data.metadata) 3).
  - reflexivity.
  - split; reflexivity.
  - reflexivity.
Defined.
